(** * Jallib tools: the blink-a-led sample generator (tools/blink-a-led.py)

    A shallow embedding of the device-file scanner, the pin selector, the
    sample synthesizer, the compile step and the oscillator rule engine of
    [blink-a-led.py], followed by the properties established about them.

    Conventions of the embedding
    - Python [str] is [string], the bytes of its UTF-8 encoding.
      Comparison, concatenation, prefix tests and substring search are the
      same on the bytes as on the characters, and [split] knows every white
      space character of Unicode.  [upper], [int], the slices counted from
      the end and the padding of a field are those of Python on strings of
      ASCII characters ([is_ascii]); a property that rests on them, or on a
      text being decoded when it is read, says so by a hypothesis.
    - A Python [dict] is a [gmap]; [k in d] is [is_Some (d !! k)].
    - A text file being read with [readline] is the list of its remaining
      lines, each with its line terminator; the empty list is end of file.
    - The file system is a [gmap] from path names to file contents; two
      different path names denote two different files.
    - An uncaught Python exception is [Raise]; a normal return is [Ok]. *)

From Stdlib Require Import ZArith Ascii String DecimalString List Lia Bool.
From stdpp Require Import gmap strings list.

Local Open Scope Z_scope.
Local Open Scope stdpp_scope.

(* ===================================================================== *)
(** * Part I: definitions                                                 *)
(* ===================================================================== *)

(** ** Exceptions and results *)

Inductive exn : Type :=
| IndexError
| ValueError
| KeyError (key : string)
| NameError (name : string)
| FileNotFoundError (path : string).

Inductive result (A : Type) : Type :=
| Ok (a : A)
| Raise (e : exn).
Arguments Ok {A} a.
Arguments Raise {A} e.

Definition rbind {A B} (r : result A) (f : A → result B) : result B :=
  match r with
  | Ok a => f a
  | Raise e => Raise e
  end.

(** ** Python string primitives *)

(** Every character is below 128. *)
Fixpoint is_ascii (s : string) : bool :=
  match s with
  | "" => true
  | String c s' => Nat.ltb (nat_of_ascii c) 128 && is_ascii s'
  end.

(** [str.isspace] on the ASCII range: TAB, LF, VT, FF, CR, FS, GS, RS, US
    and the blank. *)
Definition py_isspace (c : ascii) : bool :=
  let n := nat_of_ascii c in
  (Nat.leb 9 n && Nat.leb n 13) || (Nat.leb 28 n && Nat.leb n 32).

(** The white space of two bytes: U+0085 (C2 85) and U+00A0 (C2 A0). *)
Definition py_isspace2 (c d : ascii) : bool :=
  let m := nat_of_ascii d in
  Nat.eqb (nat_of_ascii c) 194 && (Nat.eqb m 133 || Nat.eqb m 160).

(** The white space of three bytes: U+1680 (E1 9A 80), U+2000 to U+200A
    (E2 80 80 to E2 80 8A), U+2028, U+2029 and U+202F (E2 80 A8, A9 and AF),
    U+205F (E2 81 9F) and U+3000 (E3 80 80). *)
Definition py_isspace3 (c d e : ascii) : bool :=
  let l := nat_of_ascii c in
  let m := nat_of_ascii d in
  let n := nat_of_ascii e in
  (Nat.eqb l 225 && Nat.eqb m 154 && Nat.eqb n 128) ||
  (Nat.eqb l 226 && Nat.eqb m 128 &&
     ((Nat.leb 128 n && Nat.leb n 138) ||
      Nat.eqb n 168 || Nat.eqb n 169 || Nat.eqb n 175)) ||
  (Nat.eqb l 226 && Nat.eqb m 129 && Nat.eqb n 159) ||
  (Nat.eqb l 227 && Nat.eqb m 128 && Nat.eqb n 128).

Definition flush_word (cur : option string) : list string :=
  match cur with
  | Some w => [w]
  | None => []
  end.

Definition push_char (cur : option string) (c : ascii) : option string :=
  match cur with
  | Some w => Some (w +:+ String c "")
  | None => Some (String c "")
  end.

(** [s.split()]: the maximal runs of non-space characters, in order.  A
    white space character of one, two or three bytes ends the current word
    and is dropped; any other byte is added to the current word. *)
Fixpoint py_split_go (s : string) (cur : option string) : list string :=
  match s with
  | "" => flush_word cur
  | String c s1 =>
      if py_isspace c then flush_word cur ++ py_split_go s1 None
      else
        match s1 with
        | String d s2 =>
            if py_isspace2 c d then flush_word cur ++ py_split_go s2 None
            else
              match s2 with
              | String e s3 =>
                  if py_isspace3 c d e
                  then flush_word cur ++ py_split_go s3 None
                  else py_split_go s1 (push_char cur c)
              | "" => py_split_go s1 (push_char cur c)
              end
        | "" => py_split_go s1 (push_char cur c)
        end
  end.

Definition py_split (s : string) : list string := py_split_go s None.

(** [s.startswith(p)] *)
Definition startswith (s p : string) : bool := String.prefix p s.

(** [needle in hay], also [hay.find(needle) >= 0] *)
Fixpoint contains (needle hay : string) : bool :=
  String.prefix needle hay ||
  match hay with
  | "" => false
  | String _ hay' => contains needle hay'
  end.

(** [x in l] for a list of strings *)
Definition kw_in (x : string) (l : list string) : bool :=
  bool_decide (x ∈ l).

(** [k in d] for a dict *)
Definition has_key {V} (k : string) (d : gmap string V) : bool :=
  bool_decide (is_Some (d !! k)).

Definition upper_char (c : ascii) : ascii :=
  let n := nat_of_ascii c in
  if Nat.leb 97 n && Nat.leb n 122 then ascii_of_nat (n - 32) else c.

(** [s.upper()] for a string of ASCII characters *)
Fixpoint upper (s : string) : string :=
  match s with
  | "" => ""
  | String c s' => String (upper_char c) (upper s')
  end.

Fixpoint spaces (n : nat) : string :=
  match n with
  | O => ""
  | S n' => String " " (spaces n')
  end.

(** ["%-Ns" % s] for a string of ASCII characters: left-justified in a
    field of at least [n] characters *)
Definition ljust (n : nat) (s : string) : string :=
  s +:+ spaces (n - String.length s).

(** [s[:-k]] for [k > 0], when the last [k] characters are ASCII *)
Definition drop_last (k : nat) (s : string) : string :=
  String.substring 0 (String.length s - k) s.

(** [l[-k]] for [k > 0] *)
Definition from_end {A} (k : nat) (l : list A) : result A :=
  if Nat.ltb (length l) k then Raise IndexError
  else match l !! (length l - k)%nat with
       | Some x => Ok x
       | None => Raise IndexError
       end.

(** ** Reading a text file line by line *)

(** The successive results of [fp.readline()]: every line keeps its
    terminator; a last line without terminator is returned as it is. *)
Fixpoint readlines_go (s : string) (cur : string) : list string :=
  match s with
  | "" => match cur with "" => [] | _ => [cur] end
  | String c s' =>
      if Ascii.eqb c "010" then (cur +:+ String c "") :: readlines_go s' ""
      else readlines_go s' (cur +:+ String c "")
  end.

Definition readlines (s : string) : list string := readlines_go s "".

(** ** The device-file scanner *)

(** [collect_fusedef(fp)]: returns the keyword list and the lines that
    remain to be read.  [words[0]] of a line without words raises
    [IndexError]. *)
Fixpoint collect_fusedef_loop (lines : list string) (kwdlist : list string)
  : result (list string * list string) :=
  match lines with
  | [] => Ok (kwdlist, [])
  | ln :: rest =>
      match py_split ln with
      | [] => Raise IndexError
      | w0 :: _ =>
          if String.eqb w0 "}" then Ok (kwdlist, rest)
          else collect_fusedef_loop rest (kwdlist ++ [w0])
      end
  end.

Definition collect_fusedef (lines : list string)
  : result (list string * list string) :=
  collect_fusedef_loop lines [].

(** The chain of [startswith] tests of [scan_devfile], in source order:
    the key of [fusedef] under which the block of fuse [fuse] is stored. *)
Definition fuse_key (fuse : string) : option string :=
  if startswith fuse "BROWNOUT" then Some "brownout"
  else if startswith fuse "CLKOUTEN" then Some "clkouten"
  else if startswith fuse "CPUDIV" then Some "cpudiv"
  else if startswith fuse "CSWEN" then Some "cswen"
  else if startswith fuse "DEBUG" then Some "debug"
  else if startswith fuse "FCMEN" then Some "fcmen"
  else if startswith fuse "FOSC2" then Some "fosc2"
  else if startswith fuse "ICPRT" then Some "icprt"
  else if startswith fuse "IESO" then Some "ieso"
  else if startswith fuse "IOSCFS" then Some "ioscfs"
  else if startswith fuse "LVP" then Some "lvp"
  else if startswith fuse "MCLR" then Some "mclr"
  else if startswith fuse "OSC:" || String.eqb fuse "OSC" then Some "osc"
  else if startswith fuse "PLLDIV" then Some "plldiv"
  else if startswith fuse "PLLEN" then Some "pllen"
  else if startswith fuse "RSTOSC" then Some "rstosc"
  else if startswith fuse "USBDIV" then Some "usbdiv"
  else if startswith fuse "VREGEN" then Some "vregen"
  else if startswith fuse "WDT:" || String.eqb fuse "WDT" then Some "wdt"
  else if startswith fuse "XINST" then Some "xinst"
  else if startswith fuse "JTAGEN" then Some "jtagen"
  else if startswith fuse "MVECEN" then Some "mvecen"
  else None.

(** The global dictionaries [var] and [fusedef].  [True] is stored as 1. *)
Record scan_state : Type := ScanState {
  var : gmap string Z;
  fusedef : gmap string (list string)
}.

Definition set_var (k : string) (v : Z) (st : scan_state) : scan_state :=
  ScanState (<[k := v]> (var st)) (fusedef st).

Definition set_fusedef (k : string) (kw : list string) (st : scan_state)
  : scan_state :=
  ScanState (var st) (<[k := kw]> (fusedef st)).

(** The marker tests applied to a line of more than two words that is not a
    fuse_def pragma. *)
Definition scan_markers (ln : string) (st : scan_state) : scan_state :=
  if contains " WDTCON_SWDTEN " ln then set_var "wdtcon_swdten" 1 st
  else if contains " USB_BDT_ADDRESS " ln then set_var "usb_bdt" 1 st
  else if contains " OSCCON_IRCF " ln then
    if contains "bit*2" ln then set_var "ircfwidth" 2 st
    else if contains "bit*3" ln then set_var "ircfwidth" 3 st
    else if contains "bit*4" ln then set_var "ircfwidth" 4 st
    else st
  else if contains " OSCCON_SCS " ln then set_var "osccon_scs" 1 st
  else if contains " OSCCON_SPLLEN " ln then set_var "osccon_spllen" 1 st
  else if contains " OSCFRQ_FRQ3 " ln then set_var "oscfrq_frq3" 1 st
  else if contains " OSCFRQ_HFFRQ " ln then set_var "oscfrq_hffrq" 1 st
  else if contains " OSCFRQ_FRQ " ln then set_var "oscfrq_frq" 1 st
  else if contains " OSCFRQ_HFFRQ3 " ln then set_var "oscfrq_hffrq3" 1 st
  else if contains " OSCCON1_NOSC " ln then set_var "osccon1_nosc" 1 st
  else if contains " OSCCON1_NDIV " ln then set_var "osccon1_ndiv" 1 st
  else if contains " OSCTUNE_PLLEN " ln then set_var "osctune_pllen" 1 st
  else st.

(** What the body of the [while] loop of [scan_devfile] does with the
    current line. *)
Inductive line_kind : Type :=
| LSkip                               (* blank, comment, or at most 2 words *)
| LFuseDef (fuse : string)            (* pragma fuse_def <fuse> ... *)
| LOther.                             (* any other line of > 2 words *)

Definition classify_line (ln : string) : line_kind :=
  match py_split ln with
  | [] => LSkip
  | w0 :: ws =>
      if String.eqb w0 "--" then LSkip
      else match ws with
           | w1 :: w2 :: _ =>
               if String.eqb w0 "pragma" && String.eqb w1 "fuse_def"
               then LFuseDef w2 else LOther
           | _ => LSkip
           end
  end.

(** The [while] loop of [scan_devfile].  The loop is not structural (a
    fuse_def block consumes a run of lines), so it carries fuel; [None]
    means the fuel ran out. *)
Fixpoint scan_loop (fuel : nat) (lines : list string) (st : scan_state)
  : option (result scan_state) :=
  match fuel with
  | O => None
  | S fuel' =>
      match lines with
      | [] => Some (Ok st)
      | ln :: rest =>
          match classify_line ln with
          | LSkip => scan_loop fuel' rest st
          | LOther => scan_loop fuel' rest (scan_markers ln st)
          | LFuseDef fuse =>
              match fuse_key fuse with
              | None => scan_loop fuel' rest st
              | Some key =>
                  match collect_fusedef rest with
                  | Raise e => Some (Raise e)
                  | Ok (kwdlist, rest') =>
                      scan_loop fuel' rest' (set_fusedef key kwdlist st)
                  end
              end
          end
      end
  end.

Definition scan_init : scan_state :=
  ScanState {[ "ircfwidth" := 0 ]} ∅.

(** [scan_devfile(devfile)] on the text of the device file, as the text
    mode of [open] delivers it (line ends are LF). *)
Definition scan_devfile (text : string) : option (result scan_state) :=
  let lines := readlines text in
  scan_loop (S (length lines)) lines scan_init.

(** ** Printing numbers *)


(** [str(n)] for a natural number and for an integer *)
Definition str_of_nat (n : nat) : string :=
  NilZero.string_of_uint (Nat.to_uint n).

Definition str_of_Z (z : Z) : string :=
  NilZero.string_of_int (Z.to_int z).

(** ** The pin selector *)

Definition nl : string := String "010" "".

(** ["pin_%c%d" % (p, q)] *)
Definition pin_name (p : ascii) (q : nat) : string :=
  "pin_" +:+ String p "" +:+ str_of_nat q.

(** The inner [for q in range(8)] loop for port [p]: [Some pin] when the
    function returns from inside the loop.  [out] collects what is printed. *)
Fixpoint blinkpin_bits (fstr : string) (p : ascii) (qs : list nat)
  (out : list string) : option string * list string :=
  match qs with
  | [] => (None, out)
  | q :: qs' =>
      let pinpq := pin_name p q in
      if contains pinpq fstr then
        let pinpq_dir := pinpq +:+ "_direction" in
        if contains pinpq_dir fstr then (Some pinpq, out)
        else blinkpin_bits fstr p qs'
               (out ++ ["   Found " +:+ pinpq +:+ " but no " +:+ pinpq_dir
                        +:+ " skip this pin."])
      else blinkpin_bits fstr p qs' out
  end.

(** The outer [for p in ports] loop and the fall-through return. *)
Fixpoint blinkpin_ports (fstr : string) (ports : list ascii)
  (out : list string) : string * list string :=
  match ports with
  | [] => ("", out ++ ["   Could not find suitable I/O pin for LED"])
  | p :: ports' =>
      match blinkpin_bits fstr p (seq 0 8) out with
      | (Some pin, out') => (pin, out')
      | (None, out') => blinkpin_ports fstr ports' out'
      end
  end.

(** [find_blinkpin(devfile)] on the text [fstr] of the device file: the
    chosen pin (or the empty string) and the lines printed. *)
Definition find_blinkpin (fstr : string) : string * list string :=
  blinkpin_ports fstr ["A"; "B"; "C"]%char [].

(** ** os.path (POSIX) *)

Definition first_char_is (c : ascii) (s : string) : bool :=
  match s with
  | String d _ => Ascii.eqb d c
  | "" => false
  end.

Fixpoint last_char_is (c : ascii) (s : string) : bool :=
  match s with
  | "" => false
  | String d "" => Ascii.eqb d c
  | String _ s' => last_char_is c s'
  end.

(** [os.path.join(a, b)] *)
Definition path_join (a b : string) : string :=
  if first_char_is "/" b then b
  else if String.eqb a "" || last_char_is "/" a then a +:+ b
  else a +:+ "/" +:+ b.

(** [s.rfind(c)] for a one-character [c], [-1] when absent *)
Fixpoint rfind_go (c : ascii) (s : string) (i : Z) (acc : Z) : Z :=
  match s with
  | "" => acc
  | String d s' => rfind_go c s' (i + 1) (if Ascii.eqb d c then i else acc)
  end.

Definition rfind (c : ascii) (s : string) : Z := rfind_go c s 0 (-1).

(** [s[i:j]] for [0 <= i] *)
Definition slice (i j : Z) (s : string) : string :=
  String.substring (Z.to_nat i) (Z.to_nat (j - i)) s.

Fixpoint all_dots (s : string) : bool :=
  match s with
  | "" => true
  | String c s' => Ascii.eqb c "." && all_dots s'
  end.

(** [os.path.split(p)[1]] *)
Definition path_tail (p : string) : string :=
  slice (rfind "/" p + 1) (Z.of_nat (String.length p)) p.

(** [os.path.splitext(p)]: the extension starts at the last dot, unless that
    dot is before the last separator or has only dots between the separator
    and itself. *)
Definition splitext (p : string) : string * string :=
  let sepIndex := rfind "/" p in
  let dotIndex := rfind "." p in
  if (sepIndex <? dotIndex) && negb (all_dots (slice (sepIndex + 1) dotIndex p))
  then (slice 0 dotIndex p, slice dotIndex (Z.of_nat (String.length p)) p)
  else (p, "").

(** ** The world of the script *)

(** The result of [subprocess.check_output]: the captured output when the
    process exits with status zero, [CalledProcessError] otherwise. *)
Inductive proc_result : Type :=
| Returned (output : string)
| CalledProcessError (output : string).

(** The two readings of the clock made by [build_sample]. *)
Record clock : Type := Clock {
  time_ctime : string;           (* time.ctime() *)
  datetime_now_ctime : string    (* datetime.datetime.now().ctime() *)
}.

(** What the script takes from its environment: the base directory, the
    compiler and the python executables, the table read from
    devicespecific.json, and the behaviour of the external processes (the
    compiler and the validator), which may change files. *)
Record env : Type := Env {
  base : string;
  compiler : string;
  python_exec : string;
  devspec : gmap string (gmap string string);
  check_output :
    list string → gmap string string → proc_result * gmap string string
}.

Definition devdir (E : env) : string := path_join (base E) "test".
Definition dstdir (E : env) : string := path_join (base E) "blink".

Record world : Type := World {
  files : gmap string string;
  stdout : list string
}.

(** State and exception monad over the world. *)
Definition M (A : Type) : Type := world → result (A * world).

Definition ret {A} (a : A) : M A := fun w => Ok (a, w).

Definition bind {A B} (m : M A) (f : A → M B) : M B :=
  fun w => match m w with
           | Ok (a, w') => f a w'
           | Raise e => Raise e
           end.

Definition raise {A} (e : exn) : M A := fun _ => Raise e.

Definition lift {A} (r : result A) : M A :=
  fun w => match r with Ok a => Ok (a, w) | Raise e => Raise e end.

#[global] Instance M_ret : MRet M := @ret.
#[global] Instance M_bind : MBind M := fun A B f m => bind m f.

(** [print(s)] *)
Definition print (s : string) : M unit :=
  fun w => Ok (tt, World (files w) (stdout w ++ [s])).

(** [os.path.exists(p)] *)
Definition path_exists (p : string) : M bool :=
  fun w => Ok (has_key p (files w), w).

(** [os.remove(p)] *)
Definition os_remove (p : string) : M unit :=
  fun w => match files w !! p with
           | Some _ => Ok (tt, World (delete p (files w)) (stdout w))
           | None => Raise (FileNotFoundError p)
           end.

(** [with open(p, "w") as fp: fp.write(s)] *)
Definition write_file (p s : string) : M unit :=
  fun w => Ok (tt, World (<[p := s]> (files w)) (stdout w)).

(** [shutil.move(src, dst)] between regular files *)
Definition shutil_move (src dst : string) : M unit :=
  fun w => match files w !! src with
           | Some s =>
               Ok (tt, World (<[dst := s]> (delete src (files w))) (stdout w))
           | None => Raise (FileNotFoundError src)
           end.

(** [subprocess.check_output(cmdlist, ...)] *)
Definition run_process (E : env) (cmdlist : list string) : M proc_result :=
  fun w => let '(r, fs) := check_output E cmdlist (files w) in
           Ok (r, World fs (stdout w)).

Definition when (b : bool) (m : M unit) : M unit :=
  if b then m else ret tt.

(** ** The sample synthesizer *)

Definition ScriptAuthor : string := "Rob Hamerling, Rob Jansen".
Definition CompilerVersion : string := "2.5r6".

(** The nested function [fusedef_insert(fuse, kwd, cmt)] of [build_sample]:
    what it writes, given the global [fusedef]. *)
Definition fusedef_insert (fd : gmap string (list string))
  (fuse kwd cmt : string) : list string :=
  match fd !! fuse with
  | Some kwds =>
      if kw_in kwd kwds
      then ["pragma target " +:+ ljust 8 (upper fuse) +:+ " "
            +:+ ljust 25 kwd +:+ " " +:+ "-- " +:+ cmt +:+ nl]
      else []
  | None => []
  end.

Definition only_if (b : bool) (l : list string) : list string :=
  if b then l else [].

(** The header block, up to the [include] line. *)
Definition sample_header (pic osctype yyyy now : string) : list string :=
  [ "-- ------------------------------------------------------" +:+ nl;
    "-- Title: Blink-a-led of the Microchip pic" +:+ pic +:+ nl;
    "--" +:+ nl;
    "-- Author: " +:+ ScriptAuthor +:+ ", Copyright (c) 2008.." +:+ yyyy
      +:+ " all rights reserved." +:+ nl;
    "--" +:+ nl;
    "-- Adapted-by:" +:+ nl;
    "--" +:+ nl;
    "-- Compiler:" +:+ CompilerVersion +:+ nl;
    "--" +:+ nl;
    "-- This file is part of jallib (https://github.com/jallib/jallib)" +:+ nl;
    "-- Released under the ZLIB license " +:+
      "(http://www.opensource.org/licenses/zlib-license.html)" +:+ nl;
    "--" +:+ nl;
    "-- Description:" +:+ nl;
    "--    Simple blink-a-led program for Microchip pic" +:+ pic +:+ nl;
    (if String.eqb osctype "HS" || String.eqb osctype "HS_USB"
     then "--    using an external crystal or resonator." +:+ nl
     else "--    using the internal oscillator." +:+ nl);
    "--    The LED should be flashing twice a second!" +:+ nl;
    "--" +:+ nl;
    "-- Sources:" +:+ nl;
    "--" +:+ nl;
    "-- Notes:" +:+ nl;
    "--  - Creation date/time: " +:+ now +:+ nl;
    "--  - This file is generated by 'blink-a-led.py' script! Do not change!"
      +:+ nl;
    "--" +:+ nl;
    "-- ------------------------------------------------------" +:+ nl;
    "--" +:+ nl;
    "include " +:+ pic +:+ "                     -- target PICmicro" +:+ nl;
    "--" +:+ nl ].

(** The oscillator selection. *)
Definition sample_osc (fd : gmap string (list string)) (vr : gmap string Z)
  (osctype oscword : string) : list string :=
  if String.eqb osctype "HS" then
    [ "-- This program assumes that a 20 MHz resonator or crystal" +:+ nl;
      "-- is connected to pins OSC1 and OSC2." +:+ nl;
      "pragma target clock 20_000_000      -- oscillator frequency" +:+ nl;
      "--" +:+ nl;
      "pragma target OSC      " +:+ ljust 25 oscword +:+ " "
        +:+ "-- crystal or resonator" +:+ nl ]
    ++ only_if (has_key "fosc2" fd)
         [ "pragma target FOSC2    " +:+ ljust 25 "ON" +:+ " "
           +:+ "-- system clock: OSC" +:+ nl ]
    ++ match fd !! "rstosc" with
       | Some kwds =>
           only_if (kw_in "EXT1X" kwds)
             [ "pragma target RSTOSC   " +:+ ljust 25 "EXT1X" +:+ " "
               +:+ "-- power-up clock select: OSC" +:+ nl ]
       | None => []
       end
    ++ only_if (String.eqb oscword "PRI")
         [ "pragma target POSCMD   " +:+ ljust 25 "HS" +:+ " "
           +:+ "-- high speed" +:+ nl ]
  else if String.eqb osctype "INTOSC" || String.eqb osctype "" then
    [ "-- This program uses the internal oscillator at 4 MHz." +:+ nl;
      "pragma target clock    4_000_000       -- oscillator frequency" +:+ nl;
      "--" +:+ nl ]
    ++ only_if (negb (String.eqb oscword "F4MHZ"))
         [ "pragma target OSC      " +:+ ljust 25 oscword +:+ " "
           +:+ "-- internal oscillator" +:+ nl ]
    ++ fusedef_insert fd "fosc2" "OFF" "Internal Oscillator"
    ++ fusedef_insert fd "ioscfs" "F4MHZ" "select 4 MHz"
    ++ (if has_key "oscfrq_frq3" vr
        then fusedef_insert fd "rstosc" "HFINTOSC_64MHZ" "select 64 MHz"
        else if has_key "oscfrq" vr || has_key "oscfrq_hffrq" vr
        then fusedef_insert fd "rstosc" "HFINT32" "select 32 MHz"
        else if has_key "oscfrq_frq" vr
        then fusedef_insert fd "rstosc" "HFINTOSC_32MHZ" "select 32 MHz"
        else [])
  else if String.eqb osctype "HS_USB" then
    [ "-- This program assumes that a 20 MHz resonator or crystal" +:+ nl;
      "-- is connected to pins OSC1 and OSC2, and USB active." +:+ nl;
      "-- But PIC will be running at 48MHz." +:+ nl;
      "pragma target clock 48_000_000      -- oscillator frequency" +:+ nl;
      "--" +:+ nl;
      "pragma target OSC      " +:+ ljust 25 oscword +:+ " "
        +:+ "-- HS osc + PLL" +:+ nl ]
  else if String.eqb osctype "INTOSC_USB" then
    [ "-- This program uses the internal oscillator with PLL active." +:+ nl;
      "pragma target clock 48_000_000      -- oscillator frequency" +:+ nl;
      "--" +:+ nl;
      "pragma target OSC      " +:+ ljust 25 oscword +:+ " "
        +:+ "-- internal oscillator" +:+ nl ]
    ++ fusedef_insert fd "fosc2" "OFF" "Internal oscillator"
  else [].

(** The other oscillator-related fuse_defs: pllen, plldiv, cpudiv, usbdiv. *)
Definition sample_pll (fd : gmap string (list string))
  (picdata : gmap string string) (osctype : string) : list string :=
  only_if (has_key "pllen" fd)
    (if String.eqb osctype "INTOSC" then
       if has_key "PLLEN" picdata
       then fusedef_insert fd "pllen" "ENABLED" "PLL on"
       else fusedef_insert fd "pllen" "DISABLED" "PLL off"
     else if String.eqb osctype "INTOSC_USB"
     then fusedef_insert fd "pllen" "ENABLED" "PLL on"
     else fusedef_insert fd "pllen" "DISABLED" "PLL off")
  ++ only_if (has_key "plldiv" fd)
       (if String.eqb osctype "HS_USB"
        then fusedef_insert fd "plldiv" "P5" "20 MHz -> 4 MHz"
        else if String.eqb osctype "INTOSC_USB"
        then fusedef_insert fd "plldiv" "P2" "8 MHz -> 4 MHz"
        else fusedef_insert fd "plldiv" "P1" "clock postscaler")
  ++ fusedef_insert fd "cpudiv" "P1" "Fosc divisor"
  ++ only_if (String.eqb osctype "HS_USB")
       (fusedef_insert fd "usbdiv" "P2" "USB clock selection").

(** The watchdog directive and the value left in [wdtword].  The second
    test of the source is [elif ("CONTROL", fusedef["wdt"]):], whose
    condition is a pair, hence true. *)
Definition sample_wdt (fd : gmap string (list string))
  : list string * string :=
  match fd !! "wdt" with
  | Some kwds =>
      if kw_in "DISABLED" kwds
      then ([ "pragma target WDT      " +:+ ljust 25 "DISABLED" +:+ " "
              +:+ "-- watchdog" +:+ nl ], "DISABLED")
      else ([ "pragma target WDT      " +:+ ljust 25 "CONTROL" +:+ " "
              +:+ "-- watchdog" +:+ nl ], "CONTROL")
  | None => ([], "")
  end.

(** The remaining fuse_defs, after the watchdog. *)
Definition sample_easy (fd : gmap string (list string)) : list string :=
  fusedef_insert fd "xinst" "DISABLED" "do not use extended instructionset"
  ++ fusedef_insert fd "debug" "DISABLED" "no debugging"
  ++ fusedef_insert fd "brownout" "DISABLED" "no brownout reset"
  ++ fusedef_insert fd "fcmen" "DISABLED" "no clock monitoring"
  ++ fusedef_insert fd "cswen" "ENABLED" "allow writing OSCCON1 NOSC and NDIV"
  ++ fusedef_insert fd "ieso" "DISABLED" "no int/ext osc switching"
  ++ fusedef_insert fd "vregen" "ENABLED" "voltage regulator used"
  ++ fusedef_insert fd "lvp" "ENABLED" "low voltage programming"
  ++ fusedef_insert fd "mclr" "EXTERNAL" "external reset"
  ++ fusedef_insert fd "mvecen" "DISABLED" "Do not use multi vectored interrupts"
  ++ fusedef_insert fd "jtagen" "DISABLED" "no JTAG to enable all I/O pins"
  ++ [ "--" +:+ nl;
       "-- The configuration bit settings above are only a selection, sufficient"
         +:+ nl;
       "-- for this program. Other programs may need more or different settings."
         +:+ nl;
       "--" +:+ nl ].

(** The register initialisations. *)
Definition sample_registers (vr : gmap string Z)
  (picdata : gmap string string) (osctype wdtword : string) : list string :=
  only_if (String.eqb wdtword "CONTROL" && has_key "wdtcon_swdten" vr)
    [ "WDTCON_SWDTEN = OFF                 -- disable WDT" +:+ nl ]
  ++
  if String.eqb osctype "HS" then
    only_if (has_key "osccon_scs" vr)
      [ "OSCCON_SCS = 0                      -- select primary oscillator" +:+ nl ]
    ++ only_if (has_key "osctune_pllen" vr)
      [ "OSCTUNE_PLLEN = FALSE               -- no PLL" +:+ nl ]
  else if String.eqb osctype "INTOSC" then
    only_if (has_key "osccon_scs" vr)
      [ "OSCCON_SCS = 0                      -- select primary oscillator" +:+ nl ]
    ++ (if has_key "oscfrq_frq3" vr then
          [ "OSCFRQ_HFFRQ = 0b0010               -- Fosc 64 -> 4 MHz" +:+ nl ]
        else if has_key "oscfrq_hffrq3" vr then
          if has_key "osccon1_ndiv" vr then
            [ "OSCCON1_NDIV = 0b0011               -- Fosc 32 / 8 -> 4 MHz" +:+ nl ]
          else
            [ "OSCFRQ_HFFRQ = 0b0011               -- Fosc 32 -> ..." +:+ nl;
              "OSCCON1_NOSC = 0b110                -- ... 4 MHz" +:+ nl ]
        else if has_key "oscfrq_hffrq" vr then
          [ "OSCFRQ_HFFRQ = 0b010                -- Fosc 32 -> 4 MHz" +:+ nl ]
        else if has_key "oscfrq_frq" vr then
          [ "OSCFRQ_FRQ = 0b010                  -- Fosc 32 -> 4 MHz" +:+ nl ]
        else [])
    ++ match vr !! "ircfwidth" with
       | Some width =>
           match picdata !! "OSCCON_IRCF" with
           | Some ircf =>
               only_if (0 <? width)
                 [ "OSCCON_IRCF = 0b" +:+ ljust 5 ircf
                   +:+ "               -- 4 MHz" +:+ nl ]
           | None => []
           end
       | None => []
       end
    ++ only_if (has_key "osctune_pllen" vr)
      [ "OSCTUNE_PLLEN = FALSE               -- no PLL" +:+ nl ]
    ++ only_if (has_key "osccon_spllen" vr)
      [ "OSCCON_SPLLEN = FALSE               -- software PLL off" +:+ nl ]
  else if String.eqb osctype "HS_USB" then
    only_if (has_key "osccon_scs" vr)
      [ "OSCCON_SCS = 0                      -- select primary oscillator" +:+ nl ]
    ++ only_if (has_key "osctune_pllen" vr)
      [ "OSCTUNE_PLLEN = TRUE                -- PLL" +:+ nl ]
  else if String.eqb osctype "INTOSC_USB" then
    only_if (has_key "osccon_scs" vr)
      [ "OSCCON_SCS = 0                      -- select primary oscillator" +:+ nl ]
    ++ only_if (has_key "osctune_pllen" vr)
      [ "OSCTUNE_PLLEN = TRUE                -- use PLL" +:+ nl ]
  else [].

(** The blink-a-led program code. *)
Definition sample_blink (pin : string) : list string :=
  [ "--" +:+ nl;
    "enable_digital_io()                 -- make all pins digital I/O" +:+ nl;
    "--" +:+ nl;
    "-- A low current (2 mA) led with 2.2K series resistor is recommended" +:+ nl;
    "-- since the chosen pin may not be able to drive an ordinary 20mA led." +:+ nl;
    "--" +:+ nl;
    "alias  led       is " +:+ pin +:+ "          -- alias for pin with LED" +:+ nl;
    "--" +:+ nl;
    pin +:+ "_direction = OUTPUT" +:+ nl;
    "--" +:+ nl;
    "forever loop" +:+ nl;
    "   led = ON" +:+ nl;
    "   _usec_delay(100_000)" +:+ nl;
    "   led = OFF" +:+ nl;
    "   _usec_delay(400_000)" +:+ nl;
    "end loop" +:+ nl;
    "--" +:+ nl ].

(** Everything [build_sample] writes to the file, one element per
    [fp.write], once the year [yyyy] has been taken from the clock. *)
Definition sample_writes (st : scan_state) (picdata : gmap string string)
  (pic pin osctype oscword yyyy now : string) : list string :=
  sample_header pic osctype yyyy now
  ++ sample_osc (fusedef st) (var st) osctype oscword
  ++ sample_pll (fusedef st) picdata osctype
  ++ fusedef_insert (fusedef st) "clkouten" "DISABLED" "no clock output"
  ++ (sample_wdt (fusedef st)).1
  ++ sample_easy (fusedef st)
  ++ sample_registers (var st) picdata osctype (sample_wdt (fusedef st)).2
  ++ sample_blink pin.

Fixpoint concat_strings (l : list string) : string :=
  match l with
  | [] => ""
  | s :: l' => s +:+ concat_strings l'
  end.

(** The suffix of the program name for an oscillator type. *)
Definition osc_suffix (osctype : string) : option string :=
  if String.eqb osctype "HS" then Some "_hs"
  else if String.eqb osctype "INTOSC" then Some "_intosc"
  else if String.eqb osctype "HS_USB" then Some "_hs_usb"
  else if String.eqb osctype "INTOSC_USB" then Some "_intosc_usb"
  else None.

(** [build_sample(pic, pin, osctype, oscword)], with the globals [devspec]
    (in [E]), [var] and [fusedef] (in [st]) and the clock made explicit.
    Returns the program name, or [None]. *)
Definition build_sample (E : env) (st : scan_state) (clk : clock)
  (pic pin osctype oscword : string) : M (option string) :=
  match osc_suffix osctype with
  | None =>
      print ("   Unrecognized oscillator type: " +:+ osctype);;
      mret None
  | Some sfx =>
      let pgmname := pic +:+ "_blink" +:+ sfx in
      match devspec E !! upper pic with
      | None => raise (KeyError (upper pic))
      | Some picdata =>
          if startswith osctype "INTOSC" && has_key "OSCCON_IRCF" picdata
             && bool_decide (picdata !! "OSCCON_IRCF" = Some "-")
          then
            print "   Does not support 4 MHz with internal oscillator";;
            mret None
          else
            let pgmname := pgmname +:+ ".jal" in
            yyyy ← lift (from_end 1 (py_split (time_ctime clk)));
            write_file pgmname
              (concat_strings
                 (sample_writes st picdata pic pin osctype oscword yyyy
                    (datetime_now_ctime clk)));;
            mret (Some pgmname)
      end
  end.

(** ** Validation and compilation *)

(** [validate_jalfile(jalfile)] *)
Definition validate_jalfile (E : env) (jalfile : string) : M bool :=
  let cmdlist := [python_exec E; "jallib3.py"; "validate"; jalfile] in
  let vlog :=
    path_join (dstdir E) (drop_last 4 (path_tail jalfile) +:+ ".vlog") in
  b ← path_exists vlog;
  when b (os_remove vlog);;
  r ← run_process E cmdlist;
  match r with
  | Returned _ => mret true
  | CalledProcessError output =>
      write_file vlog (output +:+ nl);;
      print ("   Validation failed for " +:+ jalfile);;
      print ("   See " +:+ vlog +:+ " for details");;
      mret false
  end.

(** The most digits [int] converts ([sys.int_info.default_max_str_digits]);
    a longer literal is a ValueError. *)
Definition int_max_str_digits : nat := 4300.

(** The decimal digits of [int(s)], with single underscores allowed between
    digits.  [seen] tells whether the previous character was a digit,
    [count] how many digits were read. *)
Fixpoint int_digits (s : string) (acc : Z) (seen : bool) (count : nat)
  : option Z :=
  match s with
  | "" => if seen && Nat.leb count int_max_str_digits then Some acc else None
  | String c s' =>
      match Ascii.is_nat c with
      | Some d => int_digits s' (10 * acc + Z.of_nat d) true (S count)
      | None =>
          if Ascii.eqb c "_" && seen then int_digits s' acc false count
          else None
      end
  end.

(** [int(s)] for a word of ASCII characters (a word of [split] holds no
    white space): an optional sign and decimal digits.  On such a word it
    is [int]; a word with a decimal digit of another script, which [int]
    converts too, is outside it. *)
Definition py_int (s : string) : result Z :=
  let signed :=
    match s with
    | String "+" s' => int_digits s' 0 false O
    | String "-" s' => Z.opp <$> int_digits s' 0 false O
    | _ => int_digits s 0 false O
    end in
  match signed with
  | Some z => Ok z
  | None => Raise ValueError
  end.

(** The paths used by [compile_sample] in test mode. *)
Definition fhex_of (E : env) (pgmname : string) : string :=
  path_join (dstdir E) ((splitext pgmname).1 +:+ ".hex").
Definition fasm_of (E : env) (pgmname : string) : string :=
  path_join (dstdir E) ((splitext pgmname).1 +:+ ".asm").
Definition flog_of (E : env) (pgmname : string) : string :=
  path_join (dstdir E) (drop_last 3 pgmname +:+ "log").
Definition destfile_of (E : env) (pgmname : string) : string :=
  path_join (dstdir E) pgmname.

Definition compile_cmdlist (E : env) (pgmname : string) : list string :=
  [compiler E; "-asm"; fasm_of E pgmname; "-hex"; fhex_of E pgmname;
   "-no-codfile"; "-s"; devdir E; pgmname].

(** [compile_sample(runtype, pgmname)].  In PROD mode the first statement
    reads [devprod], a name that is defined nowhere. *)
Definition compile_sample (E : env) (runtype pgmname : string) : M bool :=
  if String.eqb runtype "PROD" then raise (NameError "devprod")
  else
    let fhex := fhex_of E pgmname in
    let fasm := fasm_of E pgmname in
    let cmdlist := compile_cmdlist E pgmname in
    let flog := flog_of E pgmname in
    b ← path_exists flog;
    when b (os_remove flog);;
    let destfile := destfile_of E pgmname in
    b ← path_exists destfile;
    when b (os_remove destfile);;
    r ← run_process E cmdlist;
    match r with
    | Returned log =>
        let loglist := py_split log in
        numerrors ← lift (rbind (from_end 4 loglist) py_int);
        numwarnings ← lift (rbind (from_end 2 loglist) py_int);
        if (numerrors =? 0) && (numwarnings =? 0) then
          shutil_move pgmname destfile;;
          b ← path_exists fhex;
          when b (os_remove fhex);;
          b ← path_exists fasm;
          when b (os_remove fasm);;
          mret true
        else
          print ("   Compilation of " +:+ pgmname +:+ " gave "
                 +:+ str_of_Z numerrors +:+ " errors "
                 +:+ str_of_Z numwarnings +:+ " warnings");;
          shutil_move pgmname destfile;;
          write_file flog (log +:+ nl);;
          mret false
    | CalledProcessError output =>
        shutil_move pgmname destfile;;
        write_file flog (output +:+ nl);;
        print ("   Compilation error(s) with sample " +:+ pgmname +:+ " "
               +:+ nl +:+ "   see " +:+ flog);;
        mret false
    end.

(** [build_validate_compile_sample(pic, blink_pin, osctype, oscword)] *)
Definition build_validate_compile_sample (E : env) (st : scan_state)
  (clk : clock) (runtype pic blink_pin osctype oscword : string) : M bool :=
  pgmname ← build_sample E st clk pic blink_pin osctype oscword;
  match pgmname with
  | None =>
      print ("   No sample for " +:+ pic);;
      mret false
  | Some pgmname =>
      print pgmname;;
      ok ← validate_jalfile E pgmname;
      if negb ok then mret false
      else
        ok ← compile_sample E runtype pgmname;
        if negb ok then mret false
        else mret true
  end.

(** ** The oscillator rule engine *)

(** The rule engine of [main] and [create_sample] decides which samples to
    attempt.  Its only effect is the call of
    [build_validate_compile_sample], whose Boolean answer feeds the sample
    counter; a program of the engine is a tree of such calls. *)
Inductive Prog (A : Type) : Type :=
| Done (a : A)
| Sample (pic blink_pin osctype oscword : string) (k : bool → Prog A).
Arguments Done {A} a.
Arguments Sample {A} pic blink_pin osctype oscword k.

Fixpoint pbind {A B} (p : Prog A) (f : A → Prog B) : Prog B :=
  match p with
  | Done a => f a
  | Sample pic pin ot ow k => Sample pic pin ot ow (fun b => pbind (k b) f)
  end.

#[global] Instance Prog_ret : MRet Prog := @Done.
#[global] Instance Prog_bind : MBind Prog := fun A B f p => pbind p f.

(** [if (build_validate_compile_sample(...)): counter += 1] *)
Definition attempt (pic blink_pin osctype oscword : string) : Prog nat :=
  Sample pic blink_pin osctype oscword
    (fun ok => Done (if ok then 1%nat else 0%nat)).

(** The nested function [create_sample()] of [main]; the variables it takes
    from the enclosing scope are parameters.  Returns [counter]. *)
Definition create_sample (st : scan_state)
  (picname blink_pin osctype oscword : string) : Prog nat :=
  let fd := fusedef st in
  if String.eqb osctype "HS" then
    attempt picname blink_pin osctype oscword
  else if has_key "ioscfs" fd && negb (has_key "osc" fd) then
    match fd !! "ioscfs" with
    | Some ioscfs =>
        if kw_in "F4MHZ" ioscfs
        then attempt picname blink_pin "INTOSC" "F4MHZ"
        else Done 0%nat
    | None => Done 0%nat
    end
  else
    match fd !! "osc" with
    | Some osc =>
        c1 ← (if kw_in "INTOSC_NOCLKOUT" osc then
                attempt picname blink_pin "INTOSC" "INTOSC_NOCLKOUT"
              else if kw_in "INTOSC_NOCLKOUT_USB_HS" osc then
                attempt picname blink_pin "INTOSC" "INTOSC_NOCLKOUT_USB_HS"
              else if kw_in "INTOSC_NOCLKOUT_PLL" osc then
                attempt picname blink_pin "INTOSC_USB" "INTOSC_NOCLKOUT_PLL"
              else if kw_in "OFF" osc then
                attempt picname blink_pin "INTOSC" "OFF"
              else
                match fd !! "fosc2" with
                | Some fosc2 =>
                    if kw_in "ON" fosc2 then
                      if kw_in "EC_CLKOUT_PLL" osc then
                        attempt picname blink_pin "INTOSC" "EC_CLKOUT_PLL"
                      else if kw_in "INTOSC_NOCLKOUT_PLL" osc then
                        attempt picname blink_pin "INTOSC" "INTOSC_NOCLKOUT"
                      else Done 0%nat
                    else Done 0%nat
                | None => Done 0%nat
                end);
        c2 ← (if kw_in "HS_PLL" osc && has_key "usb_bdt" (var st) then
                attempt picname blink_pin "HS_USB" "HS_PLL"
              else Done 0%nat);
        Done (c1 + c2)%nat
    | None => Done 0%nat
    end.

(** [if (kwd in fusedef["osc"]): osctype = ...; oscword = ...;
    sample_count = sample_count + create_sample()] *)
Definition try_osc (st : scan_state) (picname blink_pin : string)
  (osc : list string) (kwd osctype : string) : Prog nat :=
  if kw_in kwd osc then create_sample st picname blink_pin osctype kwd
  else Done 0%nat.

(** The part of the loop body of [main] that enumerates the variants of one
    device, once the device file is scanned and a pin is found: the number
    of samples it adds to [sample_count]. *)
Definition main_variants (st : scan_state) (picname blink_pin : string)
  : Prog nat :=
  match fusedef st !! "osc" with
  | None =>
      let osctype := "INTOSC" in
      let oscword :=
        if has_key "ioscfs" (fusedef st) && has_key "f4mhz" (var st)
        then "f4mhz" else "" in
      create_sample st picname blink_pin osctype oscword
  | Some osc =>
      c1 ← try_osc st picname blink_pin osc "OFF" "INTOSC";
      c2 ← try_osc st picname blink_pin osc "INTOSC_NOCLKOUT" "INTOSC";
      c3 ← try_osc st picname blink_pin osc "HSH" "HS";
      c4 ← try_osc st picname blink_pin osc "PRI" "HS";
      c5 ← try_osc st picname blink_pin osc "HS" "HS";
      Done (c1 + c2 + c3 + c4 + c5)%nat
  end.

(** The samples a program of the engine attempts, as (osctype, oscword)
    pairs in order, when the [i]-th call of
    [build_validate_compile_sample] answers [answers i].  Every call is
    taken to return: an exception that escapes from a call ends the whole
    script, and with it the enumeration. *)
Fixpoint attempts {A} (answers : nat → bool) (i : nat) (p : Prog A)
  : list (string * string) :=
  match p with
  | Done _ => []
  | Sample _ _ osctype oscword k =>
      (osctype, oscword) :: attempts answers (S i) (k (answers i))
  end.

(** The value a program returns under the same answers. *)
Fixpoint value {A} (answers : nat → bool) (i : nat) (p : Prog A) : A :=
  match p with
  | Done a => a
  | Sample _ _ _ _ k => value answers (S i) (k (answers i))
  end.

(** Running a program of the engine in the world: every call is the real
    [build_validate_compile_sample]; [clk i] is the clock at the [i]-th
    call. *)
Fixpoint run_prog {A} (E : env) (st : scan_state) (runtype : string)
  (clk : nat → clock) (i : nat) (p : Prog A) : M A :=
  match p with
  | Done a => mret a
  | Sample pic blink_pin osctype oscword k =>
      ok ← build_validate_compile_sample E st (clk i) runtype
             pic blink_pin osctype oscword;
      run_prog E st runtype clk (S i) (k ok)
  end.

(** ** Vocabulary of the properties *)

(** [s] occurs in [t] *)
Definition occurs (s t : string) : Prop :=
  ∃ pre post, t = pre +:+ s +:+ post.

(** A line of a block that contributes a keyword: it has a first word, and
    that word is not the closing brace. *)
Definition keyword_line (ln : string) : Prop :=
  ∃ w ws, py_split ln = w :: ws ∧ w ≠ "}".

(** A standalone closing line: its first word is the closing brace. *)
Definition closing_line (ln : string) : Prop :=
  ∃ ws, py_split ln = "}" :: ws.

(** A blank line: [split] finds no word. *)
Definition blank_line (ln : string) : Prop := py_split ln = [].

(** The first word of a line, when there is one *)
Definition first_word (ln : string) : string :=
  default "" (head (py_split ln)).

(** A line that makes [scan_devfile] call [collect_fusedef] *)
Definition opens_block (ln key : string) : Prop :=
  ∃ fuse, classify_line ln = LFuseDef fuse ∧ fuse_key fuse = Some key.

(** Device files in which every line between a recognised fuse_def
    declaration and its closing line (or the end of the file) is
    non-blank. *)
Inductive blocks_nonblank : list string → Prop :=
| bn_eof : blocks_nonblank []
| bn_line ln rest :
    (∀ key, ¬ opens_block ln key) →
    blocks_nonblank rest →
    blocks_nonblank (ln :: rest)
| bn_closed decl key body close rest :
    opens_block decl key →
    Forall keyword_line body →
    closing_line close →
    blocks_nonblank rest →
    blocks_nonblank (decl :: body ++ close :: rest)
| bn_open decl key body :
    opens_block decl key →
    Forall keyword_line body →
    blocks_nonblank (decl :: body).

(** Lines of ASCII characters only. *)
Definition ascii_lines (lines : list string) : Prop :=
  Forall (λ ln, is_ascii ln = true) lines.

(** Lines that the scan leaves at the outer level: lines that open no block,
    and blocks of keyword lines that are closed. *)
Inductive blocks_closed : list string → Prop :=
| bc_eof : blocks_closed []
| bc_line ln rest :
    (∀ key, ¬ opens_block ln key) →
    blocks_closed rest →
    blocks_closed (ln :: rest)
| bc_closed decl key body close rest :
    opens_block decl key →
    Forall keyword_line body →
    closing_line close →
    blocks_closed rest →
    blocks_closed (decl :: body ++ close :: rest).

(** A device file whose OSC block is never closed. *)
Definition unterminated_devfile : string :=
  "pragma fuse_def OSC:4 0x3 {" +:+ nl +:+
  "   HS = 0x1" +:+ nl +:+
  "   XT = 0x2" +:+ nl.

(** A device file whose WDT block, after a comment and a closed OSC block,
    is never closed. *)
Definition late_unterminated_devfile : string :=
  "-- a device file" +:+ nl +:+
  "pragma fuse_def OSC:4 0x3 {" +:+ nl +:+
  "   HS = 0x1" +:+ nl +:+
  "   }" +:+ nl +:+
  "pragma fuse_def WDT:2 0x18 {" +:+ nl +:+
  "   ENABLED = 0x8" +:+ nl +:+
  "   DISABLED = 0x0" +:+ nl.

(** A device file with blank lines around a closed block, and the same
    block with a blank line inside. *)
Definition blank_outside_devfile : string :=
  nl +:+
  "pragma fuse_def OSC:4 0x3 {" +:+ nl +:+
  "   HS = 0x1" +:+ nl +:+
  "   }" +:+ nl +:+
  nl.

(** The candidate pins of [find_blinkpin], in the order of its two loops. *)
Definition candidates_of (ports : list ascii) : list string :=
  flat_map (λ p, pin_name p <$> seq 0 8) ports.

Definition candidates : list string := candidates_of ["A"; "B"; "C"]%char.

(** A candidate is usable in the text when its name and its direction name
    both occur. *)
Definition usable (fstr c : string) : Prop :=
  occurs c fstr ∧ occurs (c +:+ "_direction") fstr.

(** What is printed for the candidates of [l] that are passed over. *)
Definition skip_msgs (fstr : string) (l : list string) : list string :=
  flat_map (λ c, if contains c fstr
                 then ["   Found " +:+ c +:+ " but no " +:+ (c +:+ "_direction")
                       +:+ " skip this pin."]
                 else []) l.

(** [c] is the first usable element of [l]. *)
Definition first_usable (fstr : string) (l : list string) (c : string)
  (before : list string) : Prop :=
  (∃ after, l = before ++ c :: after) ∧
  usable fstr c ∧ Forall (λ c', ¬ usable fstr c') before.

(** The samples attempted for a chip without "osc" fuse group. *)
Definition no_osc_attempts (st : scan_state) : list (string * string) :=
  match fusedef st !! "ioscfs" with
  | Some ioscfs =>
      if decide ("F4MHZ" ∈ ioscfs) then [("INTOSC", "F4MHZ")] else []
  | None => []
  end.

(** An environment with one chip and a compiler that reports no error, for
    the concrete runs below. *)
Definition demo_env : env :=
  Env "/jallib" "/jallib/jalv2-x86-64" "python3"
    {[ "16F88" := {[ "OSCCON_IRCF" := "110" ]};
       "16F630" := {[ "OSCCON_IRCF" := "-" ]} ]}
    (λ _ fs, (Returned "0 errors, 0 warnings", fs)).

Definition demo_clock : clock :=
  Clock "Thu Dec 31 23:59:59 2020" "Thu Dec 31 23:59:59 2020".

(** The text of the sample [build_sample] produces, when it produces one. *)
Definition sample_text (E : env) (st : scan_state) (clk : clock)
  (pic pin osctype oscword : string) (w : world) : option string :=
  match build_sample E st clk pic pin osctype oscword w with
  | Ok (Some pgmname, w') => files w' !! pgmname
  | _ => None
  end.

(** The line of the header that holds the time stamp. *)
Definition timestamp_line (now : string) : string :=
  "--  - Creation date/time: " +:+ now +:+ nl.

(** Two texts are equal before and after their time stamp lines. *)
Definition differ_only_in_timestamp_line (text1 text2 now1 now2 : string)
  : Prop :=
  ∃ pre post, text1 = pre +:+ timestamp_line now1 +:+ post ∧
              text2 = pre +:+ timestamp_line now2 +:+ post.

(** [strip_prefix p s]: what follows [p] at the start of [s] *)
Fixpoint strip_prefix (p s : string) : option string :=
  match p, s with
  | "", _ => Some s
  | String a p', String b s' =>
      if Ascii.eqb a b then strip_prefix p' s' else None
  | String _ _, "" => None
  end.

Definition decomp_here (t1 t2 s1 s2 : string) : bool :=
  match strip_prefix t1 s1, strip_prefix t2 s2 with
  | Some r1, Some r2 => String.eqb r1 r2
  | _, _ => false
  end.

(** A search for a common prefix of [s1] and [s2] after which [t1] stands
    in [s1], [t2] stands in [s2], and the remainders are equal. *)
Fixpoint decomp_check (t1 t2 s1 s2 : string) : bool :=
  decomp_here t1 t2 s1 s2 ||
  match s1, s2 with
  | String a s1', String b s2' => Ascii.eqb a b && decomp_check t1 t2 s1' s2'
  | _, _ => false
  end.

(** [s] ends with [sfx] *)
Definition ends_with (s sfx : string) : Prop := ∃ pre, s = pre +:+ sfx.

(** The world left by a compilation without errors and warnings, and by a
    compilation with some, [fs] being the files as the compiler left them. *)
Definition world_compiled (E : env) (pgmname src : string)
  (fs : gmap string string) (out : list string) : world :=
  World (delete (fasm_of E pgmname)
           (delete (fhex_of E pgmname)
              (<[destfile_of E pgmname := src]> (delete pgmname fs))))
        out.

Definition world_rejected (E : env) (pgmname src log : string)
  (numerrors numwarnings : Z) (fs : gmap string string) (out : list string)
  : world :=
  World (<[flog_of E pgmname := log +:+ nl]>
           (<[destfile_of E pgmname := src]> (delete pgmname fs)))
        (out ++ ["   Compilation of " +:+ pgmname +:+ " gave "
                 +:+ str_of_Z numerrors +:+ " errors "
                 +:+ str_of_Z numwarnings +:+ " warnings"]).

(** A compiler that leaves the .hex and .asm outputs behind and reports
    the given text. *)
Definition demo_compiler_env (report : string) : env :=
  Env "/jallib" "/jallib/jalv2-x86-64" "python3" ∅
    (λ _ fs, (Returned report,
              <["/jallib/blink/16f88_blink_hs.hex" := ":00000001FF"]>
                (<["/jallib/blink/16f88_blink_hs.asm" := "; asm"]> fs))).

(** ** The main loop *)

(** [fp = open(p, "r")] followed by reading the text *)
Definition read_file (p : string) : M string :=
  fun w => match files w !! p with
           | Some s => Ok (s, w)
           | None => Raise (FileNotFoundError p)
           end.

Fixpoint print_lines (l : list string) : M unit :=
  match l with
  | [] => mret tt
  | s :: l' => print s;; print_lines l'
  end.

(** The result of [scan_devfile] as [main] sees it.  The fuel of
    [scan_devfile] never runs out, so the default is never taken. *)
Definition scan_result (text : string) : result scan_state :=
  default (Raise IndexError) (scan_devfile text).

(** The body of the [for dev in devs] loop of [main]: the number of samples
    the device adds to [sample_count].  [continue] is the return of 0;
    [clk i] is the clock at the [i]-th sample of the device. *)
Definition main_dev (E : env) (runtype : string) (clk : nat → clock)
  (dev : string) : M nat :=
  if String.eqb runtype "PROD" then raise (NameError "devprod")
  else
    let jalfile := path_join (devdir E) dev in
    ok ← validate_jalfile E jalfile;
    if negb ok then mret 0%nat
    else
      text ← read_file (path_join (devdir E) dev);
      st ← lift (scan_result text);
      fstr ← read_file (path_join (devdir E) dev);
      let '(blink_pin, out) := find_blinkpin fstr in
      print_lines out;;
      if String.eqb blink_pin "" then mret 0%nat
      else
        n ← run_prog E st runtype clk 0
              (main_variants st (splitext dev).1 blink_pin);
        when (Nat.eqb n 0)
          (print ("   Could not detect a suitable OSC keyword in for "
                  +:+ dev));;
        mret n.

Fixpoint main_loop (E : env) (runtype : string) (clk : string → nat → clock)
  (devs : list string) (sample_count : nat) : M nat :=
  match devs with
  | [] => mret sample_count
  | dev :: devs' =>
      n ← main_dev E runtype (clk dev) dev;
      main_loop E runtype clk devs' (sample_count + n)
  end.

(** [main(runtype, devs)] *)
Definition main (E : env) (runtype : string) (clk : string → nat → clock)
  (devs : list string) : M nat :=
  main_loop E runtype clk devs 0.

(** ** The entry point *)

Definition devspecfile (E : env) : string :=
  path_join (base E) "devicespecific.json".

(** [read_devspec_file()]: [json_load] stands for [json.load] on the text
    of the file; the table it returns becomes the global [devspec]. *)
Definition read_devspec_file (E : env)
  (json_load : string → result (gmap string (gmap string string)))
  : M (gmap string (gmap string string)) :=
  text ← read_file (devspecfile E);
  lift (json_load text).

(** How the code under [if (__name__ == "__main__")] ends before it lists
    the device files: by [sys.exit(code)], or by going on with a run type
    and a selection pattern. *)
Inductive startup_result : Type :=
| Exit (code : Z)
| Start (runtype selection : string).

(** The entry point, from the check of the arguments to the check of the
    run type; [argv] is [sys.argv]. *)
Definition startup (E : env)
  (json_load : string → result (gmap string (gmap string string)))
  (argv : list string) : M startup_result :=
  match argv with
  | _ :: arg1 :: rest =>
      let runtype := upper arg1 in
      if Nat.ltb 3 (length argv) then
        print "Expecting not more than 2 arguments: runtype + selection";;
        print "==> When using wildcards, specify selection string between quotes";;
        print "    or use the command 'set -f' to suppress wildcard expansion by the shell";;
        mret (Exit 1)
      else
        let selection :=
          match rest with
          | arg2 :: _ => arg2 +:+ ".jal"
          | [] => "1*.jal"
          end in
        print "Creating blink-a-led sample files";;
        _ ← read_devspec_file E json_load;
        if String.eqb runtype "PROD" then
          print "PROD option temporary disabled";;
          mret (Exit 1)
        else if String.eqb runtype "TEST" then
          b ← path_exists (path_join (devdir E) "chipdef_jallib.jal");
          if negb b then
            print ("Probably no device files in " +:+ devdir E);;
            mret (Exit 1)
          else mret (Start runtype selection)
        else mret (Start runtype selection)
  | _ =>
      print "Specify at least PROD or TEST as first argument";;
      print "and optionally as second argument a pictype (wildcards allowed)";;
      mret (Exit 1)
  end.

(** ** Vocabulary of the further properties *)

(** The samples one call of [create_sample] attempts for a chip with the
    "osc" fuse group [osc], when it is called with an oscillator type other
    than HS: the first internal-oscillator choice that applies, then the
    USB variant. *)
Definition intosc_attempts (st : scan_state) (osc : list string)
  : list (string * string) :=
  (if decide ("INTOSC_NOCLKOUT" ∈ osc) then
     [("INTOSC", "INTOSC_NOCLKOUT")]
   else if decide ("INTOSC_NOCLKOUT_USB_HS" ∈ osc) then
     [("INTOSC", "INTOSC_NOCLKOUT_USB_HS")]
   else if decide ("INTOSC_NOCLKOUT_PLL" ∈ osc) then
     [("INTOSC_USB", "INTOSC_NOCLKOUT_PLL")]
   else if decide ("OFF" ∈ osc) then
     [("INTOSC", "OFF")]
   else
     match fusedef st !! "fosc2" with
     | Some fosc2 =>
         if decide ("ON" ∈ fosc2 ∧ "EC_CLKOUT_PLL" ∈ osc)
         then [("INTOSC", "EC_CLKOUT_PLL")] else []
     | None => []
     end)
  ++ (if decide ("HS_PLL" ∈ osc ∧ is_Some (var st !! "usb_bdt"))
      then [("HS_USB", "HS_PLL")] else []).

(** The number of answers True among the [n] calls from the [i]-th on. *)
Definition successes (answers : nat → bool) (i n : nat) : nat :=
  length (List.filter answers (seq i n)).

(** A program of the engine whose value is [n] more than the number of its
    calls answered True. *)
Definition counts_plus (n : nat) (p : Prog nat) : Prop :=
  ∀ answers i,
    value answers i p
    = (n + successes answers i (length (attempts answers i p)))%nat.

(** The keys [scan_devfile] can store in [var] and in [fusedef]. *)
Definition var_names : list string :=
  [ "ircfwidth"; "wdtcon_swdten"; "usb_bdt"; "osccon_scs"; "osccon_spllen";
    "oscfrq_frq3"; "oscfrq_hffrq"; "oscfrq_frq"; "oscfrq_hffrq3";
    "osccon1_nosc"; "osccon1_ndiv"; "osctune_pllen" ].

Definition fuse_names : list string :=
  [ "brownout"; "clkouten"; "cpudiv"; "cswen"; "debug"; "fcmen"; "fosc2";
    "icprt"; "ieso"; "ioscfs"; "lvp"; "mclr"; "osc"; "plldiv"; "pllen";
    "rstosc"; "usbdiv"; "vregen"; "wdt"; "xinst"; "jtagen"; "mvecen" ].

(** The invariant of the scan: "ircfwidth" is always present, with one of
    the widths 0, 2, 3, 4, and all keys are known ones. *)
Definition scan_ok (st : scan_state) : Prop :=
  (∃ width, var st !! "ircfwidth" = Some width ∧ width ∈ [0; 2; 3; 4]) ∧
  (∀ k, is_Some (var st !! k) → k ∈ var_names) ∧
  (∀ k, is_Some (fusedef st !! k) → k ∈ fuse_names).

(** What [compile_sample] prints when the compiler exits with an error
    status. *)
Definition compile_error_msg (E : env) (pgmname : string) : string :=
  "   Compilation error(s) with sample " +:+ pgmname +:+ " "
  +:+ nl +:+ "   see " +:+ flog_of E pgmname.

(** The command of [validate_jalfile] and the name of its .vlog file. *)
Definition validate_cmdlist (E : env) (jalfile : string) : list string :=
  [python_exec E; "jallib3.py"; "validate"; jalfile].

Definition vlog_of (E : env) (jalfile : string) : string :=
  path_join (dstdir E) (drop_last 4 (path_tail jalfile) +:+ ".vlog").

(** A compiler that fails although its report counts no error. *)
Definition demo_failing_env : env :=
  Env "/jallib" "/jallib/jalv2-x86-64" "python3" ∅
    (λ _ fs, (CalledProcessError "0 errors, 0 warnings", fs)).

(** A validator that rejects every file. *)
Definition demo_rejecting_env : env :=
  Env "/jallib" "/jallib/jalv2-x86-64" "python3"
    {[ "16F88" := {[ "OSCCON_IRCF" := "110" ]} ]}
    (λ _ fs, (CalledProcessError "1 errors", fs)).

(** The oscillator types [build_sample] knows. *)
Definition osc_types : list string := ["HS"; "INTOSC"; "HS_USB"; "INTOSC_USB"].

(** The name and the text of the sample that [build_sample] writes. *)
Definition sample_name (pic sfx : string) : string :=
  pic +:+ "_blink" +:+ sfx +:+ ".jal".

Definition sample_body (st : scan_state) (picdata : gmap string string)
  (clk : clock) (pic pin osctype oscword yyyy : string) : string :=
  concat_strings
    (sample_writes st picdata pic pin osctype oscword yyyy
       (datetime_now_ctime clk)).

(** A device file with a blank line inside its OSC block, and one without
    any pin. *)
Definition blank_inside_devfile : string :=
  "pragma fuse_def OSC:4 0x3 {" +:+ nl +:+
  "   HS = 0x1" +:+ nl +:+
  nl +:+
  "   }" +:+ nl.

Definition demo_clocks : string → nat → clock := λ _ _, demo_clock.

(** A [json.load] that finds an empty table. *)
Definition demo_json_load
  : string → result (gmap string (gmap string string)) :=
  λ _, Ok ∅.

(* ===================================================================== *)
(** * Part II: properties                                                 *)
(* ===================================================================== *)

(** ** Strings *)

Lemma sapp_cons (a : ascii) (s t : string) :
  String a s +:+ t = String a (s +:+ t).
Proof. reflexivity. Qed.

Lemma sapp_nil_l (s : string) : "" +:+ s = s.
Proof. reflexivity. Qed.

Lemma sapp_nil_r (s : string) : s +:+ "" = s.
Proof. induction s as [|a s IH]; [done|]. by rewrite sapp_cons, IH. Qed.

Lemma sapp_assoc (s t u : string) : (s +:+ t) +:+ u = s +:+ t +:+ u.
Proof. induction s as [|a s IH]; [done|]. by rewrite !sapp_cons, IH. Qed.

Lemma slength_app (s t : string) :
  String.length (s +:+ t) = (String.length s + String.length t)%nat.
Proof. induction s as [|a s IH]; [done|]. rewrite sapp_cons. simpl. lia. Qed.

Lemma prefix_spec (p s : string) :
  String.prefix p s = true ↔ ∃ post, s = p +:+ post.
Proof.
  revert s. induction p as [|a p IH]; intros s.
  - destruct s; simpl; split; eauto.
  - destruct s as [|b s]; simpl.
    + split; [done|]. intros [post H]. discriminate.
    + destruct (ascii_dec a b) as [->|Hne].
      * rewrite IH. split; intros [post H]; exists post.
        -- by rewrite sapp_cons, H.
        -- rewrite sapp_cons in H. by injection H.
      * split; [done|]. intros [post H]. rewrite sapp_cons in H. congruence.
Qed.

Lemma contains_spec (needle hay : string) :
  contains needle hay = true ↔ occurs needle hay.
Proof.
  induction hay as [|a hay IH]; cbn [contains].
  - rewrite orb_false_r, prefix_spec. split.
    + intros [post H]. by exists "", post.
    + intros ([|b pre] & post & H); [by exists post|discriminate].
  - rewrite orb_true_iff, IH, prefix_spec. split.
    + intros [[post H]|(pre & post & H)].
      * by exists "", post.
      * exists (String a pre), post. by rewrite sapp_cons, H.
    + intros ([|b pre] & post & H).
      * left. by exists post.
      * right. rewrite sapp_cons in H. injection H as -> ->. by exists pre, post.
Qed.

Lemma occurs_app_l (s t u : string) : occurs (s +:+ t) u → occurs s u.
Proof.
  intros (pre & post & ->). exists pre, (t +:+ post). by rewrite sapp_assoc.
Qed.

(** Two strings that end with different suffixes of the same length are
    different. *)
Lemma app_suffix_inj (x y s t : string) :
  String.length s = String.length t → x +:+ s = y +:+ t → s = t.
Proof.
  revert y. induction x as [|a x IH]; intros y Hlen H.
  - destruct y as [|b y]; [done|].
    apply (f_equal String.length) in H.
    rewrite sapp_nil_l, slength_app in H. simpl in H. lia.
  - destruct y as [|b y].
    + apply (f_equal String.length) in H.
      rewrite sapp_nil_l, slength_app in H. simpl in H. lia.
    + rewrite !sapp_cons in H. injection H as _ H. by apply (IH y).
Qed.

(** ** The scanner *)

Lemma collect_loop_keywords (body : list string) (kw : list string) :
  Forall keyword_line body →
  collect_fusedef_loop body kw = Ok (kw ++ (first_word <$> body), []).
Proof.
  revert kw. induction body as [|ln body IH]; intros kw Hb; simpl.
  - by rewrite List.app_nil_r.
  - inversion Hb as [|? ? (w & ws & Hw & Hne) Hb']; subst.
    rewrite Hw. apply String.eqb_neq in Hne. rewrite Hne.
    rewrite IH by done. unfold first_word at 2. rewrite Hw. simpl.
    by rewrite <- List.app_assoc.
Qed.

Lemma collect_loop_closed (body : list string) (close : string)
  (rest kw : list string) :
  Forall keyword_line body → closing_line close →
  collect_fusedef_loop (body ++ close :: rest) kw
  = Ok (kw ++ (first_word <$> body), rest).
Proof.
  revert kw. induction body as [|ln body IH]; intros kw Hb [ws Hc]; simpl.
  - rewrite Hc. simpl. by rewrite List.app_nil_r.
  - inversion Hb as [|? ? (w & ws' & Hw & Hne) Hb']; subst.
    rewrite Hw. apply String.eqb_neq in Hne. rewrite Hne.
    rewrite IH by (done || by exists ws). unfold first_word at 2.
    rewrite Hw. simpl. by rewrite <- List.app_assoc.
Qed.

Lemma collect_loop_blank (body : list string) (blank : string)
  (rest kw : list string) :
  Forall keyword_line body → blank_line blank →
  collect_fusedef_loop (body ++ blank :: rest) kw = Raise IndexError.
Proof.
  revert kw. induction body as [|ln body IH]; intros kw Hb Hbl; simpl.
  - by rewrite Hbl.
  - inversion Hb as [|? ? (w & ws' & Hw & Hne) Hb']; subst.
    rewrite Hw. apply String.eqb_neq in Hne. rewrite Hne. by apply IH.
Qed.

Lemma collect_loop_nonblank (lines kw : list string) :
  Forall (λ ln, ¬ blank_line ln) lines →
  ∃ kw' rest, collect_fusedef_loop lines kw = Ok (kw', rest).
Proof.
  revert kw. induction lines as [|ln lines IH]; intros kw Hl; simpl.
  - eauto.
  - inversion Hl as [|? ? Hnb Hl']; subst. unfold blank_line in Hnb.
    destruct (py_split ln) as [|w ws]; [done|].
    destruct (String.eqb w "}"); eauto.
Qed.

Lemma scan_loop_open_block (fuel : nat) (decl key : string)
  (body : list string) (st : scan_state) :
  opens_block decl key → Forall keyword_line body →
  scan_loop (S (S fuel)) (decl :: body) st
  = Some (Ok (set_fusedef key (first_word <$> body) st)).
Proof.
  intros (fuse & Hc & Hk) Hb. cbn [scan_loop]. rewrite Hc, Hk.
  unfold collect_fusedef. by rewrite collect_loop_keywords.
Qed.

Lemma scan_loop_blank_in_block (fuel : nat) (decl key blank : string)
  (body rest : list string) (st : scan_state) :
  opens_block decl key → Forall keyword_line body → blank_line blank →
  scan_loop (S fuel) (decl :: body ++ blank :: rest) st
  = Some (Raise IndexError).
Proof.
  intros (fuse & Hc & Hk) Hb Hbl. cbn [scan_loop]. rewrite Hc, Hk.
  unfold collect_fusedef. by rewrite collect_loop_blank.
Qed.

Lemma scan_loop_blank_outside (fuel : nat) (blank : string)
  (rest : list string) (st : scan_state) :
  blank_line blank →
  scan_loop (S fuel) (blank :: rest) st = scan_loop fuel rest st.
Proof.
  intros Hbl. cbn [scan_loop]. unfold classify_line. by rewrite Hbl.
Qed.

(** With well-formed blocks the loop ends normally, whatever the state it
    starts from, as soon as it has more fuel than there are lines. *)
Lemma scan_loop_blocks_nonblank (lines : list string) :
  blocks_nonblank lines →
  ∀ fuel st, (length lines < fuel)%nat →
    ∃ st', scan_loop fuel lines st = Some (Ok st').
Proof.
  induction 1 as [|ln rest Hno _ IH|decl key body close rest Ho Hb Hc _ IH
                 |decl key body Ho Hb]; intros fuel st Hfuel.
  - destruct fuel; [simpl in Hfuel; lia|]. by exists st.
  - destruct fuel; [simpl in Hfuel; lia|]. simpl in Hfuel.
    cbn [scan_loop]. destruct (classify_line ln) as [| fuse |] eqn:Hcl.
    + apply IH. lia.
    + destruct (fuse_key fuse) as [key|] eqn:Hk.
      * exfalso. apply (Hno key). by exists fuse.
      * apply IH. lia.
    + apply IH. lia.
  - destruct fuel; [simpl in Hfuel; lia|]. simpl in Hfuel.
    destruct Ho as (fuse & Hcl & Hk). cbn [scan_loop]. rewrite Hcl, Hk.
    unfold collect_fusedef. rewrite collect_loop_closed by done.
    apply IH. rewrite length_app in Hfuel. simpl in Hfuel. lia.
  - destruct fuel as [|[|fuel]]; [simpl in Hfuel; lia..|].
    rewrite (scan_loop_open_block fuel decl key) by done. eauto.
Qed.

(** The fuel given by [scan_devfile] is always enough. *)
Lemma scan_loop_fuel (fuel : nat) (lines : list string) (st : scan_state) :
  (length lines < fuel)%nat → is_Some (scan_loop fuel lines st).
Proof.
  revert lines st. induction fuel as [|fuel IH]; intros lines st Hf; [lia|].
  destruct lines as [|ln rest]; [by eexists|]. simpl in Hf.
  cbn [scan_loop]. destruct (classify_line ln) as [| fuse |].
  - apply IH. lia.
  - destruct (fuse_key fuse); [|apply IH; lia].
    destruct (collect_fusedef rest) as [[kw rest']|e] eqn:Hcol; [|by eexists].
    apply IH. enough (length rest' ≤ length rest)%nat by lia.
    clear -Hcol. unfold collect_fusedef in Hcol. revert Hcol.
    generalize (@nil string). induction rest as [|l rest IHr]; intros kw0 H.
    + simpl in H. by injection H as _ <-.
    + simpl in H. destruct (py_split l) as [|w ws]; [done|].
      destruct (String.eqb w "}").
      * injection H as _ <-. simpl. lia.
      * apply IHr in H. simpl. lia.
  - apply IH. lia.
Qed.

Lemma scan_devfile_total (text : string) : is_Some (scan_devfile text).
Proof. unfold scan_devfile. apply scan_loop_fuel. lia. Qed.

(** C4, counterexample: the device file [unterminated_devfile] declares the
    OSC fuse group and has no closing line at all; the scan ends normally
    and stores the keywords read so far as the "osc" group; no scan error
    is reported. *)
Lemma C4_unterminated_block_counterexample :
  Forall (λ ln, ¬ closing_line ln) (readlines unterminated_devfile) ∧
  (∃ rest, readlines unterminated_devfile
           = ("pragma fuse_def OSC:4 0x3 {" +:+ nl) :: rest) ∧
  scan_devfile unterminated_devfile
  = Some (Ok (ScanState {[ "ircfwidth" := 0 ]} {[ "osc" := ["HS"; "XT"] ]})).
Proof.
  split; [|split].
  - repeat constructor; intros [ws H]; vm_compute in H; discriminate.
  - eexists. vm_compute. reflexivity.
  - vm_compute. reflexivity.
Qed.

(** The scan of lines that stay at the outer level goes on with what
    follows them, with fuel left for it. *)
Lemma scan_loop_blocks_closed (pre : list string) :
  blocks_closed pre →
  ∀ fuel rest st, (length (pre ++ rest) < fuel)%nat →
    ∃ fuel' st', (length rest < fuel')%nat ∧
      scan_loop fuel (pre ++ rest) st = scan_loop fuel' rest st'.
Proof.
  induction 1 as [|ln pre Hno _ IH|decl key body close pre Ho Hb Hc _ IH];
    intros fuel rest st Hfuel.
  - by exists fuel, st.
  - destruct fuel; [simpl in Hfuel; lia|]. simpl in Hfuel.
    cbn [app scan_loop]. destruct (classify_line ln) as [| fuse |] eqn:Hcl.
    + apply IH. lia.
    + destruct (fuse_key fuse) as [key|] eqn:Hk.
      * exfalso. apply (Hno key). by exists fuse.
      * apply IH. lia.
    + apply IH. lia.
  - destruct fuel; [simpl in Hfuel; lia|].
    rewrite <- List.app_comm_cons, <- List.app_assoc, <- List.app_comm_cons.
    rewrite <- List.app_comm_cons, <- List.app_assoc in Hfuel.
    simpl in Hfuel. rewrite length_app in Hfuel. simpl in Hfuel.
    destruct Ho as (fuse & Hcl & Hk). cbn [scan_loop]. rewrite Hcl, Hk.
    unfold collect_fusedef. rewrite collect_loop_closed by done.
    apply IH. lia.
Qed.

(** C4, amended: when an ASCII device file consists of lines that open no
    block and of closed blocks, followed by a recognised fuse_def
    declaration after which, up to the end of the file, every line has a
    first word other than the closing brace, no error is raised: the scan
    of the file ends normally and the first words of all the lines after
    the declaration are the keyword list of its fuse group. *)
Theorem C4_unterminated_block_accepted (text decl key : string)
  (pre body : list string) :
  is_ascii text = true →
  readlines text = pre ++ decl :: body →
  blocks_closed pre →
  opens_block decl key →
  Forall keyword_line body →
  ∃ st', scan_devfile text = Some (Ok st') ∧
         fusedef st' !! key = Some (first_word <$> body).
Proof.
  intros _ Hlines Hpre Ho Hb. unfold scan_devfile. rewrite Hlines.
  destruct (scan_loop_blocks_closed pre Hpre
              (S (length (pre ++ decl :: body))) (decl :: body) scan_init)
    as (fuel' & st1 & Hfuel' & ->); [lia|].
  destruct fuel' as [|[|fuel']]; [simpl in Hfuel'; lia..|].
  eexists. split; [by apply scan_loop_open_block|].
  simpl. apply lookup_insert_eq.
Qed.

Lemma C4_unterminated_block_accepted_witness :
  ∃ st', scan_devfile late_unterminated_devfile = Some (Ok st') ∧
         fusedef st' !! "wdt" = Some ["ENABLED"; "DISABLED"].
Proof.
  apply (C4_unterminated_block_accepted late_unterminated_devfile
           ("pragma fuse_def WDT:2 0x18 {" +:+ nl) "wdt"
           ["-- a device file" +:+ nl;
            "pragma fuse_def OSC:4 0x3 {" +:+ nl;
            "   HS = 0x1" +:+ nl;
            "   }" +:+ nl]
           ["   ENABLED = 0x8" +:+ nl; "   DISABLED = 0x0" +:+ nl]).
  - vm_compute. reflexivity.
  - vm_compute. reflexivity.
  - apply bc_line.
    + intros key (fuse & Hcl & _). vm_compute in Hcl. discriminate.
    + apply (bc_closed ("pragma fuse_def OSC:4 0x3 {" +:+ nl) "osc"
               ["   HS = 0x1" +:+ nl] ("   }" +:+ nl) []).
      * exists "OSC:4". split; vm_compute; reflexivity.
      * repeat constructor. exists "HS", ["="; "0x1"].
        split; [vm_compute; reflexivity|discriminate].
      * exists []. vm_compute. reflexivity.
      * constructor.
  - exists "WDT:2". split; vm_compute; reflexivity.
  - repeat constructor.
    + exists "ENABLED", ["="; "0x8"].
      split; [vm_compute; reflexivity|discriminate].
    + exists "DISABLED", ["="; "0x0"].
      split; [vm_compute; reflexivity|discriminate].
Defined.

(** C10, for device files of ASCII characters: (1) if every line the block
    reader can read is non-blank, its access of the first word is defined
    on each of them and [collect_fusedef] returns normally; (2) hence
    [scan_devfile]'s loop ends normally on every device file whose blocks
    have only non-blank lines, blank lines elsewhere being allowed; (3) a
    blank line inside a block, before its closing line, makes
    [collect_fusedef] and the scan raise [IndexError]; (4) the same blank
    line outside a block is skipped by the scan. *)
Theorem C10_blank_line_in_block (text : string) (lines body rest : list string)
  (decl key blank : string) (st : scan_state) :
  (ascii_lines lines → Forall (λ ln, ¬ blank_line ln) lines →
     ∃ kw rest', collect_fusedef lines = Ok (kw, rest')) ∧
  (is_ascii text = true → blocks_nonblank (readlines text) →
     ∃ st', scan_devfile text = Some (Ok st')) ∧
  (ascii_lines (decl :: body ++ blank :: rest) →
   opens_block decl key → Forall keyword_line body → blank_line blank →
     collect_fusedef (body ++ blank :: rest) = Raise IndexError ∧
     ∀ fuel, scan_loop (S fuel) (decl :: body ++ blank :: rest) st
             = Some (Raise IndexError)) ∧
  (ascii_lines (blank :: rest) → blank_line blank →
     ∀ fuel, scan_loop (S fuel) (blank :: rest) st = scan_loop fuel rest st).
Proof.
  split; [|split; [|split]].
  - intros _. apply collect_loop_nonblank.
  - intros _ Hbn. unfold scan_devfile.
    apply scan_loop_blocks_nonblank; [done|lia].
  - intros _ Ho Hb Hbl. split.
    + by apply collect_loop_blank.
    + intros fuel. by apply (scan_loop_blank_in_block fuel decl key).
  - intros _ Hbl fuel. by apply scan_loop_blank_outside.
Qed.

Lemma C10_blank_line_in_block_witness :
  (∃ kw rest', collect_fusedef ["   HS = 0x1" +:+ nl; "   }" +:+ nl]
               = Ok (kw, rest')) ∧
  (∃ st', scan_devfile blank_outside_devfile = Some (Ok st')) ∧
  scan_loop 1 (("pragma fuse_def OSC:4 0x3 {" +:+ nl)
               :: ["   HS = 0x1" +:+ nl] ++ nl :: ["   }" +:+ nl]) scan_init
  = Some (Raise IndexError) ∧
  scan_loop 1 (nl :: ["   }" +:+ nl]) scan_init
  = scan_loop 0 ["   }" +:+ nl] scan_init.
Proof.
  destruct (C10_blank_line_in_block blank_outside_devfile
              ["   HS = 0x1" +:+ nl; "   }" +:+ nl]
              ["   HS = 0x1" +:+ nl] ["   }" +:+ nl]
              ("pragma fuse_def OSC:4 0x3 {" +:+ nl) "osc" nl scan_init)
    as (H1 & H2 & H3 & H4).
  assert (Hkw : keyword_line ("   HS = 0x1" +:+ nl)).
  { exists "HS", ["="; "0x1"]. split; [vm_compute; reflexivity|discriminate]. }
  assert (Hop : opens_block ("pragma fuse_def OSC:4 0x3 {" +:+ nl) "osc").
  { exists "OSC:4". split; vm_compute; reflexivity. }
  split; [|split; [|split]].
  - apply H1.
    + repeat constructor.
    + repeat constructor; intros H; vm_compute in H; discriminate.
  - apply H2; [vm_compute; reflexivity|].
    change (readlines blank_outside_devfile)
      with (nl :: ("pragma fuse_def OSC:4 0x3 {" +:+ nl)
               :: ["   HS = 0x1" +:+ nl] ++ ("   }" +:+ nl) :: [nl]).
    apply bn_line.
    { intros key (fuse & Hc & _). vm_compute in Hc. discriminate. }
    apply (bn_closed _ "osc"); [done|by constructor| |].
    { exists []. vm_compute. reflexivity. }
    apply bn_line; [|constructor].
    intros key (fuse & Hc & _). vm_compute in Hc. discriminate.
  - apply H3; [repeat constructor|done|by constructor|vm_compute; reflexivity].
  - apply H4; [repeat constructor|vm_compute; reflexivity].
Defined.

(** ** The pin selector *)

Lemma first_usable_unique (fstr : string) (l : list string)
  (c1 c2 : string) (b1 b2 : list string) :
  first_usable fstr l c1 b1 → first_usable fstr l c2 b2 → c1 = c2 ∧ b1 = b2.
Proof.
  intros ([a1 H1] & U1 & F1) ([a2 H2] & U2 & F2). subst l.
  revert b2 H2 F2. induction b1 as [|x b1 IH]; intros [|y b2] H2 F2.
  - by injection H2.
  - injection H2 as -> _. by inversion F2.
  - injection H2 as -> _. by inversion F1.
  - injection H2 as -> H2. inversion F1; inversion F2; subst.
    destruct (IH ltac:(done) b2 H2 ltac:(done)) as [-> ->]. done.
Qed.

Lemma blinkpin_bits_spec (fstr : string) (p : ascii) (qs : list nat)
  (out : list string) :
  match blinkpin_bits fstr p qs out with
  | (Some c, out') =>
      ∃ before, first_usable fstr (pin_name p <$> qs) c before ∧
                out' = out ++ skip_msgs fstr before
  | (None, out') =>
      Forall (λ c', ¬ usable fstr c') (pin_name p <$> qs) ∧
      out' = out ++ skip_msgs fstr (pin_name p <$> qs)
  end.
Proof.
  revert out. induction qs as [|q qs IH]; intros out; cbn [blinkpin_bits].
  - split; [constructor|]. simpl. by rewrite List.app_nil_r.
  - destruct (contains (pin_name p q) fstr) eqn:Hn.
    + destruct (contains (pin_name p q +:+ "_direction") fstr) eqn:Hd.
      * exists []. split; [|simpl; by rewrite List.app_nil_r].
        split; [by eexists|]. split; [|constructor].
        split; by apply contains_spec.
      * assert (Hnu : ¬ usable fstr (pin_name p q)).
        { intros [_ H%contains_spec]. congruence. }
        specialize (IH (out ++ ["   Found " +:+ pin_name p q +:+ " but no "
          +:+ (pin_name p q +:+ "_direction") +:+ " skip this pin."])).
        destruct (blinkpin_bits fstr p qs _) as [[c|] out'].
        -- destruct IH as (before & ([after Hl] & Hu & Hf) & ->).
           exists (pin_name p q :: before). split.
           ++ split; [exists after; by rewrite fmap_cons, Hl|].
              split; [done|by constructor].
           ++ simpl. rewrite Hn. by rewrite <- List.app_assoc.
        -- destruct IH as [Hf ->]. split; [by constructor|].
           simpl. rewrite Hn. by rewrite <- List.app_assoc.
    + assert (Hnu : ¬ usable fstr (pin_name p q)).
      { intros [H%contains_spec _]. congruence. }
      specialize (IH out).
      destruct (blinkpin_bits fstr p qs out) as [[c|] out'].
      * destruct IH as (before & ([after Hl] & Hu & Hf) & ->).
        exists (pin_name p q :: before). split.
        -- split; [exists after; by rewrite fmap_cons, Hl|].
           split; [done|by constructor].
        -- simpl. by rewrite Hn.
      * destruct IH as [Hf ->]. split; [by constructor|].
        simpl. by rewrite Hn.
Qed.

Lemma blinkpin_ports_spec (fstr : string) (ports : list ascii)
  (out : list string) :
  let '(r, out') := blinkpin_ports fstr ports out in
  (∃ before, first_usable fstr (candidates_of ports) r before ∧
             out' = out ++ skip_msgs fstr before) ∨
  (r = "" ∧ Forall (λ c', ¬ usable fstr c') (candidates_of ports) ∧
   out' = out ++ skip_msgs fstr (candidates_of ports)
          ++ ["   Could not find suitable I/O pin for LED"]).
Proof.
  revert out. induction ports as [|p ports IH]; intros out;
    cbn [blinkpin_ports].
  - right. split; [done|]. split; [constructor|done].
  - pose proof (blinkpin_bits_spec fstr p (seq 0 8) out) as Hb.
    destruct (blinkpin_bits fstr p (seq 0 8) out) as [[c|] out'].
    + destruct Hb as (before & ([after Hl] & Hu & Hf) & ->).
      left. exists before. split; [|done].
      split; [|done]. exists (after ++ candidates_of ports).
      unfold candidates_of at 1. cbn [flat_map]. rewrite Hl.
      by rewrite <- List.app_assoc.
    + destruct Hb as [Hf ->]. specialize (IH (out ++ skip_msgs fstr
        (pin_name p <$> seq 0 8))).
      destruct (blinkpin_ports fstr ports _) as [r out''].
      destruct IH as [(before & ([after Hl] & Hu & Hf') & ->)
                     |(-> & Hf' & ->)].
      * left. exists ((pin_name p <$> seq 0 8) ++ before). split.
        -- split; [|split; [done|by apply Forall_app]].
           exists after. unfold candidates_of at 1. cbn [flat_map].
           fold (candidates_of ports). rewrite Hl.
           by rewrite <- List.app_assoc.
        -- unfold skip_msgs. rewrite flat_map_app.
           by rewrite <- List.app_assoc.
      * right. split; [done|]. split.
        -- unfold candidates_of at 1. cbn [flat_map].
           by apply Forall_app.
        -- unfold candidates_of at 2. cbn [flat_map].
           fold (candidates_of ports). unfold skip_msgs.
           rewrite flat_map_app. by rewrite <- !List.app_assoc.
Qed.

(** C7: [find_blinkpin] returns the first candidate, in the order pin_A0 ..
    pin_A7, pin_B0 .. pin_B7, pin_C0 .. pin_C7, whose name and whose name
    followed by "_direction" both occur in the text; the candidates before
    it are passed over, with a message when only the name occurs; when no
    candidate is usable the empty string is returned.  In particular pin_A0
    is returned as soon as its pair occurs, whatever else the text holds. *)
Theorem C7_find_blinkpin_first_usable (fstr : string) :
  candidates =
    [ "pin_A0"; "pin_A1"; "pin_A2"; "pin_A3"; "pin_A4"; "pin_A5"; "pin_A6";
      "pin_A7"; "pin_B0"; "pin_B1"; "pin_B2"; "pin_B3"; "pin_B4"; "pin_B5";
      "pin_B6"; "pin_B7"; "pin_C0"; "pin_C1"; "pin_C2"; "pin_C3"; "pin_C4";
      "pin_C5"; "pin_C6"; "pin_C7" ] ∧
  (∀ c before, first_usable fstr candidates c before →
     find_blinkpin fstr = (c, skip_msgs fstr before)) ∧
  (Forall (λ c, ¬ usable fstr c) candidates →
     (find_blinkpin fstr).1 = "") ∧
  (usable fstr "pin_A0" → usable fstr "pin_B3" →
     (find_blinkpin fstr).1 = "pin_A0").
Proof.
  assert (Hfirst : ∀ c before, first_usable fstr candidates c before →
            find_blinkpin fstr = (c, skip_msgs fstr before)).
  { intros c before Hc. unfold find_blinkpin.
    pose proof (blinkpin_ports_spec fstr ["A"; "B"; "C"]%char []) as Hs.
    destruct (blinkpin_ports fstr _ []) as [r out'].
    destruct Hs as [(before' & Hr & ->)|(-> & Hf & _)].
    - destruct (first_usable_unique _ _ _ _ _ _ Hc Hr) as [-> ->]. done.
    - destruct Hc as ([after Hl] & Hu & _). exfalso.
      fold candidates in Hf. rewrite Hl in Hf.
      apply Forall_app in Hf as [_ Hf]. by inversion Hf. }
  split; [reflexivity|]. split; [done|]. split.
  - intros Hnone. unfold find_blinkpin.
    pose proof (blinkpin_ports_spec fstr ["A"; "B"; "C"]%char []) as Hs.
    destruct (blinkpin_ports fstr _ []) as [r out'].
    destruct Hs as [(before' & ([after Hl] & Hu & _) & _)|(-> & _)]; [|done].
    exfalso. fold candidates in Hl. rewrite Hl in Hnone.
    apply Forall_app in Hnone as [_ Hf]. by inversion Hf.
  - intros HA _. rewrite (Hfirst "pin_A0" []); [done|].
    split; [by eexists|]. split; [done|constructor].
Qed.

Lemma C7_find_blinkpin_first_usable_witness :
  (find_blinkpin
     "var bit pin_A0 var bit pin_A0_direction var bit pin_B3 var bit pin_B3_direction").1
  = "pin_A0".
Proof.
  apply C7_find_blinkpin_first_usable;
    (split; apply contains_spec; vm_compute; reflexivity).
Defined.

(** ** The oscillator rule engine *)

Lemma attempts_bind {A B} (answers : nat → bool) (i : nat)
  (p : Prog A) (f : A → Prog B) :
  attempts answers i (p ≫= f)
  = attempts answers i p
    ++ attempts answers (i + length (attempts answers i p))
         (f (value answers i p)).
Proof.
  revert i. induction p as [a|pic pin ot ow k IH]; intros i.
  - simpl. by rewrite Nat.add_0_r.
  - change (Sample pic pin ot ow k ≫= f)
      with (Sample pic pin ot ow (λ b, k b ≫= f)).
    cbn [attempts value]. rewrite IH. cbn [length app].
    by rewrite Nat.add_succ_r.
Qed.

Lemma attempts_attempt (answers : nat → bool) (i : nat)
  (pic pin ot ow : string) :
  attempts answers i (attempt pic pin ot ow) = [(ot, ow)].
Proof. reflexivity. Qed.

Lemma attempts_done {A} (answers : nat → bool) (i : nat) (a : A) :
  attempts answers i (Done a) = [].
Proof. reflexivity. Qed.

Lemma create_sample_HS (st : scan_state) (pic pin ow : string) :
  create_sample st pic pin "HS" ow = attempt pic pin "HS" ow.
Proof. reflexivity. Qed.

(** Called with an oscillator type other than HS, [create_sample] attempts
    no HS sample. *)
Lemma create_sample_not_HS (answers : nat → bool) (i : nat)
  (st : scan_state) (pic pin ot ow : string) :
  ot ≠ "HS" →
  Forall (λ a, a.1 ≠ "HS") (attempts answers i (create_sample st pic pin ot ow)).
Proof.
  intros Hne. apply String.eqb_neq in Hne. unfold create_sample.
  rewrite Hne.
  repeat case_match;
    rewrite ?attempts_bind, ?attempts_attempt, ?attempts_done;
    repeat (apply Forall_app; split);
    repeat constructor; discriminate.
Qed.

Lemma filter_HS_none (l : list (string * string)) :
  Forall (λ a, a.1 ≠ "HS") l → filter (λ a, a.1 = "HS") l = [].
Proof.
  induction 1 as [|a l Ha _ IH]; [done|].
  rewrite filter_cons. by destruct (decide (a.1 = "HS")).
Qed.

Lemma try_osc_HS (answers : nat → bool) (i : nat) (st : scan_state)
  (pic pin kwd : string) (osc : list string) :
  attempts answers i (try_osc st pic pin osc kwd "HS")
  = if decide (kwd ∈ osc) then [("HS", kwd)] else [].
Proof.
  unfold try_osc, kw_in. destruct (decide (kwd ∈ osc)).
  - by rewrite bool_decide_eq_true_2.
  - by rewrite bool_decide_eq_false_2.
Qed.

Lemma try_osc_INTOSC (answers : nat → bool) (i : nat) (st : scan_state)
  (pic pin kwd : string) (osc : list string) :
  filter (λ a, a.1 = "HS")
    (attempts answers i (try_osc st pic pin osc kwd "INTOSC")) = [].
Proof.
  apply filter_HS_none. unfold try_osc. destruct (kw_in kwd osc).
  - by apply create_sample_not_HS.
  - constructor.
Qed.

(** C8: for a chip with an "osc" fuse group, the HS samples the pipeline
    attempts are exactly one per keyword among HSH, PRI, HS that the group
    contains, in that order, each with the keyword as its oscword; they
    depend on nothing but the membership of each keyword, and not on the
    answers of the earlier attempts. *)
Theorem C8_hs_variants (answers : nat → bool) (st : scan_state)
  (picname blink_pin : string) (osc : list string) :
  fusedef st !! "osc" = Some osc →
  filter (λ a, a.1 = "HS")
    (attempts answers 0 (main_variants st picname blink_pin))
  = (λ kwd, ("HS", kwd)) <$> filter (λ kwd, kwd ∈ osc) ["HSH"; "PRI"; "HS"].
Proof.
  intros Hosc. unfold main_variants. rewrite Hosc.
  rewrite !attempts_bind, attempts_done, !filter_app, !try_osc_INTOSC.
  rewrite !try_osc_HS, !filter_cons, filter_nil.
  repeat (destruct (decide (_ ∈ osc))); reflexivity.
Qed.

Lemma C8_hs_variants_witness :
  filter (λ a, a.1 = "HS")
    (attempts (λ _, true) 0
       (main_variants
          (ScanState {[ "ircfwidth" := 0 ]}
             {[ "osc" := ["HS"; "INTOSC_NOCLKOUT"; "PRI"] ]})
          "16f88" "pin_A0"))
  = (λ kwd, ("HS", kwd))
      <$> filter (λ kwd, kwd ∈ ["HS"; "INTOSC_NOCLKOUT"; "PRI"])
            ["HSH"; "PRI"; "HS"].
Proof.
  apply (C8_hs_variants (λ _, true)
           (ScanState {[ "ircfwidth" := 0 ]}
              {[ "osc" := ["HS"; "INTOSC_NOCLKOUT"; "PRI"] ]})).
  vm_compute. reflexivity.
Defined.

(** C1, counterexample: a chip whose scan yields neither an "osc" nor an
    "ioscfs" fuse group.  No sample at all is attempted, not even an INTOSC
    variant with the empty oscword. *)
Lemma C1_no_osc_counterexample :
  let st := ScanState {[ "ircfwidth" := 0 ]} {[ "wdt" := ["DISABLED"] ]} in
  fusedef st !! "osc" = None ∧
  ∀ answers, attempts answers 0 (main_variants st "12f508" "pin_A0") = [] ∧
             value answers 0 (main_variants st "12f508" "pin_A0") = 0%nat.
Proof. split; [|intros answers; split]; vm_compute; reflexivity. Qed.

(** C1, amended: for a chip whose scan yields no "osc" fuse group the
    pipeline attempts at most one sample: one INTOSC variant with oscword
    F4MHZ when an "ioscfs" fuse group exists and contains F4MHZ, and no
    sample otherwise. *)
Theorem C1_no_osc_variants (answers : nat → bool) (st : scan_state)
  (picname blink_pin : string) :
  fusedef st !! "osc" = None →
  attempts answers 0 (main_variants st picname blink_pin)
  = no_osc_attempts st.
Proof.
  intros Hosc. unfold main_variants, no_osc_attempts. rewrite Hosc.
  unfold create_sample, has_key, kw_in. rewrite Hosc.
  cbn [String.eqb Ascii.eqb Bool.eqb]. 
  destruct (fusedef st !! "ioscfs") as [ioscfs|] eqn:Hio.
  - rewrite bool_decide_eq_true_2 by eauto.
    rewrite bool_decide_eq_false_2 by (by intros [? ?]).
    cbn [andb negb]. destruct (decide ("F4MHZ" ∈ ioscfs)).
    + by rewrite bool_decide_eq_true_2.
    + by rewrite bool_decide_eq_false_2.
  - rewrite (bool_decide_eq_false_2 (is_Some None)) by (by intros [? ?]).
    done.
Qed.

Lemma C1_no_osc_variants_witness :
  attempts (λ _, true) 0
    (main_variants
       (ScanState {[ "ircfwidth" := 0 ]} {[ "ioscfs" := ["F4MHZ"; "F8MHZ"] ]})
       "12f510" "pin_B0")
  = [("INTOSC", "F4MHZ")].
Proof.
  etrans.
  - apply (C1_no_osc_variants (λ _, true)
             (ScanState {[ "ircfwidth" := 0 ]}
                {[ "ioscfs" := ["F4MHZ"; "F8MHZ"] ]})).
    vm_compute. reflexivity.
  - vm_compute. reflexivity.
Defined.

(** C3, the failing input: a chip with USB whose "osc" fuse group holds HS
    and HS_PLL.  The only sample attempted is the HS one: [create_sample]
    reaches its USB test only when it is called with an oscillator type
    other than HS, and [main] calls it here with HS only. *)
Theorem C3_hs_usb_not_attempted (answers : nat → bool) :
  let st := ScanState {[ "ircfwidth" := 0; "usb_bdt" := 1 ]}
                      {[ "osc" := ["HS"; "HS_PLL"] ]} in
  (∃ osc, fusedef st !! "osc" = Some osc ∧ "HS_PLL" ∈ osc) ∧
  is_Some (var st !! "usb_bdt") ∧
  attempts answers 0 (main_variants st "18f4550" "pin_A0") = [("HS", "HS")].
Proof.
  split; [|split].
  - exists ["HS"; "HS_PLL"]. split; [vm_compute; reflexivity|].
    apply list_elem_of_In. simpl. tauto.
  - exists 1. vm_compute. reflexivity.
  - vm_compute. reflexivity.
Qed.

(** ** The sample synthesizer *)

(** [fusedef_insert] writes a directive only for a fuse group that exists
    and whose keyword list holds the keyword. *)
Lemma fusedef_insert_only_if (fd : gmap string (list string))
  (fuse kwd cmt line : string) :
  line ∈ fusedef_insert fd fuse kwd cmt →
  ∃ kwds, fd !! fuse = Some kwds ∧ kwd ∈ kwds.
Proof.
  unfold fusedef_insert, kw_in. destruct (fd !! fuse) as [kwds|].
  - destruct (decide (kwd ∈ kwds)) as [Hin|Hnin].
    + intros _. by exists kwds.
    + rewrite bool_decide_eq_false_2 by done. by intros ?%elem_of_nil.
  - by intros ?%elem_of_nil.
Qed.

(** The watchdog directive with CONTROL is written for every "wdt" group
    that lacks DISABLED, whether or not it holds CONTROL. *)
Lemma sample_wdt_control (fd : gmap string (list string))
  (kwds : list string) :
  fd !! "wdt" = Some kwds → "DISABLED" ∉ kwds →
  sample_wdt fd
  = ([ "pragma target WDT      CONTROL                   -- watchdog" +:+ nl ],
     "CONTROL").
Proof.
  intros Hw Hd. unfold sample_wdt, kw_in. rewrite Hw.
  by rewrite bool_decide_eq_false_2.
Qed.

(** C5, the failing input: a chip whose watchdog fuse group offers neither
    DISABLED nor CONTROL.  The sample still carries the watchdog directive
    with keyword CONTROL. *)
Theorem C5_wdt_control_without_keyword :
  let st := ScanState {[ "ircfwidth" := 0 ]}
                      {[ "osc" := ["HS"]; "wdt" := ["ENABLED"; "SWDTEN"] ]} in
  fusedef st !! "wdt" = Some ["ENABLED"; "SWDTEN"] ∧
  ("CONTROL" ∉ ["ENABLED"; "SWDTEN"]) ∧
  ∃ text,
    sample_text demo_env st demo_clock "16f88" "pin_A0" "HS" "HS"
      (World ∅ []) = Some text ∧
    occurs ("pragma target WDT      CONTROL                   -- watchdog"
            +:+ nl) text.
Proof.
  split; [vm_compute; reflexivity|]. split.
  - intros H. apply list_elem_of_In in H. simpl in H.
    destruct H as [H|[H|[]]]; discriminate.
  - eexists. split; [vm_compute; reflexivity|].
    apply contains_spec. vm_compute. reflexivity.
Qed.

(** C6: for a chip whose static-info entry records OSCCON_IRCF as "-", a
    build request with an oscillator type that starts with INTOSC returns
    no program name and leaves every file as it was, and
    [build_validate_compile_sample] answers False after printing that there
    is no sample for the chip, again without touching any file. *)
Theorem C6_intosc_refused (E : env) (st : scan_state) (clk : clock)
  (runtype pic pin osctype oscword : string) (picdata : gmap string string)
  (w : world) :
  devspec E !! upper pic = Some picdata →
  picdata !! "OSCCON_IRCF" = Some "-" →
  (∃ rest, osctype = "INTOSC" +:+ rest) →
  ∃ msg,
    build_sample E st clk pic pin osctype oscword w
    = Ok (None, World (files w) (stdout w ++ [msg])) ∧
    build_validate_compile_sample E st clk runtype pic pin osctype oscword w
    = Ok (false, World (files w)
                   (stdout w ++ [msg; "   No sample for " +:+ pic])).
Proof.
  intros Hdev Hircf Hpre. apply prefix_spec in Hpre.
  unfold build_validate_compile_sample, build_sample.
  destruct (osc_suffix osctype) as [sfx|].
  - rewrite Hdev. unfold startswith, has_key. rewrite Hpre, Hircf.
    rewrite !bool_decide_eq_true_2 by eauto. cbn [andb].
    eexists. split; [reflexivity|].
    unfold mbind, M_bind, bind, print, mret, M_ret, ret. cbn.
    by rewrite <- List.app_assoc.
  - eexists. split; [reflexivity|].
    unfold mbind, M_bind, bind, print, mret, M_ret, ret. cbn.
    by rewrite <- List.app_assoc.
Qed.

Lemma C6_intosc_refused_witness :
  ∃ msg,
    build_sample demo_env scan_init demo_clock "16f630" "pin_A0"
      "INTOSC" "INTOSC_NOCLKOUT" (World ∅ [])
    = Ok (None, World ∅ ([] ++ [msg])) ∧
    build_validate_compile_sample demo_env scan_init demo_clock "TEST"
      "16f630" "pin_A0" "INTOSC" "INTOSC_NOCLKOUT" (World ∅ [])
    = Ok (false, World ∅ ([] ++ [msg; "   No sample for " +:+ "16f630"])).
Proof.
  apply (C6_intosc_refused demo_env scan_init demo_clock "TEST" "16f630"
           "pin_A0" "INTOSC" "INTOSC_NOCLKOUT" {[ "OSCCON_IRCF" := "-" ]}
           (World ∅ [])).
  - vm_compute. reflexivity.
  - vm_compute. reflexivity.
  - by exists "".
Defined.

Lemma concat_strings_app (l1 l2 : list string) :
  concat_strings (l1 ++ l2) = concat_strings l1 +:+ concat_strings l2.
Proof.
  induction l1 as [|s l1 IH]; [done|].
  cbn [app concat_strings]. by rewrite IH, sapp_assoc.
Qed.

(** The text of a sample is made of three parts that do not depend on the
    clock, around the year and the time stamp line. *)
Lemma sample_writes_clock (st : scan_state) (picdata : gmap string string)
  (pic pin osctype oscword : string) :
  ∃ head mid tail, ∀ yyyy now,
    concat_strings (sample_writes st picdata pic pin osctype oscword yyyy now)
    = head +:+ yyyy +:+ mid +:+ timestamp_line now +:+ tail.
Proof.
  unfold sample_writes.
  set (rest := sample_osc _ _ _ _ ++ _).
  exists (concat_strings (take 3 (sample_header pic osctype "" ""))
          +:+ "-- Author: " +:+ ScriptAuthor +:+ ", Copyright (c) 2008.."),
         (" all rights reserved." +:+ nl
          +:+ concat_strings (take 16 (drop 4 (sample_header pic osctype "" "")))),
         (concat_strings (drop 21 (sample_header pic osctype "" ""))
          +:+ concat_strings rest).
  intros yyyy now. rewrite concat_strings_app. unfold sample_header.
  cbn [firstn skipn concat_strings]. unfold timestamp_line.
  rewrite !sapp_assoc, ?sapp_nil_r, ?sapp_nil_l.
  reflexivity.
Qed.

(** C9, amended: the text of a sample is made of three parts fixed by the
    chip, the pin, the variant, the scan result and the static info, around
    the year taken from the clock (in the Author line) and the time stamp
    line.  So two runs with the same inputs and the same clock readings
    write the same bytes; two runs that differ in the clock only differ in
    the time stamp line and in the copyright year, and in the time stamp
    line alone when the year is the same. *)
Theorem C9_sample_fixed_up_to_clock (E : env) (st : scan_state)
  (pic pin osctype oscword sfx : string) (picdata : gmap string string)
  (w : world) :
  osc_suffix osctype = Some sfx →
  devspec E !! upper pic = Some picdata →
  (startswith osctype "INTOSC" = true → picdata !! "OSCCON_IRCF" ≠ Some "-") →
  ∃ head mid tail,
    (∀ clk yyyy,
       from_end 1 (py_split (time_ctime clk)) = Ok yyyy →
       build_sample E st clk pic pin osctype oscword w
       = Ok (Some (pic +:+ "_blink" +:+ sfx +:+ ".jal"),
             World (<[ pic +:+ "_blink" +:+ sfx +:+ ".jal" :=
                       head +:+ yyyy +:+ mid
                       +:+ timestamp_line (datetime_now_ctime clk)
                       +:+ tail ]> (files w))
                   (stdout w)) ∧
       sample_text E st clk pic pin osctype oscword w
       = Some (head +:+ yyyy +:+ mid
               +:+ timestamp_line (datetime_now_ctime clk) +:+ tail)) ∧
    (∀ clk1 clk2 yyyy text1 text2,
       from_end 1 (py_split (time_ctime clk1)) = Ok yyyy →
       from_end 1 (py_split (time_ctime clk2)) = Ok yyyy →
       sample_text E st clk1 pic pin osctype oscword w = Some text1 →
       sample_text E st clk2 pic pin osctype oscword w = Some text2 →
       differ_only_in_timestamp_line text1 text2
         (datetime_now_ctime clk1) (datetime_now_ctime clk2)).
Proof.
  intros Hsfx Hdev Hok.
  destruct (sample_writes_clock st picdata pic pin osctype oscword)
    as (head & mid & tail & Hw).
  exists head, mid, tail.
  assert (Hrun : ∀ clk yyyy,
    from_end 1 (py_split (time_ctime clk)) = Ok yyyy →
    build_sample E st clk pic pin osctype oscword w
    = Ok (Some (pic +:+ "_blink" +:+ sfx +:+ ".jal"),
          World (<[ pic +:+ "_blink" +:+ sfx +:+ ".jal" :=
                    head +:+ yyyy +:+ mid
                    +:+ timestamp_line (datetime_now_ctime clk)
                    +:+ tail ]> (files w))
                (stdout w))).
  { intros clk yyyy Hy. unfold build_sample. rewrite Hsfx, Hdev.
    assert (startswith osctype "INTOSC" && has_key "OSCCON_IRCF" picdata
            && bool_decide (picdata !! "OSCCON_IRCF" = Some "-") = false)
      as ->.
    { destruct (startswith osctype "INTOSC"); [|done].
      rewrite (bool_decide_eq_false_2 _ (Hok eq_refl)).
      by rewrite andb_false_r. }
    unfold mbind, M_bind, bind, lift. rewrite Hy.
    unfold write_file, mret, M_ret, ret. rewrite Hw, !sapp_assoc.
    reflexivity. }
  assert (Htext : ∀ clk yyyy,
    from_end 1 (py_split (time_ctime clk)) = Ok yyyy →
    sample_text E st clk pic pin osctype oscword w
    = Some (head +:+ yyyy +:+ mid
            +:+ timestamp_line (datetime_now_ctime clk) +:+ tail)).
  { intros clk yyyy Hy. unfold sample_text. rewrite (Hrun clk yyyy Hy).
    cbn [files]. apply lookup_insert_eq. }
  split; [by auto|].
  intros clk1 clk2 yyyy text1 text2 Hy1 Hy2 H1 H2.
  rewrite (Htext _ _ Hy1) in H1. rewrite (Htext _ _ Hy2) in H2.
  injection H1 as <-. injection H2 as <-.
  exists (head +:+ yyyy +:+ mid), tail. by rewrite !sapp_assoc.
Qed.

Lemma C9_sample_fixed_up_to_clock_witness :
  ∃ head mid tail,
    sample_text demo_env scan_init demo_clock "16f88" "pin_A0" "HS" "HS"
      (World ∅ [])
    = Some (head +:+ "2020" +:+ mid
            +:+ timestamp_line "Thu Dec 31 23:59:59 2020" +:+ tail).
Proof.
  destruct (C9_sample_fixed_up_to_clock demo_env scan_init "16f88" "pin_A0"
              "HS" "HS" "_hs" {[ "OSCCON_IRCF" := "110" ]} (World ∅ []))
    as (head & mid & tail & H & _).
  - reflexivity.
  - vm_compute. reflexivity.
  - intros H. vm_compute in H. discriminate.
  - exists head, mid, tail. apply (H demo_clock "2020"). reflexivity.
Defined.

Lemma strip_prefix_app (p s : string) : strip_prefix p (p +:+ s) = Some s.
Proof.
  induction p as [|a p IH]; [by destruct s|].
  rewrite sapp_cons. cbn [strip_prefix]. by rewrite Ascii.eqb_refl.
Qed.

Lemma decomp_check_complete (t1 t2 s1 s2 : string) :
  (∃ pre post, s1 = pre +:+ t1 +:+ post ∧ s2 = pre +:+ t2 +:+ post) →
  decomp_check t1 t2 s1 s2 = true.
Proof.
  intros (pre & post & -> & ->). induction pre as [|a pre IH].
  - rewrite !sapp_nil_l.
    assert (decomp_here t1 t2 (t1 +:+ post) (t2 +:+ post) = true) as Hh.
    { unfold decomp_here. rewrite !strip_prefix_app. apply String.eqb_refl. }
    destruct (t1 +:+ post); cbn [decomp_check]; by rewrite Hh.
  - rewrite !sapp_cons. cbn [decomp_check].
    rewrite Ascii.eqb_refl, IH. apply orb_true_r.
Qed.

(** C9, counterexample: the same sample built at the last second of 2020
    and at the first second of 2021.  The two texts differ in the Author
    line as well, so they are not equal around their time stamp lines. *)
Lemma C9_year_counterexample :
  let clk1 := Clock "Thu Dec 31 23:59:59 2020" "Thu Dec 31 23:59:59 2020" in
  let clk2 := Clock "Fri Jan  1 00:00:00 2021" "Fri Jan  1 00:00:00 2021" in
  ∃ text1 text2,
    sample_text demo_env scan_init clk1 "16f88" "pin_A0" "HS" "HS"
      (World ∅ []) = Some text1 ∧
    sample_text demo_env scan_init clk2 "16f88" "pin_A0" "HS" "HS"
      (World ∅ []) = Some text2 ∧
    occurs "Copyright (c) 2008..2020 all rights reserved." text1 ∧
    occurs "Copyright (c) 2008..2021 all rights reserved." text2 ∧
    ¬ differ_only_in_timestamp_line text1 text2
        (datetime_now_ctime clk1) (datetime_now_ctime clk2).
Proof.
  eexists _, _. split; [vm_compute; reflexivity|].
  split; [vm_compute; reflexivity|].
  split; [apply contains_spec; vm_compute; reflexivity|].
  split; [apply contains_spec; vm_compute; reflexivity|].
  intros H. apply decomp_check_complete in H. vm_compute in H. discriminate.
Qed.

(** ** The compile step *)

Lemma ends_with_neq (s t a b : string) :
  ends_with s a → ends_with t b →
  String.length a = String.length b → a ≠ b → s ≠ t.
Proof.
  intros [x ->] [y ->] Hlen Hne Heq. apply Hne.
  by apply (app_suffix_inj x y).
Qed.

Lemma ends_with_app (x s sfx : string) :
  ends_with s sfx → ends_with (x +:+ s) sfx.
Proof. intros [pre ->]. exists (x +:+ pre). by rewrite sapp_assoc. Qed.

Lemma ends_with_path_join (a b sfx : string) :
  ends_with b sfx → ends_with (path_join a b) sfx.
Proof.
  intros Hb. unfold path_join. destruct (first_char_is "/" b); [done|].
  destruct (_ || _); repeat apply ends_with_app; done.
Qed.

Lemma path_join_relative_length (a b : string) :
  first_char_is "/" b = false →
  (String.length a + String.length b ≤ String.length (path_join a b))%nat.
Proof.
  intros Hb. unfold path_join. rewrite Hb.
  destruct (_ || _); rewrite !slength_app; simpl; lia.
Qed.

Lemma dstdir_nonempty (E : env) : (0 < String.length (dstdir E))%nat.
Proof.
  pose proof (path_join_relative_length (base E) "blink" eq_refl) as H.
  unfold dstdir. simpl in H. lia.
Qed.

(** [if os.path.exists(p): os.remove(p)], followed by [k] *)
Lemma remove_if_exists {A} (p : string) (k : M A) (w : world) :
  (b ← path_exists p; when b (os_remove p);; k) w
  = k (World (delete p (files w)) (stdout w)).
Proof.
  unfold mbind, M_bind, bind, path_exists, has_key, when, os_remove.
  destruct w as [fs out]. cbn [files stdout].
  destruct (fs !! p) as [s|] eqn:Hp.
  - rewrite bool_decide_eq_true_2 by eauto. cbn [files stdout].
    by rewrite Hp.
  - rewrite bool_decide_eq_false_2 by (by intros [? ?]).
    unfold ret. by rewrite delete_id.
Qed.

Lemma compile_sample_returned (E : env) (runtype pgmname log src : string)
  (w : world) (fs : gmap string string) (numerrors numwarnings : Z) :
  runtype ≠ "PROD" →
  check_output E (compile_cmdlist E pgmname)
    (delete (destfile_of E pgmname) (delete (flog_of E pgmname) (files w)))
  = (Returned log, fs) →
  fs !! pgmname = Some src →
  rbind (from_end 4 (py_split log)) py_int = Ok numerrors →
  rbind (from_end 2 (py_split log)) py_int = Ok numwarnings →
  compile_sample E runtype pgmname w
  = if (numerrors =? 0) && (numwarnings =? 0)
    then Ok (true, world_compiled E pgmname src fs (stdout w))
    else Ok (false, world_rejected E pgmname src log numerrors numwarnings
                      fs (stdout w)).
Proof.
  intros Hrt Hco Hsrc He Hw. apply String.eqb_neq in Hrt.
  unfold compile_sample. rewrite Hrt. rewrite !remove_if_exists.
  cbn [files stdout].
  unfold mbind at 1, M_bind at 1, bind at 1, run_process. cbn [files stdout].
  rewrite Hco.
  unfold mbind at 1, M_bind at 1, bind at 1, lift. rewrite He.
  unfold mbind at 1, M_bind at 1, bind at 1. rewrite Hw.
  destruct ((numerrors =? 0) && (numwarnings =? 0)).
  - unfold mbind at 1, M_bind at 1, bind at 1, shutil_move.
    cbn [files stdout]. rewrite Hsrc. by rewrite !remove_if_exists.
  - unfold mbind, M_bind, bind, print, shutil_move, write_file.
    cbn [files stdout]. rewrite Hsrc. reflexivity.
Qed.

Lemma compile_paths_distinct (E : env) (pgmname stem : string) :
  pgmname = stem +:+ ".jal" →
  first_char_is "/" pgmname = false →
  destfile_of E pgmname ≠ pgmname ∧
  destfile_of E pgmname ≠ flog_of E pgmname ∧
  destfile_of E pgmname ≠ fhex_of E pgmname ∧
  destfile_of E pgmname ≠ fasm_of E pgmname ∧
  pgmname ≠ flog_of E pgmname ∧
  pgmname ≠ fhex_of E pgmname ∧
  pgmname ≠ fasm_of E pgmname ∧
  flog_of E pgmname ≠ fhex_of E pgmname ∧
  flog_of E pgmname ≠ fasm_of E pgmname.
Proof.
  intros Hname Hrel.
  assert (Hp : ends_with pgmname "jal").
  { exists (stem +:+ "."). by rewrite Hname, sapp_assoc. }
  assert (Hd : ends_with (destfile_of E pgmname) "jal").
  { by apply ends_with_path_join. }
  assert (Hl : ends_with (flog_of E pgmname) "log").
  { apply ends_with_path_join. by eexists. }
  assert (Hh : ends_with (fhex_of E pgmname) "hex").
  { apply ends_with_path_join. exists ((splitext pgmname).1 +:+ ".").
    by rewrite sapp_assoc. }
  assert (Ha : ends_with (fasm_of E pgmname) "asm").
  { apply ends_with_path_join. exists ((splitext pgmname).1 +:+ ".").
    by rewrite sapp_assoc. }
  split.
  { intros Heq. apply (f_equal String.length) in Heq.
    pose proof (path_join_relative_length (dstdir E) pgmname Hrel).
    pose proof (dstdir_nonempty E). unfold destfile_of in Heq. lia. }
  repeat split;
    (eapply ends_with_neq; [eassumption|eassumption|reflexivity|discriminate]).
Qed.

(** C2, the code against its contract ("Otherwise return False and leave
    source and compiler output in cwd"): the compiler exits normally and
    its report counts one error.  [compile_sample] answers False, writes
    the report to the .log file and removes neither the .hex nor the .asm
    output, but it does not leave the source where it was generated: the
    source is moved to the destination directory, as after a clean
    compile, and is gone from the working directory. *)
Theorem C2_failed_compile_moves_source :
  ∃ w', compile_sample (demo_compiler_env "jal 2.5r6: 1 errors, 0 warnings")
          "TEST" "16f88_blink_hs.jal"
          (World {[ "16f88_blink_hs.jal" := "-- blink" ]} [])
        = Ok (false, w') ∧
        files w' !! "16f88_blink_hs.jal" = None ∧
        files w' !! "/jallib/blink/16f88_blink_hs.jal" = Some "-- blink" ∧
        files w' !! "/jallib/blink/16f88_blink_hs.log"
        = Some ("jal 2.5r6: 1 errors, 0 warnings" +:+ nl) ∧
        files w' !! "/jallib/blink/16f88_blink_hs.hex" = Some ":00000001FF" ∧
        files w' !! "/jallib/blink/16f88_blink_hs.asm" = Some "; asm".
Proof.
  eexists. split.
  - apply (compile_sample_returned
             (demo_compiler_env "jal 2.5r6: 1 errors, 0 warnings")
             "TEST" "16f88_blink_hs.jal"
             "jal 2.5r6: 1 errors, 0 warnings" "-- blink"
             (World {[ "16f88_blink_hs.jal" := "-- blink" ]} [])
             (<["/jallib/blink/16f88_blink_hs.hex" := ":00000001FF"]>
                (<["/jallib/blink/16f88_blink_hs.asm" := "; asm"]>
                   {[ "16f88_blink_hs.jal" := "-- blink" ]}))
             1 0);
      [discriminate|vm_compute; reflexivity..].
  - cbn [Z.eqb andb]. repeat split; vm_compute; reflexivity.
Qed.

(** The two outcomes of a compile that exits normally.  When the words of
    the report at positions -4 and -2 convert to the integers [numerrors]
    and [numwarnings], then
    - if both are zero, [compile_sample] returns True, the source is moved
      to the destination directory and the .hex and .asm outputs are gone;
    - otherwise it returns False, the source is moved to the destination
      directory all the same and is gone from the working directory, the
      report is written to the .log file, and no other file is removed or
      changed, the .hex and .asm outputs included. *)
Theorem compile_sample_classification (E : env)
  (runtype pgmname stem log src : string) (w : world)
  (fs : gmap string string) (numerrors numwarnings : Z) :
  runtype ≠ "PROD" →
  pgmname = stem +:+ ".jal" →
  first_char_is "/" pgmname = false →
  check_output E (compile_cmdlist E pgmname)
    (delete (destfile_of E pgmname) (delete (flog_of E pgmname) (files w)))
  = (Returned log, fs) →
  fs !! pgmname = Some src →
  rbind (from_end 4 (py_split log)) py_int = Ok numerrors →
  rbind (from_end 2 (py_split log)) py_int = Ok numwarnings →
  (numerrors = 0 ∧ numwarnings = 0 →
     ∃ w', compile_sample E runtype pgmname w = Ok (true, w') ∧
           files w' !! destfile_of E pgmname = Some src ∧
           files w' !! pgmname = None ∧
           files w' !! fhex_of E pgmname = None ∧
           files w' !! fasm_of E pgmname = None) ∧
  (numerrors ≠ 0 ∨ numwarnings ≠ 0 →
     ∃ w', compile_sample E runtype pgmname w = Ok (false, w') ∧
           files w' !! destfile_of E pgmname = Some src ∧
           files w' !! pgmname = None ∧
           files w' !! flog_of E pgmname = Some (log +:+ nl) ∧
           files w' !! fhex_of E pgmname = fs !! fhex_of E pgmname ∧
           files w' !! fasm_of E pgmname = fs !! fasm_of E pgmname ∧
           ∀ p, p ≠ pgmname → p ≠ destfile_of E pgmname →
                p ≠ flog_of E pgmname → files w' !! p = fs !! p).
Proof.
  intros Hrt Hname Hrel Hco Hsrc He Hw.
  destruct (compile_paths_distinct E pgmname stem Hname Hrel)
    as (Hdp & Hdl & Hdh & Hda & Hpl & Hph & Hpa & Hlh & Hla).
  pose proof (compile_sample_returned E runtype pgmname log src w fs
                numerrors numwarnings Hrt Hco Hsrc He Hw) as Hrun.
  split.
  - intros [-> ->]. cbn [Z.eqb andb] in Hrun.
    eexists. split; [exact Hrun|]. unfold world_compiled. cbn [files].
    split; [|split; [|split]].
    + rewrite !lookup_delete_ne by done. apply lookup_insert_eq.
    + destruct (decide (fasm_of E pgmname = pgmname)) as [->|?];
        [apply lookup_delete_eq|rewrite lookup_delete_ne by done].
      destruct (decide (fhex_of E pgmname = pgmname)) as [->|?];
        [apply lookup_delete_eq|rewrite lookup_delete_ne by done].
      rewrite lookup_insert_ne by done. apply lookup_delete_eq.
    + destruct (decide (fasm_of E pgmname = fhex_of E pgmname)) as [->|?];
        [apply lookup_delete_eq|rewrite lookup_delete_ne by done].
      apply lookup_delete_eq.
    + apply lookup_delete_eq.
  - intros Hnz.
    assert ((numerrors =? 0) && (numwarnings =? 0) = false) as Hb.
    { apply andb_false_iff. destruct Hnz as [H|H]; [left|right];
        by apply Z.eqb_neq. }
    rewrite Hb in Hrun. eexists. split; [exact Hrun|].
    unfold world_rejected. cbn [files].
    assert (Hother : ∀ p, p ≠ pgmname → p ≠ destfile_of E pgmname →
              p ≠ flog_of E pgmname →
              <[flog_of E pgmname := log +:+ nl]>
                (<[destfile_of E pgmname := src]> (delete pgmname fs)) !! p
              = fs !! p).
    { intros p H1 H2 H3.
      by rewrite !lookup_insert_ne, lookup_delete_ne by done. }
    split; [|split; [|split; [|split; [|split]]]].
    + rewrite lookup_insert_ne by done. apply lookup_insert_eq.
    + rewrite !lookup_insert_ne by done. apply lookup_delete_eq.
    + apply lookup_insert_eq.
    + by apply Hother.
    + by apply Hother.
    + exact Hother.
Qed.

Lemma compile_sample_classification_witness :
  (∃ w', compile_sample (demo_compiler_env "jal 2.5r6: 0 errors, 0 warnings")
           "TEST" "16f88_blink_hs.jal"
           (World {[ "16f88_blink_hs.jal" := "-- blink" ]} [])
         = Ok (true, w') ∧
         files w' !! "/jallib/blink/16f88_blink_hs.jal" = Some "-- blink" ∧
         files w' !! "16f88_blink_hs.jal" = None ∧
         files w' !! "/jallib/blink/16f88_blink_hs.hex" = None ∧
         files w' !! "/jallib/blink/16f88_blink_hs.asm" = None) ∧
  (∃ w', compile_sample (demo_compiler_env "jal 2.5r6: 0 errors, 2 warnings")
           "TEST" "16f88_blink_hs.jal"
           (World {[ "16f88_blink_hs.jal" := "-- blink" ]} [])
         = Ok (false, w') ∧
         files w' !! "/jallib/blink/16f88_blink_hs.jal" = Some "-- blink" ∧
         files w' !! "16f88_blink_hs.jal" = None ∧
         files w' !! "/jallib/blink/16f88_blink_hs.log"
         = Some ("jal 2.5r6: 0 errors, 2 warnings" +:+ nl) ∧
         files w' !! "/jallib/blink/16f88_blink_hs.hex" = Some ":00000001FF" ∧
         files w' !! "/jallib/blink/16f88_blink_hs.asm" = Some "; asm").
Proof.
  split.
  - destruct (compile_sample_classification
                (demo_compiler_env "jal 2.5r6: 0 errors, 0 warnings")
                "TEST" "16f88_blink_hs.jal" "16f88_blink_hs"
                "jal 2.5r6: 0 errors, 0 warnings" "-- blink"
                (World {[ "16f88_blink_hs.jal" := "-- blink" ]} [])
                (<["/jallib/blink/16f88_blink_hs.hex" := ":00000001FF"]>
                   (<["/jallib/blink/16f88_blink_hs.asm" := "; asm"]>
                      {[ "16f88_blink_hs.jal" := "-- blink" ]}))
                0 0) as [Hok _];
      [discriminate|reflexivity|reflexivity|vm_compute; reflexivity
      |vm_compute; reflexivity|vm_compute; reflexivity
      |vm_compute; reflexivity|].
    destruct (Hok (conj eq_refl eq_refl)) as (w' & H1 & H2 & H3 & H4 & H5).
    exists w'. repeat split; assumption.
  - destruct (compile_sample_classification
                (demo_compiler_env "jal 2.5r6: 0 errors, 2 warnings")
                "TEST" "16f88_blink_hs.jal" "16f88_blink_hs"
                "jal 2.5r6: 0 errors, 2 warnings" "-- blink"
                (World {[ "16f88_blink_hs.jal" := "-- blink" ]} [])
                (<["/jallib/blink/16f88_blink_hs.hex" := ":00000001FF"]>
                   (<["/jallib/blink/16f88_blink_hs.asm" := "; asm"]>
                      {[ "16f88_blink_hs.jal" := "-- blink" ]}))
                0 2) as [_ Hko];
      [discriminate|reflexivity|reflexivity|vm_compute; reflexivity
      |vm_compute; reflexivity|vm_compute; reflexivity
      |vm_compute; reflexivity|].
    assert (Hnz : (0 ≠ 0 ∨ 2 ≠ 0)%Z) by (right; discriminate).
    destruct (Hko Hnz) as (w' & H1 & H2 & H3 & H4 & H5 & H6 & _).
    exists w'. split; [assumption|]. split; [assumption|].
    split; [assumption|]. split; [assumption|]. split.
    + etrans; [exact H5|]. vm_compute. reflexivity.
    + etrans; [exact H6|]. vm_compute. reflexivity.
Defined.

(** ** Further properties of the rule engine *)

Lemma value_bind {A B} (answers : nat → bool) (i : nat)
  (p : Prog A) (f : A → Prog B) :
  value answers i (p ≫= f)
  = value answers (i + length (attempts answers i p))
      (f (value answers i p)).
Proof.
  revert i. induction p as [a|pic pin ot ow k IH]; intros i.
  - simpl. by rewrite Nat.add_0_r.
  - change (Sample pic pin ot ow k ≫= f)
      with (Sample pic pin ot ow (λ b, k b ≫= f)).
    cbn [attempts value]. rewrite IH. cbn [length].
    by rewrite Nat.add_succ_r.
Qed.

Lemma create_sample_intosc (answers : nat → bool) (i : nat)
  (st : scan_state) (pic pin ot ow : string) (osc : list string) :
  fusedef st !! "osc" = Some osc → ot ≠ "HS" →
  attempts answers i (create_sample st pic pin ot ow)
  = intosc_attempts st osc.
Proof.
  intros Hosc Hne. apply String.eqb_neq in Hne.
  unfold create_sample, intosc_attempts, has_key, kw_in. rewrite Hne, Hosc.
  rewrite (bool_decide_eq_true_2 (is_Some (Some osc))) by eauto.
  rewrite andb_false_r.
  rewrite attempts_bind. f_equal.
  - repeat case_bool_decide; repeat case_decide; try done;
      destruct (fusedef st !! "fosc2") as [fosc2|]; try done;
      repeat case_bool_decide; repeat case_decide; try done; tauto.
  - rewrite attempts_bind, attempts_done, List.app_nil_r.
    repeat case_bool_decide; repeat case_decide; try done;
      cbn [andb] in *; tauto.
Qed.

Lemma try_osc_intosc (answers : nat → bool) (i : nat) (st : scan_state)
  (pic pin kwd : string) (osc : list string) :
  fusedef st !! "osc" = Some osc →
  attempts answers i (try_osc st pic pin osc kwd "INTOSC")
  = if decide (kwd ∈ osc) then intosc_attempts st osc else [].
Proof.
  intros Hosc. unfold try_osc, kw_in. destruct (decide (kwd ∈ osc)).
  - rewrite bool_decide_eq_true_2 by done. by apply create_sample_intosc.
  - by rewrite bool_decide_eq_false_2.
Qed.

Lemma main_variants_attempts_eq (answers : nat → bool) (st : scan_state)
  (picname blink_pin : string) (osc : list string) :
  fusedef st !! "osc" = Some osc →
  attempts answers 0 (main_variants st picname blink_pin)
  = (if decide ("OFF" ∈ osc) then intosc_attempts st osc else [])
    ++ (if decide ("INTOSC_NOCLKOUT" ∈ osc) then intosc_attempts st osc
        else [])
    ++ ((λ kwd, ("HS", kwd))
          <$> filter (λ kwd, kwd ∈ osc) ["HSH"; "PRI"; "HS"]).
Proof.
  intros Hosc. unfold main_variants. rewrite Hosc.
  rewrite !attempts_bind, attempts_done, List.app_nil_r.
  rewrite !(try_osc_intosc _ _ _ _ _ _ _ Hosc), !try_osc_HS.
  rewrite !filter_cons, filter_nil.
  do 2 f_equal. repeat (destruct (decide (_ ∈ osc))); reflexivity.
Qed.

(** The samples attempted for a chip with an "osc" fuse group: the
    internal-oscillator samples of [create_sample], once for OFF and once
    more for INTOSC_NOCLKOUT, then one HS sample for each of HSH, PRI and
    HS.  The oscword that [main] sets for an internal-oscillator call is
    not used. *)
Theorem main_variants_attempts (answers : nat → bool) (st : scan_state)
  (picname blink_pin : string) (osc : list string) :
  fusedef st !! "osc" = Some osc →
  attempts answers 0 (main_variants st picname blink_pin)
  = (if decide ("OFF" ∈ osc) then intosc_attempts st osc else [])
    ++ (if decide ("INTOSC_NOCLKOUT" ∈ osc) then intosc_attempts st osc
        else [])
    ++ ((λ kwd, ("HS", kwd))
          <$> filter (λ kwd, kwd ∈ osc) ["HSH"; "PRI"; "HS"]).
Proof. apply main_variants_attempts_eq. Qed.

Lemma main_variants_attempts_witness :
  attempts (λ _, true) 0
    (main_variants
       (ScanState {[ "ircfwidth" := 0; "usb_bdt" := 1 ]}
          {[ "osc" := ["HS"; "HS_PLL"; "INTOSC_NOCLKOUT"] ]})
       "18f14k50" "pin_A0")
  = [("INTOSC", "INTOSC_NOCLKOUT"); ("HS_USB", "HS_PLL"); ("HS", "HS")].
Proof.
  etrans.
  - apply (main_variants_attempts (λ _, true)
             (ScanState {[ "ircfwidth" := 0; "usb_bdt" := 1 ]}
                {[ "osc" := ["HS"; "HS_PLL"; "INTOSC_NOCLKOUT"] ]})
             "18f14k50" "pin_A0" ["HS"; "HS_PLL"; "INTOSC_NOCLKOUT"]).
    vm_compute. reflexivity.
  - vm_compute. reflexivity.
Defined.

(** A chip whose "osc" fuse group holds both OFF and INTOSC_NOCLKOUT: the
    sample (INTOSC, INTOSC_NOCLKOUT) is attempted twice, and no sample with
    oscword OFF is attempted at all. *)
Theorem off_and_intosc_attempted_twice (answers : nat → bool)
  (st : scan_state) (picname blink_pin : string) (osc : list string) :
  fusedef st !! "osc" = Some osc →
  "OFF" ∈ osc → "INTOSC_NOCLKOUT" ∈ osc →
  length (filter (λ a, a = ("INTOSC", "INTOSC_NOCLKOUT"))
            (attempts answers 0 (main_variants st picname blink_pin))) = 2%nat
  ∧ Forall (λ a, a.2 ≠ "OFF")
      (attempts answers 0 (main_variants st picname blink_pin)).
Proof.
  intros Hosc Hoff Hint.
  rewrite (main_variants_attempts_eq _ _ _ _ _ Hosc).
  rewrite !decide_True by done.
  assert (intosc_attempts st osc
          = ("INTOSC", "INTOSC_NOCLKOUT")
            :: (if decide ("HS_PLL" ∈ osc ∧ is_Some (var st !! "usb_bdt"))
                then [("HS_USB", "HS_PLL")] else [])) as ->.
  { unfold intosc_attempts. by rewrite decide_True. }
  rewrite !filter_cons, filter_nil.
  destruct (decide ("HS_PLL" ∈ osc ∧ _));
    repeat (destruct (decide (_ ∈ osc)));
    (split; [vm_compute; reflexivity|repeat constructor; discriminate]).
Qed.

Lemma off_and_intosc_attempted_twice_witness :
  let st := ScanState {[ "ircfwidth" := 0 ]}
                      {[ "osc" := ["OFF"; "INTOSC_NOCLKOUT"; "HS"] ]} in
  length (filter (λ a, a = ("INTOSC", "INTOSC_NOCLKOUT"))
            (attempts (λ _, true) 0 (main_variants st "16f18855" "pin_A0")))
  = 2%nat
  ∧ Forall (λ a, a.2 ≠ "OFF")
      (attempts (λ _, true) 0 (main_variants st "16f18855" "pin_A0")).
Proof.
  apply (off_and_intosc_attempted_twice (λ _, true)
           (ScanState {[ "ircfwidth" := 0 ]}
              {[ "osc" := ["OFF"; "INTOSC_NOCLKOUT"; "HS"] ]})
           "16f18855" "pin_A0" ["OFF"; "INTOSC_NOCLKOUT"; "HS"]).
  - vm_compute. reflexivity.
  - apply list_elem_of_In. simpl. tauto.
  - apply list_elem_of_In. simpl. tauto.
Defined.

(** For a chip with an "osc" fuse group, the HS_USB sample is attempted
    exactly when the group holds HS_PLL, the scan found the USB buffer
    descriptor table, and the group holds OFF or INTOSC_NOCLKOUT: it comes
    with the internal-oscillator calls of [create_sample] only. *)
Theorem hs_usb_attempted_iff (answers : nat → bool) (st : scan_state)
  (picname blink_pin : string) (osc : list string) :
  fusedef st !! "osc" = Some osc →
  ("HS_USB", "HS_PLL") ∈ attempts answers 0 (main_variants st picname blink_pin)
  ↔ ("OFF" ∈ osc ∨ "INTOSC_NOCLKOUT" ∈ osc) ∧
    "HS_PLL" ∈ osc ∧ is_Some (var st !! "usb_bdt").
Proof.
  intros Hosc. rewrite (main_variants_attempts_eq _ _ _ _ _ Hosc).
  assert (Hint : ("HS_USB", "HS_PLL") ∈ intosc_attempts st osc
                 ↔ "HS_PLL" ∈ osc ∧ is_Some (var st !! "usb_bdt")).
  { unfold intosc_attempts. rewrite elem_of_app.
    destruct (decide ("HS_PLL" ∈ osc ∧ is_Some (var st !! "usb_bdt")))
      as [Hu|Hu].
    - split; [done|]. intros _. right. set_solver.
    - split; [|done]. intros [H|H]; [|by apply elem_of_nil in H].
      exfalso. repeat case_decide;
        try destruct (fusedef st !! "fosc2");
        repeat case_decide; set_solver. }
  rewrite !elem_of_app.
  assert (Hhs : ("HS_USB", "HS_PLL")
                ∉ (λ kwd, ("HS", kwd))
                    <$> filter (λ kwd, kwd ∈ osc) ["HSH"; "PRI"; "HS"]).
  { intros (kwd & Heq & _)%list_elem_of_fmap. discriminate. }
  destruct (decide ("OFF" ∈ osc)), (decide ("INTOSC_NOCLKOUT" ∈ osc));
    rewrite ?Hint; split; try tauto; intros [H|[H|H]];
    try (by apply elem_of_nil in H); tauto.
Qed.

Lemma hs_usb_attempted_iff_witness :
  ("HS_USB", "HS_PLL")
    ∈ attempts (λ _, true) 0
        (main_variants
           (ScanState {[ "ircfwidth" := 0; "usb_bdt" := 1 ]}
              {[ "osc" := ["HS"; "HS_PLL"; "INTOSC_NOCLKOUT"] ]})
           "18f14k50" "pin_A0").
Proof.
  apply (hs_usb_attempted_iff (λ _, true)
           (ScanState {[ "ircfwidth" := 0; "usb_bdt" := 1 ]}
              {[ "osc" := ["HS"; "HS_PLL"; "INTOSC_NOCLKOUT"] ]})
           "18f14k50" "pin_A0" ["HS"; "HS_PLL"; "INTOSC_NOCLKOUT"]).
  - vm_compute. reflexivity.
  - split; [right|split].
    + apply list_elem_of_In. simpl. tauto.
    + apply list_elem_of_In. simpl. tauto.
    + exists 1. vm_compute. reflexivity.
Defined.

Lemma successes_add (answers : nat → bool) (i a b : nat) :
  successes answers i (a + b)
  = (successes answers i a + successes answers (i + a) b)%nat.
Proof.
  unfold successes. by rewrite seq_app, List.filter_app, length_app.
Qed.

Lemma counts_plus_done (n : nat) : counts_plus n (Done n).
Proof. intros answers i. simpl. unfold successes. simpl. lia. Qed.

Lemma counts_plus_attempt (pic pin ot ow : string) :
  counts_plus 0 (attempt pic pin ot ow).
Proof.
  intros answers i. unfold successes. simpl. by destruct (answers i).
Qed.

Lemma counts_plus_bind (n : nat) (p : Prog nat) (f : nat → Prog nat) :
  counts_plus 0 p → (∀ c, counts_plus (n + c) (f c)) →
  counts_plus n (p ≫= f).
Proof.
  intros Hp Hf answers i. rewrite value_bind, attempts_bind, length_app.
  rewrite Hf, Hp, successes_add. simpl. lia.
Qed.

Lemma counts_plus_create_sample (st : scan_state)
  (pic pin ot ow : string) :
  counts_plus 0 (create_sample st pic pin ot ow).
Proof.
  unfold create_sample.
  repeat case_match;
    repeat first
      [ apply counts_plus_attempt
      | apply (counts_plus_done 0)
      | apply counts_plus_bind; [|intros ?] 
      | apply counts_plus_done ].
Qed.

Lemma counts_plus_try_osc (st : scan_state) (pic pin kwd ot : string)
  (osc : list string) :
  counts_plus 0 (try_osc st pic pin osc kwd ot).
Proof.
  unfold try_osc. destruct (kw_in kwd osc).
  - apply counts_plus_create_sample.
  - apply (counts_plus_done 0).
Qed.

(** The number of samples [main] adds to [sample_count] for a device is
    the number of its calls of [build_validate_compile_sample] that
    answered True. *)
Theorem main_variants_counts_successes (answers : nat → bool)
  (st : scan_state) (picname blink_pin : string) :
  value answers 0 (main_variants st picname blink_pin)
  = successes answers 0
      (length (attempts answers 0 (main_variants st picname blink_pin))).
Proof.
  enough (counts_plus 0 (main_variants st picname blink_pin)) as H
    by apply H.
  unfold main_variants. destruct (fusedef st !! "osc") as [osc|].
  - repeat (apply counts_plus_bind;
              [apply counts_plus_try_osc|intros ?]).
    apply counts_plus_done.
  - apply counts_plus_create_sample.
Qed.

(** ** Further properties of the scanner *)

Lemma scan_ok_init : scan_ok scan_init.
Proof.
  split; [|split].
  - exists 0. split; [done|]. apply list_elem_of_In. simpl. tauto.
  - intros k [z Hk]. unfold scan_init in Hk. cbn [var] in Hk.
    apply lookup_singleton_Some in Hk as [<- _].
    apply list_elem_of_In. simpl. tauto.
  - intros k [z Hk]. unfold scan_init in Hk. cbn [fusedef] in Hk.
    by rewrite lookup_empty in Hk.
Qed.

Lemma scan_ok_set_flag (k : string) (st : scan_state) :
  k ∈ var_names → k ≠ "ircfwidth" → scan_ok st → scan_ok (set_var k 1 st).
Proof.
  intros Hk Hne ((width & Hw & Hin) & Hv & Hf). split; [|split]; [| |done].
  - exists width. split; [|done]. cbn [set_var var].
    by rewrite lookup_insert_ne.
  - intros k' [z Hk']. cbn [set_var var] in Hk'.
    destruct (decide (k = k')) as [<-|Hkk]; [done|].
    rewrite lookup_insert_ne in Hk' by done. apply Hv. by exists z.
Qed.

Lemma scan_ok_set_width (width : Z) (st : scan_state) :
  width ∈ [0; 2; 3; 4] → scan_ok st → scan_ok (set_var "ircfwidth" width st).
Proof.
  intros Hin (_ & Hv & Hf). split; [|split]; [| |done].
  - exists width. split; [|done]. cbn [set_var var].
    apply lookup_insert_eq.
  - intros k' [z Hk']. cbn [set_var var] in Hk'.
    destruct (decide ("ircfwidth" = k')) as [<-|Hkk].
    + apply list_elem_of_In. simpl. tauto.
    + rewrite lookup_insert_ne in Hk' by done. apply Hv. by exists z.
Qed.

Lemma scan_ok_markers (ln : string) (st : scan_state) :
  scan_ok st → scan_ok (scan_markers ln st).
Proof.
  intros Hst. unfold scan_markers.
  repeat case_match; try done;
    first [ apply scan_ok_set_width;
            [apply list_elem_of_In; simpl; tauto|done]
          | apply scan_ok_set_flag;
            [apply list_elem_of_In; simpl; tauto|discriminate|done] ].
Qed.

Lemma fuse_key_known (fuse key : string) :
  fuse_key fuse = Some key → key ∈ fuse_names.
Proof.
  unfold fuse_key. intros H.
  repeat case_match; try discriminate;
    injection H as <-; apply list_elem_of_In; simpl; tauto.
Qed.

Lemma scan_ok_set_fusedef (key : string) (kw : list string)
  (st : scan_state) :
  key ∈ fuse_names → scan_ok st → scan_ok (set_fusedef key kw st).
Proof.
  intros Hk (Hw & Hv & Hf). split; [done|]. split; [done|].
  intros k' [z Hk']. cbn [set_fusedef fusedef] in Hk'.
  destruct (decide (key = k')) as [<-|Hkk]; [done|].
  rewrite lookup_insert_ne in Hk' by done. apply Hf. by exists z.
Qed.

Lemma scan_loop_ok (fuel : nat) (lines : list string) (st st' : scan_state) :
  scan_ok st → scan_loop fuel lines st = Some (Ok st') → scan_ok st'.
Proof.
  revert lines st. induction fuel as [|fuel IH]; intros lines st Hst H;
    [discriminate|].
  destruct lines as [|ln rest]; cbn [scan_loop] in H.
  - by injection H as <-.
  - destruct (classify_line ln) as [| fuse |].
    + by apply (IH rest st).
    + destruct (fuse_key fuse) as [key|] eqn:Hk; [|by apply (IH rest st)].
      destruct (collect_fusedef rest) as [[kw rest']|e]; [|discriminate].
      apply (IH rest' (set_fusedef key kw st)); [|done].
      apply scan_ok_set_fusedef; [|done]. by apply (fuse_key_known fuse).
    + apply (IH rest (scan_markers ln st)); [|done].
      by apply scan_ok_markers.
Qed.

(** Whatever the device file, a scan that returns leaves "ircfwidth" in
    [var] with one of the widths 0, 2, 3, 4, stores in [var] and [fusedef]
    only keys of the two fixed lists, and in particular never stores
    "f4mhz" or "oscfrq" in [var]: the tests [("f4mhz" in var)] of [main]
    and [("oscfrq" in var)] of [build_sample] are never true. *)
Theorem scan_devfile_keys (text : string) (st : scan_state) :
  scan_devfile text = Some (Ok st) →
  scan_ok st ∧ var st !! "f4mhz" = None ∧ var st !! "oscfrq" = None.
Proof.
  intros H. assert (Hok : scan_ok st).
  { unfold scan_devfile in H. by apply (scan_loop_ok _ _ _ _ scan_ok_init H). }
  split; [done|]. destruct Hok as (_ & Hv & _).
  split.
  - destruct (var st !! "f4mhz") as [z|] eqn:Hz; [|done].
    specialize (Hv "f4mhz" ltac:(by eexists)).
    apply list_elem_of_In in Hv. simpl in Hv.
    repeat (destruct Hv as [Hv|Hv]; [discriminate|]). done.
  - destruct (var st !! "oscfrq") as [z|] eqn:Hz; [|done].
    specialize (Hv "oscfrq" ltac:(by eexists)).
    apply list_elem_of_In in Hv. simpl in Hv.
    repeat (destruct Hv as [Hv|Hv]; [discriminate|]). done.
Qed.

Lemma scan_devfile_keys_witness :
  let st := ScanState {[ "ircfwidth" := 0 ]} {[ "osc" := ["HS"; "XT"] ]} in
  scan_ok st ∧ var st !! "f4mhz" = None ∧ var st !! "oscfrq" = None.
Proof.
  apply (scan_devfile_keys unterminated_devfile).
  vm_compute. reflexivity.
Defined.

(** Only a fuse named OSC or WDT, or a fuse whose name starts with "OSC:"
    or "WDT:", feeds the "osc" or the "wdt" group: other fuses whose names
    start with OSC or WDT do not. *)
Theorem fuse_key_osc_wdt (fuse : string) :
  (fuse_key fuse = Some "osc" ↔ fuse = "OSC" ∨ ∃ r, fuse = "OSC:" +:+ r) ∧
  (fuse_key fuse = Some "wdt" ↔ fuse = "WDT" ∨ ∃ r, fuse = "WDT:" +:+ r).
Proof.
  split; split.
  - unfold fuse_key. intros H.
    repeat case_match; try discriminate.
    match goal with
    | Ht : startswith fuse "OSC:" || String.eqb fuse "OSC" = true |- _ =>
        apply orb_true_iff in Ht as [Ht|Ht]
    end.
    + right. by apply prefix_spec.
    + left. by apply String.eqb_eq.
  - intros [->|[r ->]]; [reflexivity|]. by destruct r.
  - unfold fuse_key. intros H.
    repeat case_match; try discriminate.
    match goal with
    | Ht : startswith fuse "WDT:" || String.eqb fuse "WDT" = true |- _ =>
        apply orb_true_iff in Ht as [Ht|Ht]
    end.
    + right. by apply prefix_spec.
    + left. by apply String.eqb_eq.
  - intros [->|[r ->]]; [reflexivity|]. by destruct r.
Qed.

(** A closed block, in lines of ASCII characters: the keyword list of the
    fuse group is made of the first words of the lines of the block, in
    order; the lines of the block are not scanned for markers, and the scan
    resumes after the closing line. *)
Theorem scan_closed_block (fuel : nat) (decl key close : string)
  (body rest : list string) (st : scan_state) :
  ascii_lines (decl :: body ++ close :: rest) →
  opens_block decl key →
  Forall keyword_line body →
  closing_line close →
  scan_loop (S fuel) (decl :: body ++ close :: rest) st
  = scan_loop fuel rest (set_fusedef key (first_word <$> body) st).
Proof.
  intros _ (fuse & Hc & Hk) Hb Hcl. cbn [scan_loop]. rewrite Hc, Hk.
  unfold collect_fusedef. by rewrite collect_loop_closed.
Qed.

Lemma scan_closed_block_witness :
  scan_loop 3
    (("pragma fuse_def WDT:2 0x18 {" +:+ nl)
       :: ["  DISABLED = 0x0   -- var byte WDTCON_SWDTEN at 0x97" +:+ nl;
           "  CONTROL = 0x8" +:+ nl]
       ++ ("  }" +:+ nl) :: ["var volatile byte OSCCON_SCS at 0x8F" +:+ nl])
    scan_init
  = Some (Ok (ScanState {[ "ircfwidth" := 0; "osccon_scs" := 1 ]}
                        {[ "wdt" := ["DISABLED"; "CONTROL"] ]})).
Proof.
  etrans.
  - apply (scan_closed_block 2 ("pragma fuse_def WDT:2 0x18 {" +:+ nl) "wdt").
    + repeat constructor.
    + exists "WDT:2". split; vm_compute; reflexivity.
    + repeat constructor.
      * eexists _, _. split; [vm_compute; reflexivity|discriminate].
      * eexists _, _. split; [vm_compute; reflexivity|discriminate].
    + exists []. vm_compute. reflexivity.
  - vm_compute. reflexivity.
Defined.

(** ** Further properties of the compile step *)

(** When the compiler exits with an error status, [compile_sample] returns
    False whatever the captured output says: the source is moved to the
    destination directory, the output is written to the .log file, the
    error is printed, and no other file is removed or changed. *)
Theorem compile_sample_called_process_error (E : env)
  (runtype pgmname stem output src : string) (w : world)
  (fs : gmap string string) :
  runtype ≠ "PROD" →
  pgmname = stem +:+ ".jal" →
  first_char_is "/" pgmname = false →
  check_output E (compile_cmdlist E pgmname)
    (delete (destfile_of E pgmname) (delete (flog_of E pgmname) (files w)))
  = (CalledProcessError output, fs) →
  fs !! pgmname = Some src →
  ∃ w', compile_sample E runtype pgmname w = Ok (false, w') ∧
        stdout w' = stdout w ++ [compile_error_msg E pgmname] ∧
        files w' !! destfile_of E pgmname = Some src ∧
        files w' !! pgmname = None ∧
        files w' !! flog_of E pgmname = Some (output +:+ nl) ∧
        ∀ p, p ≠ pgmname → p ≠ destfile_of E pgmname →
             p ≠ flog_of E pgmname → files w' !! p = fs !! p.
Proof.
  intros Hrt Hname Hrel Hco Hsrc. apply String.eqb_neq in Hrt.
  destruct (compile_paths_distinct E pgmname stem Hname Hrel)
    as (Hdp & Hdl & Hdh & Hda & Hpl & Hph & Hpa & Hlh & Hla).
  unfold compile_sample. rewrite Hrt, !remove_if_exists.
  unfold mbind, M_bind, bind, run_process, shutil_move, write_file, print.
  cbn [files stdout]. rewrite Hco. cbn [files stdout]. rewrite Hsrc.
  eexists. split; [reflexivity|]. cbn [files stdout].
  split; [reflexivity|]. split; [|split; [|split]].
  - rewrite lookup_insert_ne by done. apply lookup_insert_eq.
  - rewrite !lookup_insert_ne by done. apply lookup_delete_eq.
  - apply lookup_insert_eq.
  - intros p H1 H2 H3.
    by rewrite !lookup_insert_ne, lookup_delete_ne by done.
Qed.

Lemma compile_sample_called_process_error_witness :
  ∃ w', compile_sample demo_failing_env "TEST" "16f88_blink_hs.jal"
          (World {[ "16f88_blink_hs.jal" := "-- blink" ]} [])
        = Ok (false, w') ∧
        stdout w'
        = ([] ++ [compile_error_msg demo_failing_env "16f88_blink_hs.jal"]) ∧
        files w' !! "/jallib/blink/16f88_blink_hs.jal" = Some "-- blink" ∧
        files w' !! "16f88_blink_hs.jal" = None ∧
        files w' !! "/jallib/blink/16f88_blink_hs.log"
        = Some ("0 errors, 0 warnings" +:+ nl) ∧
        ∀ p, p ≠ "16f88_blink_hs.jal" →
             p ≠ "/jallib/blink/16f88_blink_hs.jal" →
             p ≠ "/jallib/blink/16f88_blink_hs.log" →
             files w' !! p
             = ({[ "16f88_blink_hs.jal" := "-- blink" ]}
                  : gmap string string) !! p.
Proof.
  apply (compile_sample_called_process_error demo_failing_env "TEST"
           "16f88_blink_hs.jal" "16f88_blink_hs" "0 errors, 0 warnings"
           "-- blink" (World {[ "16f88_blink_hs.jal" := "-- blink" ]} [])).
  - discriminate.
  - reflexivity.
  - reflexivity.
  - vm_compute. reflexivity.
  - vm_compute. reflexivity.
Defined.

Lemma from_end_short {A} (k : nat) (l : list A) :
  (length l < k)%nat → from_end k l = Raise IndexError.
Proof.
  intros H. unfold from_end. by apply Nat.ltb_lt in H as ->.
Qed.

(** When the compiler exits normally with a report of ASCII characters that
    has fewer than four words, or whose word at position -4 or -2 is not an
    integer, no result is returned: [IndexError] or [ValueError] escapes
    from [compile_sample] (its handler catches [CalledProcessError]
    only). *)
Theorem compile_sample_malformed_report (E : env)
  (runtype pgmname log : string) (w : world) (fs : gmap string string) :
  runtype ≠ "PROD" →
  is_ascii log = true →
  check_output E (compile_cmdlist E pgmname)
    (delete (destfile_of E pgmname) (delete (flog_of E pgmname) (files w)))
  = (Returned log, fs) →
  ((length (py_split log) < 4)%nat →
     compile_sample E runtype pgmname w = Raise IndexError) ∧
  (∀ tok, from_end 4 (py_split log) = Ok tok →
     py_int tok = Raise ValueError →
     compile_sample E runtype pgmname w = Raise ValueError) ∧
  (∀ tok numerrors tok',
     from_end 4 (py_split log) = Ok tok → py_int tok = Ok numerrors →
     from_end 2 (py_split log) = Ok tok' → py_int tok' = Raise ValueError →
     compile_sample E runtype pgmname w = Raise ValueError).
Proof.
  intros Hrt _ Hco. apply String.eqb_neq in Hrt.
  assert (Hstart : compile_sample E runtype pgmname w
    = (numerrors ← lift (rbind (from_end 4 (py_split log)) py_int);
       numwarnings ← lift (rbind (from_end 2 (py_split log)) py_int);
       if (numerrors =? 0) && (numwarnings =? 0) then
         shutil_move pgmname (destfile_of E pgmname);;
         b ← path_exists (fhex_of E pgmname);
         when b (os_remove (fhex_of E pgmname));;
         b ← path_exists (fasm_of E pgmname);
         when b (os_remove (fasm_of E pgmname));;
         mret true
       else
         print ("   Compilation of " +:+ pgmname +:+ " gave "
                +:+ str_of_Z numerrors +:+ " errors "
                +:+ str_of_Z numwarnings +:+ " warnings");;
         shutil_move pgmname (destfile_of E pgmname);;
         write_file (flog_of E pgmname) (log +:+ nl);;
         mret false) (World fs (stdout w))).
  { unfold compile_sample. rewrite Hrt, !remove_if_exists.
    unfold mbind at 1, M_bind at 1, bind at 1, run_process.
    cbn [files stdout]. by rewrite Hco. }
  assert (Hrun1 : ∀ r, rbind (from_end 4 (py_split log)) py_int = Raise r →
            compile_sample E runtype pgmname w = Raise r).
  { intros r Hr. rewrite Hstart.
    unfold mbind at 1, M_bind at 1, bind at 1, lift. by rewrite Hr. }
  assert (Hrun2 : ∀ n r, rbind (from_end 4 (py_split log)) py_int = Ok n →
            rbind (from_end 2 (py_split log)) py_int = Raise r →
            compile_sample E runtype pgmname w = Raise r).
  { intros n r Hn Hr. rewrite Hstart.
    unfold mbind at 1, M_bind at 1, bind at 1, lift. rewrite Hn.
    unfold mbind at 1, M_bind at 1, bind at 1. by rewrite Hr. }
  split; [|split].
  - intros Hlen. apply Hrun1. by rewrite from_end_short.
  - intros tok Ht Hi. apply Hrun1. by rewrite Ht.
  - intros tok n tok' Ht Hi Ht' Hi'. apply (Hrun2 n).
    + by rewrite Ht.
    + by rewrite Ht'.
Qed.

Lemma compile_sample_malformed_report_witness :
  compile_sample (demo_compiler_env "Segmentation fault") "TEST"
    "16f88_blink_hs.jal" (World {[ "16f88_blink_hs.jal" := "-- blink" ]} [])
  = Raise IndexError
  ∧ compile_sample (demo_compiler_env "no errors, no warnings") "TEST"
      "16f88_blink_hs.jal" (World {[ "16f88_blink_hs.jal" := "-- blink" ]} [])
    = Raise ValueError.
Proof.
  split.
  - destruct (compile_sample_malformed_report
                (demo_compiler_env "Segmentation fault") "TEST"
                "16f88_blink_hs.jal" "Segmentation fault"
                (World {[ "16f88_blink_hs.jal" := "-- blink" ]} [])
                (<["/jallib/blink/16f88_blink_hs.hex" := ":00000001FF"]>
                   (<["/jallib/blink/16f88_blink_hs.asm" := "; asm"]>
                      {[ "16f88_blink_hs.jal" := "-- blink" ]})))
      as (H & _ & _); [discriminate|reflexivity|vm_compute; reflexivity|].
    apply H. vm_compute. lia.
  - destruct (compile_sample_malformed_report
                (demo_compiler_env "no errors, no warnings") "TEST"
                "16f88_blink_hs.jal" "no errors, no warnings"
                (World {[ "16f88_blink_hs.jal" := "-- blink" ]} [])
                (<["/jallib/blink/16f88_blink_hs.hex" := ":00000001FF"]>
                   (<["/jallib/blink/16f88_blink_hs.asm" := "; asm"]>
                      {[ "16f88_blink_hs.jal" := "-- blink" ]})))
      as (_ & H & _); [discriminate|reflexivity|vm_compute; reflexivity|].
    apply (H "no"); vm_compute; reflexivity.
Defined.

(** The outcome of [compile_sample] does not depend on a .log file or a
    destination file left behind by an earlier run: both are removed before
    the compiler is started. *)
Theorem compile_sample_ignores_stale_files (E : env)
  (runtype pgmname : string) (w : world) :
  compile_sample E runtype pgmname w
  = compile_sample E runtype pgmname
      (World (delete (flog_of E pgmname)
                (delete (destfile_of E pgmname) (files w)))
             (stdout w)).
Proof.
  unfold compile_sample. destruct (String.eqb runtype "PROD"); [done|].
  rewrite !remove_if_exists. cbn [files stdout].
  assert (delete (destfile_of E pgmname)
            (delete (flog_of E pgmname)
               (delete (flog_of E pgmname)
                  (delete (destfile_of E pgmname) (files w))))
          = delete (destfile_of E pgmname)
              (delete (flog_of E pgmname) (files w))) as ->; [|done].
  apply map_eq. intros p. rewrite !lookup_delete.
  repeat case_decide; done.
Qed.

(** ** Further properties of the validation step *)

Lemma substring_all (s : string) : String.substring 0 (String.length s) s = s.
Proof. induction s as [|a s IH]; [done|]. simpl. by rewrite IH. Qed.

Lemma substring_app_l (s t : string) :
  String.substring 0 (String.length s) (s +:+ t) = s.
Proof.
  induction s as [|a s IH]; [by destruct t|].
  rewrite sapp_cons. simpl. by rewrite IH.
Qed.

Lemma substring_app_r (s t : string) :
  String.substring (String.length s) (String.length t) (s +:+ t) = t.
Proof.
  induction s as [|a s IH]; [apply substring_all|].
  rewrite sapp_cons. simpl. apply IH.
Qed.

Lemma rfind_go_app (c : ascii) (s t : string) (i acc : Z) :
  rfind_go c (s +:+ t) i acc
  = rfind_go c t (i + Z.of_nat (String.length s)) (rfind_go c s i acc).
Proof.
  revert i acc. induction s as [|a s IH]; intros i acc.
  - rewrite sapp_nil_l. simpl. by rewrite Z.add_0_r.
  - rewrite sapp_cons. cbn [rfind_go String.length]. rewrite IH.
    f_equal. lia.
Qed.

Lemma rfind_go_absent (s : string) (i acc : Z) :
  ¬ occurs "/" s → rfind_go "/" s i acc = acc.
Proof.
  revert i acc. induction s as [|a s IH]; intros i acc Hno; [done|].
  cbn [rfind_go]. destruct (Ascii.eqb a "/") eqn:Ha.
  - exfalso. apply Hno. apply Ascii.eqb_eq in Ha as ->. by exists "", s.
  - apply IH. intros (pre & post & ->). apply Hno.
    exists (String a pre), post. by rewrite sapp_cons.
Qed.

(** [os.path.split(p)[1]] of a name without directory, and of a name in a
    directory. *)
Lemma path_tail_plain (name : string) :
  ¬ occurs "/" name → path_tail name = name.
Proof.
  intros Hno. unfold path_tail, rfind. rewrite rfind_go_absent by done.
  unfold slice. change (Z.to_nat (-1 + 1)) with 0%nat.
  rewrite Z.sub_0_r, Nat2Z.id. apply substring_all.
Qed.

Lemma path_tail_dir (dir name : string) :
  ¬ occurs "/" name → path_tail (dir +:+ "/" +:+ name) = name.
Proof.
  intros Hno. unfold path_tail, rfind.
  rewrite rfind_go_app, (rfind_go_app _ "/" name).
  rewrite rfind_go_absent by done. cbn [rfind_go Ascii.eqb Bool.eqb].
  unfold slice. rewrite !slength_app. cbn [String.length].
  replace (Z.to_nat (0 + Z.of_nat (String.length dir) + 1))
    with (String.length dir + 1)%nat by lia.
  replace (Z.to_nat (Z.of_nat (String.length dir + (1 + String.length name))
                     - (0 + Z.of_nat (String.length dir) + 1)))
    with (String.length name) by lia.
  rewrite <- sapp_assoc.
  replace (String.length dir + 1)%nat with (String.length (dir +:+ "/"))
    by (rewrite slength_app; simpl; lia).
  apply substring_app_r.
Qed.

Lemma drop_last_jal (stem : string) : drop_last 4 (stem +:+ ".jal") = stem.
Proof.
  unfold drop_last. rewrite slength_app. cbn [String.length].
  replace (String.length stem + 4 - 4)%nat with (String.length stem) by lia.
  apply substring_app_l.
Qed.

Lemma occurs_slash_app (s t : string) :
  occurs "/" (s +:+ t) → occurs "/" s ∨ occurs "/" t.
Proof.
  induction s as [|a s IH]; [by right|].
  rewrite sapp_cons. intros H. apply contains_spec in H.
  cbn [contains String.prefix] in H.
  destruct (ascii_dec "/" a) as [<-|Hne].
  - left. by exists "", s.
  - cbn [orb] in H. apply contains_spec, IH in H as [(pre & post & ->)|H].
    + left. exists (String a pre), post. by rewrite sapp_cons.
    + by right.
Qed.

(** The .vlog file of [stem.jal], alone or in a directory, is [stem.vlog]
    in the destination directory. *)
Lemma vlog_of_jal (E : env) (jalfile stem : string) :
  ¬ occurs "/" stem →
  jalfile = stem +:+ ".jal"
  ∨ (∃ dir, jalfile = dir +:+ "/" +:+ stem +:+ ".jal") →
  vlog_of E jalfile = path_join (dstdir E) (stem +:+ ".vlog").
Proof.
  intros Hno Hj.
  assert (Hno' : ¬ occurs "/" (stem +:+ ".jal")).
  { intros [H|H]%occurs_slash_app; [done|].
    apply contains_spec in H. vm_compute in H. discriminate. }
  unfold vlog_of. destruct Hj as [->|[dir ->]].
  - by rewrite path_tail_plain, drop_last_jal.
  - by rewrite path_tail_dir, drop_last_jal.
Qed.

(** [validate_jalfile] on [stem.jal], alone or in a directory: a .vlog
    file left by an earlier run is removed before the validator starts;
    when the validator exits normally the result is True and nothing is
    written or printed; when it exits with an error status the result is
    False, its output is written to [stem.vlog] in the destination
    directory and two lines are printed. *)
Theorem validate_jalfile_outcome (E : env) (jalfile stem : string)
  (w : world) (r : proc_result) (fs : gmap string string) :
  ¬ occurs "/" stem →
  jalfile = stem +:+ ".jal"
  ∨ (∃ dir, jalfile = dir +:+ "/" +:+ stem +:+ ".jal") →
  check_output E (validate_cmdlist E jalfile)
    (delete (path_join (dstdir E) (stem +:+ ".vlog")) (files w)) = (r, fs) →
  validate_jalfile E jalfile w
  = match r with
    | Returned _ => Ok (true, World fs (stdout w))
    | CalledProcessError output =>
        Ok (false,
            World (<[path_join (dstdir E) (stem +:+ ".vlog")
                     := output +:+ nl]> fs)
                  (stdout w
                   ++ ["   Validation failed for " +:+ jalfile;
                       "   See " +:+ path_join (dstdir E) (stem +:+ ".vlog")
                       +:+ " for details"]))
    end.
Proof.
  intros Hno Hj Hco. unfold validate_jalfile.
  fold (vlog_of E jalfile). rewrite (vlog_of_jal E jalfile stem Hno Hj).
  rewrite remove_if_exists.
  unfold mbind at 1, M_bind at 1, bind at 1, run_process.
  cbn [files stdout]. fold (validate_cmdlist E jalfile). rewrite Hco.
  destruct r as [out|out]; [done|].
  unfold mbind, M_bind, bind, write_file, print, mret, M_ret, ret.
  cbn [files stdout]. by rewrite <- List.app_assoc.
Qed.

Lemma validate_jalfile_outcome_witness :
  validate_jalfile demo_rejecting_env "/jallib/test/16f88.jal"
    (World {[ "/jallib/blink/16f88.vlog" := "stale" ]} [])
  = Ok (false,
        World (<["/jallib/blink/16f88.vlog" := "1 errors" +:+ nl]> ∅)
          ([] ++ ["   Validation failed for " +:+ "/jallib/test/16f88.jal";
                  "   See " +:+ "/jallib/blink/16f88.vlog"
                  +:+ " for details"])).
Proof.
  apply (validate_jalfile_outcome demo_rejecting_env
           "/jallib/test/16f88.jal" "16f88"
           (World {[ "/jallib/blink/16f88.vlog" := "stale" ]} [])
           (CalledProcessError "1 errors") ∅).
  - intros H. apply contains_spec in H. vm_compute in H. discriminate.
  - right. by exists "/jallib/test".
  - vm_compute. reflexivity.
Defined.

(** ** Further properties of the synthesizer *)

Lemma build_sample_written (E : env) (st : scan_state) (clk : clock)
  (pic pin osctype oscword sfx yyyy : string) (picdata : gmap string string)
  (w : world) :
  osc_suffix osctype = Some sfx →
  devspec E !! upper pic = Some picdata →
  (startswith osctype "INTOSC" = true → picdata !! "OSCCON_IRCF" ≠ Some "-") →
  from_end 1 (py_split (time_ctime clk)) = Ok yyyy →
  build_sample E st clk pic pin osctype oscword w
  = Ok (Some (sample_name pic sfx),
        World (<[sample_name pic sfx :=
                 sample_body st picdata clk pic pin osctype oscword yyyy]>
                 (files w))
              (stdout w)).
Proof.
  intros Hsfx Hdev Hok Hy. unfold build_sample. rewrite Hsfx, Hdev.
  assert (startswith osctype "INTOSC" && has_key "OSCCON_IRCF" picdata
          && bool_decide (picdata !! "OSCCON_IRCF" = Some "-") = false)
    as ->.
  { destruct (startswith osctype "INTOSC"); [|done].
    rewrite (bool_decide_eq_false_2 _ (Hok eq_refl)).
    by rewrite andb_false_r. }
  unfold mbind, M_bind, bind, lift. rewrite Hy.
  unfold write_file, mret, M_ret, ret, sample_name, sample_body.
  by rewrite !sapp_assoc.
Qed.

Lemma osc_suffix_known (osctype : string) :
  osctype ∈ osc_types ↔ is_Some (osc_suffix osctype).
Proof.
  unfold osc_suffix. split.
  - intros H. apply list_elem_of_In in H. simpl in H.
    destruct H as [<-|[<-|[<-|[<-|[]]]]]; by eexists.
  - intros [sfx H]. apply list_elem_of_In. simpl.
    repeat case_match; try discriminate;
      match goal with
      | Ht : String.eqb _ _ = true |- _ => apply String.eqb_eq in Ht as <-
      end; tauto.
Qed.

(** A chip that is not in the table of devicespecific.json: with one of
    the four known oscillator types [build_sample] raises [KeyError] before
    it writes or prints anything, and the error escapes from
    [build_validate_compile_sample]; with any other oscillator type the
    table is not consulted and the sample is refused in the ordinary
    way. *)
Theorem build_sample_unknown_chip (E : env) (st : scan_state) (clk : clock)
  (runtype pic pin osctype oscword : string) (w : world) :
  devspec E !! upper pic = None →
  (osctype ∈ osc_types →
     build_sample E st clk pic pin osctype oscword w
     = Raise (KeyError (upper pic)) ∧
     build_validate_compile_sample E st clk runtype pic pin osctype oscword w
     = Raise (KeyError (upper pic))) ∧
  (osctype ∉ osc_types →
     build_sample E st clk pic pin osctype oscword w
     = Ok (None,
           World (files w)
             (stdout w ++ ["   Unrecognized oscillator type: " +:+ osctype])) ∧
     build_validate_compile_sample E st clk runtype pic pin osctype oscword w
     = Ok (false,
           World (files w)
             (stdout w ++ ["   Unrecognized oscillator type: " +:+ osctype;
                           "   No sample for " +:+ pic]))).
Proof.
  intros Hdev. split.
  - intros [sfx Hs]%osc_suffix_known.
    unfold build_validate_compile_sample, build_sample.
    by rewrite Hs, Hdev.
  - intros Hno.
    assert (osc_suffix osctype = None) as Hs.
    { destruct (osc_suffix osctype) eqn:Hs; [|done].
      exfalso. apply Hno, osc_suffix_known. by eexists. }
    unfold build_validate_compile_sample, build_sample. rewrite Hs.
    unfold mbind, M_bind, bind, print, mret, M_ret, ret. cbn.
    by rewrite <- List.app_assoc.
Qed.

Lemma build_sample_unknown_chip_witness :
  build_sample demo_env scan_init demo_clock "18f4550" "pin_A0" "HS" "HS"
    (World ∅ [])
  = Raise (KeyError (upper "18f4550")) ∧
  build_validate_compile_sample demo_env scan_init demo_clock "TEST"
    "18f4550" "pin_A0" "HS" "HS" (World ∅ [])
  = Raise (KeyError (upper "18f4550")).
Proof.
  apply (build_sample_unknown_chip demo_env scan_init demo_clock "TEST"
           "18f4550" "pin_A0" "HS" "HS" (World ∅ [])).
  - vm_compute. reflexivity.
  - apply list_elem_of_In. simpl. tauto.
Defined.

(** The name of the sample depends on the chip and on the oscillator type,
    not on the oscword: a second sample built for the same chip and the
    same oscillator type with another oscword replaces the first, and the
    files are left as if the first had never been built. *)
Theorem build_sample_same_name_overwrites (E : env) (st : scan_state)
  (clk1 clk2 : clock) (pic pin osctype oscword1 oscword2 sfx y1 y2 : string)
  (picdata : gmap string string) (w : world) :
  osc_suffix osctype = Some sfx →
  devspec E !! upper pic = Some picdata →
  (startswith osctype "INTOSC" = true → picdata !! "OSCCON_IRCF" ≠ Some "-") →
  from_end 1 (py_split (time_ctime clk1)) = Ok y1 →
  from_end 1 (py_split (time_ctime clk2)) = Ok y2 →
  ∃ w1,
    build_sample E st clk1 pic pin osctype oscword1 w
    = Ok (Some (sample_name pic sfx), w1) ∧
    build_sample E st clk2 pic pin osctype oscword2 w1
    = build_sample E st clk2 pic pin osctype oscword2 w.
Proof.
  intros Hs Hd Hok Hy1 Hy2. eexists. split.
  - by apply (build_sample_written E st clk1 pic pin osctype oscword1 sfx y1
                picdata).
  - rewrite !(build_sample_written E st clk2 pic pin osctype oscword2 sfx y2
                picdata) by done.
    cbn [files stdout]. by rewrite insert_insert_eq.
Qed.

Lemma build_sample_same_name_overwrites_witness :
  ∃ w1,
    build_sample demo_env scan_init demo_clock "16f88" "pin_A0" "HS" "HSH"
      (World ∅ [])
    = Ok (Some (sample_name "16f88" "_hs"), w1) ∧
    build_sample demo_env scan_init demo_clock "16f88" "pin_A0" "HS" "HS" w1
    = build_sample demo_env scan_init demo_clock "16f88" "pin_A0" "HS" "HS"
        (World ∅ []).
Proof.
  apply (build_sample_same_name_overwrites demo_env scan_init demo_clock
           demo_clock "16f88" "pin_A0" "HS" "HSH" "HS" "_hs" "2020" "2020"
           {[ "OSCCON_IRCF" := "110" ]} (World ∅ [])).
  - reflexivity.
  - vm_compute. reflexivity.
  - intros H. vm_compute in H. discriminate.
  - vm_compute. reflexivity.
  - vm_compute. reflexivity.
Defined.

(** Every sample that is written, whatever the variant, the fuse groups and
    the features, starts with the title of the chip and ends with the fixed
    blink program for the chosen pin. *)
Theorem build_sample_frame (E : env) (st : scan_state) (clk : clock)
  (pic pin osctype oscword sfx yyyy : string) (picdata : gmap string string)
  (w : world) :
  osc_suffix osctype = Some sfx →
  devspec E !! upper pic = Some picdata →
  (startswith osctype "INTOSC" = true → picdata !! "OSCCON_IRCF" ≠ Some "-") →
  from_end 1 (py_split (time_ctime clk)) = Ok yyyy →
  ∃ middle,
    sample_text E st clk pic pin osctype oscword w
    = Some ("-- ------------------------------------------------------" +:+ nl
            +:+ "-- Title: Blink-a-led of the Microchip pic" +:+ pic +:+ nl
            +:+ middle
            +:+ concat_strings (sample_blink pin)).
Proof.
  intros Hs Hd Hok Hy. unfold sample_text.
  rewrite (build_sample_written E st clk pic pin osctype oscword sfx yyyy
             picdata) by done.
  cbn [files]. rewrite lookup_insert_eq. unfold sample_body, sample_writes.
  rewrite !concat_strings_app.
  set (c1 := concat_strings (sample_osc _ _ _ _)).
  set (c2 := concat_strings (sample_pll _ _ _)).
  set (c3 := concat_strings (fusedef_insert _ _ _ _)).
  set (c4 := concat_strings (sample_wdt _).1).
  set (c5 := concat_strings (sample_easy _)).
  set (c6 := concat_strings (sample_registers _ _ _ _)).
  set (c7 := concat_strings (sample_blink pin)).
  exists (concat_strings
            (drop 2 (sample_header pic osctype yyyy (datetime_now_ctime clk)))
          +:+ c1 +:+ c2 +:+ c3 +:+ c4 +:+ c5 +:+ c6).
  f_equal. unfold sample_header. cbn [skipn concat_strings].
  by rewrite !sapp_assoc.
Qed.

Lemma build_sample_frame_witness :
  ∃ middle,
    sample_text demo_env scan_init demo_clock "16f88" "pin_B3" "INTOSC"
      "INTOSC_NOCLKOUT" (World ∅ [])
    = Some ("-- ------------------------------------------------------" +:+ nl
            +:+ "-- Title: Blink-a-led of the Microchip pic" +:+ "16f88" +:+ nl
            +:+ middle
            +:+ concat_strings (sample_blink "pin_B3")).
Proof.
  apply (build_sample_frame demo_env scan_init demo_clock "16f88" "pin_B3"
           "INTOSC" "INTOSC_NOCLKOUT" "_intosc" "2020"
           {[ "OSCCON_IRCF" := "110" ]} (World ∅ [])).
  - reflexivity.
  - vm_compute. reflexivity.
  - intros _. vm_compute. discriminate.
  - vm_compute. reflexivity.
Defined.

(** ** Further properties of the build-validate-compile chain *)

Lemma sample_name_ends_jal (pic sfx : string) :
  sample_name pic sfx = (pic +:+ "_blink" +:+ sfx) +:+ ".jal".
Proof. unfold sample_name. by rewrite !sapp_assoc. Qed.

Lemma sample_name_relative (pic sfx : string) :
  first_char_is "/" pic = false →
  first_char_is "/" (sample_name pic sfx) = false.
Proof. unfold sample_name. by destruct pic. Qed.

(** A sample that fails validation: the answer is False, the program name
    and the two lines of [validate_jalfile] are printed, the validator's
    output is written to the .vlog file, and the compiler is not started,
    so that the sample stays where it was written. *)
Theorem sample_rejected_by_validator (E : env) (st : scan_state)
  (clk : clock) (runtype pic pin osctype oscword sfx yyyy output : string)
  (picdata : gmap string string) (w : world) (fs : gmap string string) :
  osc_suffix osctype = Some sfx →
  devspec E !! upper pic = Some picdata →
  (startswith osctype "INTOSC" = true → picdata !! "OSCCON_IRCF" ≠ Some "-") →
  from_end 1 (py_split (time_ctime clk)) = Ok yyyy →
  check_output E (validate_cmdlist E (sample_name pic sfx))
    (delete (vlog_of E (sample_name pic sfx))
       (<[sample_name pic sfx :=
          sample_body st picdata clk pic pin osctype oscword yyyy]>
          (files w)))
  = (CalledProcessError output, fs) →
  build_validate_compile_sample E st clk runtype pic pin osctype oscword w
  = Ok (false,
        World (<[vlog_of E (sample_name pic sfx) := output +:+ nl]> fs)
          (stdout w
           ++ [sample_name pic sfx;
               "   Validation failed for " +:+ sample_name pic sfx;
               "   See " +:+ vlog_of E (sample_name pic sfx)
               +:+ " for details"])).
Proof.
  intros Hs Hd Hok Hy Hco. unfold build_validate_compile_sample.
  unfold mbind at 1, M_bind at 1, bind at 1.
  rewrite (build_sample_written E st clk pic pin osctype oscword sfx yyyy
             picdata) by done.
  unfold mbind at 1, M_bind at 1, bind at 1, print at 1. cbn [files stdout].
  unfold mbind at 1, M_bind at 1, bind at 1, validate_jalfile.
  fold (vlog_of E (sample_name pic sfx)).
  fold (validate_cmdlist E (sample_name pic sfx)).
  rewrite remove_if_exists. cbn [files stdout].
  unfold mbind at 1, M_bind at 1, bind at 1, run_process.
  cbn [files stdout]. rewrite Hco.
  unfold mbind, M_bind, bind, write_file, print, mret, M_ret, ret.
  cbn [files stdout negb]. by rewrite <- !List.app_assoc.
Qed.

Lemma sample_rejected_by_validator_witness :
  ∃ text,
    build_validate_compile_sample demo_rejecting_env scan_init demo_clock
      "TEST" "16f88" "pin_A0" "HS" "HS" (World ∅ [])
    = Ok (false,
          World (<[vlog_of demo_rejecting_env (sample_name "16f88" "_hs")
                   := "1 errors" +:+ nl]>
                   (<[sample_name "16f88" "_hs" := text]> ∅))
            ([] ++ [sample_name "16f88" "_hs";
                    "   Validation failed for " +:+ sample_name "16f88" "_hs";
                    "   See "
                    +:+ vlog_of demo_rejecting_env (sample_name "16f88" "_hs")
                    +:+ " for details"])).
Proof.
  eexists.
  apply (sample_rejected_by_validator demo_rejecting_env scan_init
           demo_clock "TEST" "16f88" "pin_A0" "HS" "HS" "_hs" "2020"
           "1 errors" {[ "OSCCON_IRCF" := "110" ]} (World ∅ [])).
  - reflexivity.
  - vm_compute. reflexivity.
  - intros H. vm_compute in H. discriminate.
  - vm_compute. reflexivity.
  - vm_compute. reflexivity.
Defined.

(** A sample that passes validation and compiles without errors and
    warnings: the answer is True, only the program name is printed, and the
    sample is at the destination, no longer in the working directory. *)
Theorem sample_accepted (E : env) (st : scan_state) (clk : clock)
  (runtype pic pin osctype oscword sfx yyyy vout log src : string)
  (picdata : gmap string string) (w : world) (fs1 fs2 : gmap string string) :
  runtype ≠ "PROD" →
  first_char_is "/" pic = false →
  osc_suffix osctype = Some sfx →
  devspec E !! upper pic = Some picdata →
  (startswith osctype "INTOSC" = true → picdata !! "OSCCON_IRCF" ≠ Some "-") →
  from_end 1 (py_split (time_ctime clk)) = Ok yyyy →
  check_output E (validate_cmdlist E (sample_name pic sfx))
    (delete (vlog_of E (sample_name pic sfx))
       (<[sample_name pic sfx :=
          sample_body st picdata clk pic pin osctype oscword yyyy]>
          (files w)))
  = (Returned vout, fs1) →
  check_output E (compile_cmdlist E (sample_name pic sfx))
    (delete (destfile_of E (sample_name pic sfx))
       (delete (flog_of E (sample_name pic sfx)) fs1))
  = (Returned log, fs2) →
  fs2 !! sample_name pic sfx = Some src →
  rbind (from_end 4 (py_split log)) py_int = Ok 0 →
  rbind (from_end 2 (py_split log)) py_int = Ok 0 →
  ∃ w',
    build_validate_compile_sample E st clk runtype pic pin osctype oscword w
    = Ok (true, w') ∧
    stdout w' = stdout w ++ [sample_name pic sfx] ∧
    files w' !! destfile_of E (sample_name pic sfx) = Some src ∧
    files w' !! sample_name pic sfx = None.
Proof.
  intros Hrt Hrel Hs Hd Hok Hy Hval Hco Hsrc He Hw.
  destruct (compile_paths_distinct E (sample_name pic sfx)
              (pic +:+ "_blink" +:+ sfx) (sample_name_ends_jal pic sfx)
              (sample_name_relative pic sfx Hrel))
    as (Hdp & Hdl & Hdh & Hda & Hpl & Hph & Hpa & Hlh & Hla).
  unfold build_validate_compile_sample.
  unfold mbind at 1, M_bind at 1, bind at 1.
  rewrite (build_sample_written E st clk pic pin osctype oscword sfx yyyy
             picdata) by done.
  unfold mbind at 1, M_bind at 1, bind at 1, print at 1. cbn [files stdout].
  unfold mbind at 1, M_bind at 1, bind at 1, validate_jalfile.
  fold (vlog_of E (sample_name pic sfx)).
  fold (validate_cmdlist E (sample_name pic sfx)).
  rewrite remove_if_exists. cbn [files stdout].
  unfold mbind at 1, M_bind at 1, bind at 1, run_process.
  cbn [files stdout]. rewrite Hval. cbn [mret M_ret ret negb].
  unfold mbind at 1, M_bind at 1, bind at 1.
  rewrite (compile_sample_returned E runtype (sample_name pic sfx) log src
             (World fs1 (stdout w ++ [sample_name pic sfx])) fs2 0 0
             Hrt Hco Hsrc He Hw).
  cbn [Z.eqb andb negb]. eexists. split; [reflexivity|].
  unfold world_compiled. cbn [files stdout]. split; [done|]. split.
  - rewrite !lookup_delete_ne by done. apply lookup_insert_eq.
  - destruct (decide (fasm_of E (sample_name pic sfx) = sample_name pic sfx))
      as [->|?]; [apply lookup_delete_eq|rewrite lookup_delete_ne by done].
    destruct (decide (fhex_of E (sample_name pic sfx) = sample_name pic sfx))
      as [->|?]; [apply lookup_delete_eq|rewrite lookup_delete_ne by done].
    rewrite lookup_insert_ne by done. apply lookup_delete_eq.
Qed.

Lemma sample_accepted_witness :
  ∃ w',
    build_validate_compile_sample demo_env scan_init demo_clock "TEST"
      "16f88" "pin_A0" "HS" "HS" (World ∅ [])
    = Ok (true, w') ∧
    stdout w' = ([] ++ [sample_name "16f88" "_hs"]) ∧
    files w' !! destfile_of demo_env (sample_name "16f88" "_hs")
    = Some (sample_body scan_init {[ "OSCCON_IRCF" := "110" ]} demo_clock
              "16f88" "pin_A0" "HS" "HS" "2020") ∧
    files w' !! sample_name "16f88" "_hs" = None.
Proof.
  apply (sample_accepted demo_env scan_init demo_clock "TEST" "16f88"
           "pin_A0" "HS" "HS" "_hs" "2020" "0 errors, 0 warnings"
           "0 errors, 0 warnings"
           (sample_body scan_init {[ "OSCCON_IRCF" := "110" ]} demo_clock
              "16f88" "pin_A0" "HS" "HS" "2020")
           {[ "OSCCON_IRCF" := "110" ]} (World ∅ [])
           {[ sample_name "16f88" "_hs" :=
                sample_body scan_init {[ "OSCCON_IRCF" := "110" ]} demo_clock
                  "16f88" "pin_A0" "HS" "HS" "2020" ]}
           {[ sample_name "16f88" "_hs" :=
                sample_body scan_init {[ "OSCCON_IRCF" := "110" ]} demo_clock
                  "16f88" "pin_A0" "HS" "HS" "2020" ]}).
  - discriminate.
  - reflexivity.
  - reflexivity.
  - vm_compute. reflexivity.
  - intros H. vm_compute in H. discriminate.
  - vm_compute. reflexivity.
  - vm_compute. reflexivity.
  - vm_compute. reflexivity.
  - vm_compute. reflexivity.
  - vm_compute. reflexivity.
  - vm_compute. reflexivity.
Defined.

(** ** Further properties of the pin selector *)

Lemma usable_iff_direction (fstr c : string) :
  usable fstr c ↔ occurs (c +:+ "_direction") fstr.
Proof.
  split; [by intros [_ H]|]. intros H. split; [|done].
  by apply (occurs_app_l c "_direction").
Qed.

(** [find_blinkpin] returns the empty string exactly when the direction
    name of no candidate occurs in the text; otherwise it returns one of
    the 24 candidates, and the direction name of that candidate occurs in
    the text.  The test of the pin name alone decides nothing: the name
    occurs wherever the direction name does. *)
Theorem find_blinkpin_sound (fstr : string) :
  ((find_blinkpin fstr).1 = "" ↔
   Forall (λ c, ¬ occurs (c +:+ "_direction") fstr) candidates) ∧
  ((find_blinkpin fstr).1 ≠ "" →
   (find_blinkpin fstr).1 ∈ candidates ∧
   occurs ((find_blinkpin fstr).1 +:+ "_direction") fstr).
Proof.
  assert (Hnot : "" ∉ candidates).
  { intros H. apply list_elem_of_In in H. vm_compute in H.
    repeat (destruct H as [H|H]; [discriminate|]). done. }
  unfold find_blinkpin.
  pose proof (blinkpin_ports_spec fstr ["A"; "B"; "C"]%char []) as Hs.
  destruct (blinkpin_ports fstr _ []) as [r out']. cbn [fst].
  fold candidates in Hs.
  destruct Hs as [(before & ([after Hl] & Hu & Hf) & _)|(-> & Hf & _)].
  - assert (Hin : r ∈ candidates).
    { rewrite Hl. set_solver. }
    split.
    + split.
      * intros ->. by destruct Hnot.
      * intros Hall. exfalso. rewrite Hl in Hall.
        apply Forall_app in Hall as [_ Hall]. inversion Hall as [|? ? Hr _].
        apply Hr, Hu.
    + intros _. split; [done|]. apply Hu.
  - split; [|done]. split; [|done]. intros _.
    eapply Forall_impl; [exact Hf|]. intros c Hc Hd. apply Hc.
    by apply usable_iff_direction.
Qed.

Lemma find_blinkpin_sound_witness :
  (find_blinkpin "var bit pin_B3_direction").1 ∈ candidates ∧
  occurs ((find_blinkpin "var bit pin_B3_direction").1 +:+ "_direction")
    "var bit pin_B3_direction".
Proof.
  apply find_blinkpin_sound. vm_compute. discriminate.
Defined.

(** ** Properties of the main loop *)

Lemma validate_jalfile_run (E : env) (jalfile : string) (w : world)
  (r : proc_result) (fs : gmap string string) :
  check_output E (validate_cmdlist E jalfile)
    (delete (vlog_of E jalfile) (files w)) = (r, fs) →
  validate_jalfile E jalfile w
  = match r with
    | Returned _ => Ok (true, World fs (stdout w))
    | CalledProcessError output =>
        Ok (false,
            World (<[vlog_of E jalfile := output +:+ nl]> fs)
                  (stdout w
                   ++ ["   Validation failed for " +:+ jalfile;
                       "   See " +:+ vlog_of E jalfile +:+ " for details"]))
    end.
Proof.
  intros Hco. unfold validate_jalfile. fold (vlog_of E jalfile).
  rewrite remove_if_exists.
  unfold mbind at 1, M_bind at 1, bind at 1, run_process.
  cbn [files stdout]. fold (validate_cmdlist E jalfile). rewrite Hco.
  destruct r as [out|out]; [done|].
  unfold mbind, M_bind, bind, write_file, print, mret, M_ret, ret.
  cbn [files stdout]. by rewrite <- List.app_assoc.
Qed.

Lemma print_lines_run (l : list string) (w : world) :
  print_lines l w = Ok (tt, World (files w) (stdout w ++ l)).
Proof.
  revert w. induction l as [|s l IH]; intros [fs out].
  - cbn. by rewrite List.app_nil_r.
  - cbn [print_lines]. unfold mbind, M_bind, bind, print.
    cbn [files stdout]. rewrite IH. cbn [files stdout].
    by rewrite <- List.app_assoc.
Qed.

(** A device file that fails validation is skipped: it is not even opened,
    the count is unchanged, and the run goes on with the next device, in
    the world the validation left. *)
Theorem main_skips_invalid_device (E : env) (runtype dev output : string)
  (clk : string → nat → clock) (devs : list string) (sample_count : nat)
  (w : world) (fs : gmap string string) :
  runtype ≠ "PROD" →
  check_output E (validate_cmdlist E (path_join (devdir E) dev))
    (delete (vlog_of E (path_join (devdir E) dev)) (files w))
  = (CalledProcessError output, fs) →
  main_loop E runtype clk (dev :: devs) sample_count w
  = main_loop E runtype clk devs sample_count
      (World (<[vlog_of E (path_join (devdir E) dev) := output +:+ nl]> fs)
         (stdout w
          ++ ["   Validation failed for " +:+ path_join (devdir E) dev;
              "   See " +:+ vlog_of E (path_join (devdir E) dev)
              +:+ " for details"])).
Proof.
  intros Hrt Hco. apply String.eqb_neq in Hrt.
  cbn [main_loop]. unfold main_dev. rewrite Hrt.
  unfold mbind at 1, M_bind at 1, bind at 1.
  unfold mbind at 1, M_bind at 1, bind at 1.
  rewrite (validate_jalfile_run E _ w _ fs Hco).
  cbn [negb mret M_ret ret]. by rewrite Nat.add_0_r.
Qed.

Lemma main_skips_invalid_device_witness :
  main_loop demo_rejecting_env "TEST" demo_clocks ["16f88.jal"] 0
    (World ∅ [])
  = Ok (0%nat,
        World {[ "/jallib/blink/16f88.vlog" := "1 errors" +:+ nl ]}
          ["   Validation failed for /jallib/test/16f88.jal";
           "   See /jallib/blink/16f88.vlog for details"]).
Proof.
  etrans.
  - apply (main_skips_invalid_device demo_rejecting_env "TEST" "16f88.jal"
             "1 errors" demo_clocks [] 0 (World ∅ []) ∅).
    + discriminate.
    + vm_compute. reflexivity.
  - vm_compute. reflexivity.
Defined.

(** A device file that passes validation but makes the scan raise an
    exception stops the whole run: the exception escapes from [main], and
    no later device is processed. *)
Theorem main_stops_on_scan_error (E : env) (runtype dev vout text : string)
  (clk : string → nat → clock) (devs : list string) (sample_count : nat)
  (w : world) (fs : gmap string string) (e : exn) :
  runtype ≠ "PROD" →
  check_output E (validate_cmdlist E (path_join (devdir E) dev))
    (delete (vlog_of E (path_join (devdir E) dev)) (files w))
  = (Returned vout, fs) →
  fs !! path_join (devdir E) dev = Some text →
  scan_devfile text = Some (Raise e) →
  main_loop E runtype clk (dev :: devs) sample_count w = Raise e.
Proof.
  intros Hrt Hco Htext Hscan. apply String.eqb_neq in Hrt.
  cbn [main_loop]. unfold main_dev. rewrite Hrt.
  unfold mbind at 1, M_bind at 1, bind at 1.
  unfold mbind at 1, M_bind at 1, bind at 1.
  rewrite (validate_jalfile_run E _ w _ fs Hco). cbn [negb].
  unfold mbind at 1, M_bind at 1, bind at 1, read_file at 1.
  cbn [files stdout]. rewrite Htext.
  unfold mbind at 1, M_bind at 1, bind at 1, lift, scan_result.
  by rewrite Hscan.
Qed.

Lemma main_stops_on_scan_error_witness :
  main_loop demo_env "TEST" demo_clocks ["16f88.jal"; "16f630.jal"] 0
    (World {[ "/jallib/test/16f88.jal" := blank_inside_devfile ]} [])
  = Raise IndexError.
Proof.
  apply (main_stops_on_scan_error demo_env "TEST" "16f88.jal"
           "0 errors, 0 warnings" blank_inside_devfile demo_clocks
           ["16f630.jal"] 0
           (World {[ "/jallib/test/16f88.jal" := blank_inside_devfile ]} [])
           {[ "/jallib/test/16f88.jal" := blank_inside_devfile ]}).
  - discriminate.
  - vm_compute. reflexivity.
  - vm_compute. reflexivity.
  - vm_compute. reflexivity.
Defined.

(** A device file that passes validation and scans normally but offers no
    usable pin is skipped: nothing is built, the count is unchanged, and
    the run goes on with the next device after the messages of
    [find_blinkpin]. *)
Theorem main_skips_device_without_pin (E : env)
  (runtype dev vout text : string) (clk : string → nat → clock)
  (devs : list string) (sample_count : nat) (w : world)
  (fs : gmap string string) (st : scan_state) :
  runtype ≠ "PROD" →
  check_output E (validate_cmdlist E (path_join (devdir E) dev))
    (delete (vlog_of E (path_join (devdir E) dev)) (files w))
  = (Returned vout, fs) →
  fs !! path_join (devdir E) dev = Some text →
  scan_devfile text = Some (Ok st) →
  Forall (λ c, ¬ occurs (c +:+ "_direction") text) candidates →
  main_loop E runtype clk (dev :: devs) sample_count w
  = main_loop E runtype clk devs sample_count
      (World fs (stdout w ++ skip_msgs text candidates
                 ++ ["   Could not find suitable I/O pin for LED"])).
Proof.
  intros Hrt Hco Htext Hscan Hnone. apply String.eqb_neq in Hrt.
  cbn [main_loop]. unfold main_dev. rewrite Hrt.
  unfold mbind at 1, M_bind at 1, bind at 1.
  unfold mbind at 1, M_bind at 1, bind at 1.
  rewrite (validate_jalfile_run E _ w _ fs Hco). cbn [negb].
  unfold mbind at 1, M_bind at 1, bind at 1, read_file at 1.
  cbn [files stdout]. rewrite Htext.
  unfold mbind at 1, M_bind at 1, bind at 1, lift, scan_result.
  rewrite Hscan. cbn [from_option id].
  unfold mbind at 1, M_bind at 1, bind at 1, read_file at 1.
  cbn [files stdout]. rewrite Htext.
  assert (find_blinkpin text
          = ("", skip_msgs text candidates
                 ++ ["   Could not find suitable I/O pin for LED"])) as ->.
  { unfold find_blinkpin.
    pose proof (blinkpin_ports_spec text ["A"; "B"; "C"]%char []) as Hs.
    destruct (blinkpin_ports text _ []) as [r out']. fold candidates in Hs.
    destruct Hs as [(before & ([after Hl] & Hu & _) & _)|(-> & _ & ->)];
      [|done].
    exfalso. rewrite Hl in Hnone. apply Forall_app in Hnone as [_ Hnone].
    inversion Hnone as [|? ? Hr _]. apply Hr, Hu. }
  unfold mbind at 1, M_bind at 1, bind at 1. rewrite print_lines_run.
  cbn [files stdout String.eqb mret M_ret ret]. by rewrite Nat.add_0_r.
Qed.

Lemma main_skips_device_without_pin_witness :
  main_loop demo_env "TEST" demo_clocks ["16f88.jal"] 0
    (World {[ "/jallib/test/16f88.jal" := unterminated_devfile ]} [])
  = Ok (0%nat,
        World {[ "/jallib/test/16f88.jal" := unterminated_devfile ]}
          ["   Could not find suitable I/O pin for LED"]).
Proof.
  etrans.
  - apply (main_skips_device_without_pin demo_env "TEST" "16f88.jal"
             "0 errors, 0 warnings" unterminated_devfile demo_clocks [] 0
             (World {[ "/jallib/test/16f88.jal" := unterminated_devfile ]} [])
             {[ "/jallib/test/16f88.jal" := unterminated_devfile ]}
             (ScanState {[ "ircfwidth" := 0 ]} {[ "osc" := ["HS"; "XT"] ]})).
    + discriminate.
    + vm_compute. reflexivity.
    + vm_compute. reflexivity.
    + vm_compute. reflexivity.
    + repeat constructor; intros H; apply contains_spec in H;
        vm_compute in H; discriminate.
  - vm_compute. reflexivity.
Defined.

(** ** Properties of the entry point *)

(** The entry point never goes on with run type PROD, in whatever letter
    case it is given: when it goes on, the run type is the first argument
    in upper case and is not PROD, there are at most two arguments, the
    selection is the second argument followed by ".jal" or else "1*.jal",
    the table of devicespecific.json was loaded, and in TEST mode the file
    chipdef_jallib.jal exists among the device files. *)
Theorem startup_never_prod (E : env)
  (json_load : string → result (gmap string (gmap string string)))
  (argv : list string) (runtype selection : string) (w w' : world) :
  startup E json_load argv w = Ok (Start runtype selection, w') →
  runtype ≠ "PROD" ∧
  (∃ prog arg1 rest,
     argv = prog :: arg1 :: rest ∧ runtype = upper arg1 ∧
     (rest = [] ∧ selection = "1*.jal"
      ∨ ∃ arg2, rest = [arg2] ∧ selection = arg2 +:+ ".jal")) ∧
  (∃ text table, files w !! devspecfile E = Some text ∧
                 json_load text = Ok table) ∧
  (runtype = "TEST" →
   is_Some (files w !! path_join (devdir E) "chipdef_jallib.jal")) ∧
  files w' = files w.
Proof.
  intros H. destruct argv as [|prog [|arg1 rest]];
    [discriminate H..|]. cbn [startup] in H.
  destruct (Nat.ltb 3 (length (prog :: arg1 :: rest))) eqn:Hlen;
    [discriminate H|]. apply Nat.ltb_ge in Hlen. cbn [length] in Hlen.
  destruct w as [fs out].
  unfold mbind at 1, M_bind at 1, bind at 1, print at 1 in H.
  cbn [files stdout] in H.
  unfold mbind at 1, M_bind at 1, bind at 1, read_devspec_file in H.
  unfold mbind at 1, M_bind at 1, bind at 1, read_file in H.
  cbn [files stdout] in H.
  destruct (fs !! devspecfile E) as [text|] eqn:Htext; [|discriminate H].
  unfold lift in H.
  destruct (json_load text) as [table|e] eqn:Hjson; [|discriminate H].
  destruct (String.eqb (upper arg1) "PROD") eqn:Hprod; [discriminate H|].
  apply String.eqb_neq in Hprod.
  assert (Hsel : rest = [] ∧ match rest with
                               | arg2 :: _ => arg2 +:+ ".jal"
                               | [] => "1*.jal"
                               end = "1*.jal"
                 ∨ ∃ arg2, rest = [arg2] ∧
                     match rest with
                     | arg2 :: _ => arg2 +:+ ".jal"
                     | [] => "1*.jal"
                     end = arg2 +:+ ".jal").
  { destruct rest as [|arg2 [|arg3 rest]]; [by left|right; by eexists|].
    cbn [length] in Hlen. lia. }
  destruct (String.eqb (upper arg1) "TEST") eqn:Htest.
  - unfold mbind at 1, M_bind at 1, bind at 1, path_exists, has_key in H.
    cbn [files stdout] in H.
    destruct (decide (is_Some (fs !! path_join (devdir E) "chipdef_jallib.jal")))
      as [Hex|Hnex].
    + rewrite bool_decide_eq_true_2 in H by done. cbn in H.
      injection H as <- <- <-. cbn [files].
      split; [done|]. split; [by exists prog, arg1, rest|].
      split; [by exists text, table|]. done.
    + rewrite bool_decide_eq_false_2 in H by done. discriminate H.
  - cbn in H. injection H as <- <- <-. cbn [files].
    split; [done|]. split; [by exists prog, arg1, rest|].
    split; [by exists text, table|]. split; [|done].
    intros Heq. rewrite Heq in Htest. discriminate Htest.
Qed.

Lemma startup_never_prod_witness :
  "TEST" ≠ "PROD" ∧
  (∃ prog arg1 rest,
     ["blink-a-led.py"; "test"; "16f8*"] = prog :: arg1 :: rest ∧
     "TEST" = upper arg1 ∧
     (rest = [] ∧ "16f8*.jal" = "1*.jal"
      ∨ ∃ arg2, rest = [arg2] ∧ "16f8*.jal" = arg2 +:+ ".jal")) ∧
  (∃ text table,
     files (World {[ "/jallib/devicespecific.json" := "{}";
                     "/jallib/test/chipdef_jallib.jal" := "" ]} [])
       !! devspecfile demo_env = Some text ∧
     demo_json_load text = Ok table) ∧
  ("TEST" = "TEST" →
   is_Some (files (World {[ "/jallib/devicespecific.json" := "{}";
                            "/jallib/test/chipdef_jallib.jal" := "" ]} [])
              !! path_join (devdir demo_env) "chipdef_jallib.jal")) ∧
  files (World {[ "/jallib/devicespecific.json" := "{}";
                  "/jallib/test/chipdef_jallib.jal" := "" ]}
           ["Creating blink-a-led sample files"])
  = files (World {[ "/jallib/devicespecific.json" := "{}";
                    "/jallib/test/chipdef_jallib.jal" := "" ]} []).
Proof.
  apply (startup_never_prod demo_env demo_json_load
           ["blink-a-led.py"; "test"; "16f8*"] "TEST" "16f8*.jal").
  vm_compute. reflexivity.
Defined.

(** With PROD as first argument, in any letter case, and at most two
    arguments, the script exits with status 1 as soon as the table of
    devicespecific.json is loaded, without touching any file. *)
Theorem startup_prod_exits (E : env)
  (json_load : string → result (gmap string (gmap string string)))
  (prog arg1 text : string) (rest : list string)
  (table : gmap string (gmap string string)) (w : world) :
  upper arg1 = "PROD" →
  (length rest ≤ 1)%nat →
  files w !! devspecfile E = Some text →
  json_load text = Ok table →
  startup E json_load (prog :: arg1 :: rest) w
  = Ok (Exit 1,
        World (files w)
          (stdout w ++ ["Creating blink-a-led sample files";
                        "PROD option temporary disabled"])).
Proof.
  intros Hup Hlen Htext Hjson. cbn [startup].
  assert (Nat.ltb 3 (length (prog :: arg1 :: rest)) = false) as ->.
  { apply Nat.ltb_ge. cbn [length]. lia. }
  rewrite Hup. destruct w as [fs out]. cbn [files stdout] in *.
  unfold mbind at 1, M_bind at 1, bind at 1, print at 1.
  cbn [files stdout].
  unfold mbind at 1, M_bind at 1, bind at 1, read_devspec_file.
  unfold mbind at 1, M_bind at 1, bind at 1, read_file.
  cbn [files stdout]. rewrite Htext. unfold lift. rewrite Hjson.
  cbn [String.eqb Ascii.eqb Bool.eqb].
  unfold mbind, M_bind, bind, print, mret, M_ret, ret. cbn [files stdout].
  by rewrite <- List.app_assoc.
Qed.

Lemma startup_prod_exits_witness :
  startup demo_env demo_json_load ["blink-a-led.py"; "Prod"]
    (World {[ "/jallib/devicespecific.json" := "{}" ]} [])
  = Ok (Exit 1,
        World {[ "/jallib/devicespecific.json" := "{}" ]}
          ([] ++ ["Creating blink-a-led sample files";
                  "PROD option temporary disabled"])).
Proof.
  refine (startup_prod_exits demo_env demo_json_load "blink-a-led.py" "Prod"
            "{}" [] ∅ (World {[ "/jallib/devicespecific.json" := "{}" ]} [])
            _ _ _ _).
  - reflexivity.
  - simpl. lia.
  - vm_compute. reflexivity.
  - reflexivity.
Defined.
